(** * Browser context factories of playwright-mcp (src/browserContextFactory.ts)

    A shallow embedding of the context-acquisition code: the strategy
    selector, the profile directory naming, the persistent strategy with its
    launch retry loop, liveness probe and soft/hard close, and the registry
    shared by the isolated, CDP and remote strategies.

    Asynchronous code is embedded as run-to-completion segments: the code
    between two suspension points (an [await] on an external call or on a
    promise) is one function on the factory state, and an event of the
    machine runs one segment.  External calls (launch, connect, close,
    title, timers) are inputs of the events that settle them. *)

From stdpp Require Import gmap strings list.
From Stdlib Require Import ZArith Lia.

Local Open Scope string_scope.

(** ** JavaScript values the code tests *)

Module JS.

(** [s.includes(needle)]: [needle] occurs somewhere in [s]. *)
Fixpoint includes (needle s : string) : bool :=
  String.prefix needle s ||
  match s with
  | EmptyString => false
  | String _ rest => includes needle rest
  end.

(** Truthiness of a [string | undefined]: [undefined] and the empty string
    are falsy. *)
Definition truthy (v : option string) : bool :=
  match v with
  | Some s => negb (String.eqb s "")
  | None => false
  end.

(** [a ?? b]: the right operand only for [undefined]. *)
Definition nullish {A} (a : option A) (b : A) : A :=
  match a with
  | Some x => x
  | None => b
  end.

(** The outcome of an awaited call: fulfilled with a value or rejected with
    an error, of which the code only reads [message]. *)
Inductive Result (A : Type) : Type :=
| Ok (a : A)
| Err (message : string).
Arguments Ok {A} a.
Arguments Err {A} message.

End JS.
Export JS.

(** ** Configuration *)

Module Config.

Inductive BrowserName := chromium | firefox | webkit.

Definition browserName_string (b : BrowserName) : string :=
  match b with
  | chromium => "chromium"
  | firefox => "firefox"
  | webkit => "webkit"
  end.

#[export] Instance BrowserName_eq_dec : EqDecision BrowserName.
Proof. solve_decision. Defined.

(** Modelled from the spec: the declaration of FullConfig (config.ts) is not
    among the sources; these are the fields browserContextFactory.ts reads.
    [launchOptions] is always an object ([injectCdpPort] assigns a property
    of it unguarded), its [channel] is optional. *)
Record LaunchOptions := {
  channel : option string
}.

Record BrowserConfig := {
  browserName : BrowserName;
  isolated : bool;
  userDataDir : option string;
  remoteEndpoint : option string;
  cdpEndpoint : option string;
  launchOptions : LaunchOptions
}.

Record FullConfig := {
  browser : BrowserConfig;
  saveTrace : bool
}.

(** [ClientInfo]: only [rootPath] is read. *)
Record ClientInfo := {
  rootPath : option string
}.

End Config.
Export Config.

(** ** Strategy selector: [contextFactory] *)

Module Selector.

Inductive Strategy :=
| RemoteContextFactory
| CdpContextFactory
| IsolatedContextFactory
| PersistentContextFactory.

Definition contextFactory (config : FullConfig) : Strategy :=
  if truthy (remoteEndpoint (browser config)) then RemoteContextFactory
  else if truthy (cdpEndpoint (browser config)) then CdpContextFactory
  else if isolated (browser config) then IsolatedContextFactory
  else PersistentContextFactory.

(** The selector as the specification words it: an ordered list of rules,
    the first rule whose condition holds decides, and the persistent
    strategy is the default. *)
Definition precedence : list ((FullConfig -> bool) * Strategy) :=
  [ (fun c => truthy (remoteEndpoint (browser c)), RemoteContextFactory);
    (fun c => truthy (cdpEndpoint (browser c)), CdpContextFactory);
    (fun c => isolated (browser c), IsolatedContextFactory) ].

Fixpoint first_match (rules : list ((FullConfig -> bool) * Strategy))
    (c : FullConfig) : Strategy :=
  match rules with
  | [] => PersistentContextFactory
  | (cond, k) :: rest => if cond c then k else first_match rest c
  end.

End Selector.

(** ** What the host provides *)

Module Host.

(** [createHash] (utils/guid.js), [path.join], the registry directory of
    playwright-core and the environment variable
    PWMCP_PROFILES_DIR_FOR_TEST are not part of the sources. *)
Record Platform := {
  createHash : string -> string;
  path_join : string -> string -> string;
  registryDirectory : string;
  PWMCP_PROFILES_DIR_FOR_TEST : option string
}.

End Host.
Export Host.

(** ** Lines 355-382: the helpers awaited before a launch *)

Module Helpers.

(** [findFreePort] is only called for chromium; [port] is how it ends. *)
Definition injectCdpPort (browserConfig : BrowserConfig) (port : Result Z)
    : Result unit :=
  if decide (browserName browserConfig = chromium) then
    match port with
    | Ok _ => Ok ()
    | Err e => Err e
    end
  else Ok ().

(** [traces] is how [outputFile] and [startTraceViewerServer] end. *)
Definition startTraceServer (config : FullConfig) (traces : Result string)
    : Result (option string) :=
  if negb (saveTrace config) then Ok None
  else match traces with
       | Ok tracesDir => Ok (Some tracesDir)
       | Err e => Err e
       end.

Definition NOT_INSTALLED : string :=
  "Browser specified in your config is not installed. Either install it (likely) or change the config.".

End Helpers.
Export Helpers.

(** ** The persistent strategy: [PersistentContextFactory] *)

Module Persistent.

(** The two functions handed out as [close]. *)
Inductive CloseFn := SoftClose | HardClose.

(** What [createContext] resolves with.  [browserContext] is the number of
    a launched persistent context, or [None] for [undefined]. *)
Record Session := {
  browserContext : option nat;
  close : CloseFn
}.

(** Calls on the outside world, in the order the code makes them. *)
Inductive Effect :=
| StartCreation
| Mkdir (dir : string)
| Launch (dir : string)
| Wait (ms : Z)
| CloseCall (b : nat)
| DeleteDir (dir : string).

#[export] Instance Effect_eq_dec : EqDecision Effect.
Proof. solve_decision. Defined.

(** [launchPersistentContext] resolves with a context, given here by the
    [isClosed()] flags of its [pages()], or rejects. *)
Inductive LaunchOutcome :=
| Launched (pages : list bool)
| LaunchFailed (message : string).

(** How the external calls of one [_doCreateContext] run end. *)
Record Externals := {
  findFreePort : Result Z;
  mkdir : Result unit;
  traceServer : Result string;
  launchPersistentContext : nat -> LaunchOutcome
}.

(** The fields of the factory, the persistent contexts launched so far
    (each with the [isClosed()] flags of its [pages()]) and the log of
    external calls. *)
Record Factory := {
  config : FullConfig;
  _userDataDirs : gset string;
  _browserInstance : option nat;
  _userDataDir : option string;
  _createContextPromise : option nat;
  opened : list (list bool);
  log : list Effect
}.

Definition new_factory (config : FullConfig) : Factory :=
  {| config := config; _userDataDirs := ∅; _browserInstance := None;
     _userDataDir := None; _createContextPromise := None;
     opened := []; log := [] |}.

Definition set_userDataDirs (v : gset string) (f : Factory) : Factory :=
  {| config := config f; _userDataDirs := v;
     _browserInstance := _browserInstance f; _userDataDir := _userDataDir f;
     _createContextPromise := _createContextPromise f;
     opened := opened f; log := log f |}.

Definition set_browserInstance (v : option nat) (f : Factory) : Factory :=
  {| config := config f; _userDataDirs := _userDataDirs f;
     _browserInstance := v; _userDataDir := _userDataDir f;
     _createContextPromise := _createContextPromise f;
     opened := opened f; log := log f |}.

Definition set_userDataDir (v : option string) (f : Factory) : Factory :=
  {| config := config f; _userDataDirs := _userDataDirs f;
     _browserInstance := _browserInstance f; _userDataDir := v;
     _createContextPromise := _createContextPromise f;
     opened := opened f; log := log f |}.

Definition set_createContextPromise (v : option nat) (f : Factory) : Factory :=
  {| config := config f; _userDataDirs := _userDataDirs f;
     _browserInstance := _browserInstance f; _userDataDir := _userDataDir f;
     _createContextPromise := v;
     opened := opened f; log := log f |}.

Definition set_opened (v : list (list bool)) (f : Factory) : Factory :=
  {| config := config f; _userDataDirs := _userDataDirs f;
     _browserInstance := _browserInstance f; _userDataDir := _userDataDir f;
     _createContextPromise := _createContextPromise f;
     opened := v; log := log f |}.

Definition emit (e : Effect) (f : Factory) : Factory :=
  {| config := config f; _userDataDirs := _userDataDirs f;
     _browserInstance := _browserInstance f; _userDataDir := _userDataDir f;
     _createContextPromise := _createContextPromise f;
     opened := opened f; log := log f ++ [e] |}.

(** [browserContext.pages()] of a launched context. *)
Definition pages (b : nat) (f : Factory) : list bool :=
  default [] (opened f !! b).

(** *** Lines 328-336: [_createUserDataDir] *)

Definition browserToken (config : FullConfig) : string :=
  nullish (channel (launchOptions (browser config)))
          (browserName_string (browserName (browser config))).

Definition rootPathToken (pf : Platform) (rootPath : option string) : string :=
  if truthy rootPath then "-" ++ createHash pf (default "" rootPath) else "".

Definition _createUserDataDir (pf : Platform) (rootPath : option string)
    (ext : Externals) (f : Factory) : Result string * Factory :=
  let dir := nullish (PWMCP_PROFILES_DIR_FOR_TEST pf) (registryDirectory pf) in
  let result :=
    path_join pf dir
      ("mcp-" ++ browserToken (config f) ++ rootPathToken pf rootPath) in
  match mkdir ext with
  | Ok _ => (Ok result, emit (Mkdir result) f)
  | Err e => (Err e, emit (Mkdir result) f)
  end.

(** *** Lines 198-246: [_doCreateContext] *)

Definition ALREADY_RUNNING : string :=
  "Browser is already running with the same profile. Please close the existing browser instance or wait for it to fully shut down.".

Definition EXHAUSTED : string :=
  "Failed to create browser context after 3 attempts".

(** The [for] loop of lines 212-243, entered with [i] and [3 - i] rounds
    left.  A launch that resolves sets [_browserInstance] and registers the
    listeners; a rejected one is classified by its message. *)
Fixpoint launch_loop (rounds i : nat) (userDataDir : string) (ext : Externals)
    (f : Factory) : Result Session * Factory :=
  match rounds with
  | O => (Err EXHAUSTED, f)
  | S rounds' =>
    let f := emit (Launch userDataDir) f in
    match launchPersistentContext ext i with
    | Launched ps =>
      let b := length (opened f) in
      let f := set_browserInstance (Some b) (set_opened (opened f ++ [ps]) f) in
      (Ok {| browserContext := _browserInstance f; close := HardClose |}, f)
    | LaunchFailed message =>
      if includes "Executable doesn't exist" message then
        (Err NOT_INSTALLED, f)
      else if includes "ProcessSingleton" message
              || includes "Invalid URL" message then
        if (i <? 2)%nat then
          launch_loop rounds' (S i) userDataDir ext
            (emit (Wait (2000 * (Z.of_nat i + 1))) f)
        else (Err ALREADY_RUNNING, f)
      else (Err message, f)
    end
  end.

Definition _doCreateContext (pf : Platform) (clientInfo : ClientInfo)
    (ext : Externals) (f : Factory) : Result Session * Factory :=
  match injectCdpPort (browser (config f)) (findFreePort ext) with
  | Err e => (Err e, f)
  | Ok _ =>
    let '(dir, f) :=
      match userDataDir (browser (config f)) with
      | Some d => (Ok d, f)
      | None => _createUserDataDir pf (rootPath clientInfo) ext f
      end in
    match dir with
    | Err e => (Err e, f)
    | Ok userDataDir =>
      match startTraceServer (config f) (traceServer ext) with
      | Err e => (Err e, f)
      | Ok _ =>
        let f := set_userDataDir (Some userDataDir) f in
        let f := set_userDataDirs ({[userDataDir]} ∪ _userDataDirs f) f in
        launch_loop 3 0 userDataDir ext f
      end
    end
  end.

(** *** Lines 248-269: [_isBrowserContextValid] *)

(** How [pages[0].title()] ends: fulfilled or rejected after [ms]
    milliseconds, or never. *)
Inductive TitleOutcome :=
| TitleFulfilled (ms : Z)
| TitleRejected (ms : Z) (message : string)
| TitleNever.

(** [Promise.race] of the title against the timer of 1000 ms. *)
Definition race_title (title : TitleOutcome) : Result unit :=
  match title with
  | TitleFulfilled ms => if (ms <? 1000)%Z then Ok () else Err "timeout"
  | TitleRejected ms e => if (ms <? 1000)%Z then Err e else Err "timeout"
  | TitleNever => Err "timeout"
  end.

Definition _isBrowserContextValid (ps : list bool) (title : TitleOutcome)
    : bool :=
  let body : Result bool :=
    if (length ps =? 0)%nat then Ok true
    else if (0 <? length ps)%nat then
      match race_title title with
      | Ok _ => Ok true
      | Err e => Err e
      end
    else Ok true in
  match body with
  | Ok v => v
  | Err _ => false
  end.

(** *** Lines 271-280: the listener of the context's close event *)

Definition closeListener (f : Factory) : Factory :=
  let f := set_browserInstance None f in
  if truthy (_userDataDir f) then
    let f := emit (DeleteDir (default "" (_userDataDir f))) f in
    let f :=
      set_userDataDirs (_userDataDirs f ∖ {[default "" (_userDataDir f)]}) f in
    set_userDataDir None f
  else f.

(** *** Lines 291-317: soft and hard close *)

Definition _softCloseBrowserContext (f : Factory) : Factory := f.

(** Lines 309-316, after the guarded close. *)
Definition _hardCloseBrowserContext_finish (f : Factory) : Factory :=
  let f := set_browserInstance None f in
  if truthy (_userDataDir f) then
    let f := emit (DeleteDir (default "" (_userDataDir f))) f in
    let f :=
      set_userDataDirs (_userDataDirs f ∖ {[default "" (_userDataDir f)]}) f in
    set_userDataDir None f
  else f.

(** Lines 297-303: [inl] when the call suspends on
    [_browserInstance.close()], [inr] when it runs through. *)
Definition _hardCloseBrowserContext_enter (f : Factory)
    : Factory + Factory :=
  match _browserInstance f with
  | Some b =>
    if negb (forallb id (pages b f)) then inl (emit (CloseCall b) f)
    else inr (_hardCloseBrowserContext_finish f)
  | None => inr (_hardCloseBrowserContext_finish f)
  end.

(** How [close()] of a persistent context ends: whether it rejected, and
    whether the context emitted its close event before that. *)
Record CloseOutcome := {
  threw : bool;
  emitted : bool
}.

(** A hard close from call to return.  The awaited close is inside the
    try of lines 302-306, whose catch only logs. *)
Definition _hardCloseBrowserContext (o : CloseOutcome) (f : Factory)
    : Result unit * Factory :=
  match _hardCloseBrowserContext_enter f with
  | inl f =>
    let f := if emitted o then closeListener f else f in
    let attempt : Result unit :=
      if threw o then Err "Target page, context or browser has been closed"
      else Ok () in
    match attempt with
    | Ok _ => (Ok (), _hardCloseBrowserContext_finish f)
    | Err _ => (Ok (), _hardCloseBrowserContext_finish f)
    end
  | inr f => (Ok (), f)
  end.

(** Lines 339-343. *)
Definition resetBrowserInstance (o : CloseOutcome) (f : Factory)
    : Result unit * Factory :=
  match _hardCloseBrowserContext o f with
  | (Ok _, f) => (Ok (), set_createContextPromise None f)
  | (Err e, f) => (Err e, f)
  end.

(** *** Lines 171-196: [createContext], by segments *)

Inductive Suspended :=
| ReturnPending (p : nat)
| AwaitProbe (ps : list bool)
| AwaitCreation (p : nat)
| Return (s : Session).

(** Line 188: [_doCreateContext] is called and its promise, numbered [p],
    is stored. *)
Definition createContext_start (p : nat) (f : Factory) : Suspended * Factory :=
  (AwaitCreation p, set_createContextPromise (Some p) (emit StartCreation f)).

(** Lines 173-179, up to the first await. *)
Definition createContext_enter (p : nat) (f : Factory) : Suspended * Factory :=
  match _createContextPromise f with
  | Some q => (ReturnPending q, f)
  | None =>
    match _browserInstance f with
    | Some b => (AwaitProbe (pages b f), f)
    | None => createContext_start p f
    end
  end.

(** Lines 179-188, once the probe has answered. *)
Definition createContext_afterProbe (valid : bool) (p : nat) (f : Factory)
    : Suspended * Factory :=
  if valid then
    (Return {| browserContext := _browserInstance f; close := SoftClose |}, f)
  else createContext_start p f.

(** Lines 193-195. *)
Definition createContext_finally (f : Factory) : Factory :=
  set_createContextPromise None f.

(** *** The factory under concurrent callers

    Each call is a task.  A task is suspended at one of the awaits of the
    code, or it is over.  [_doCreateContext] is run as one segment when the
    last of its external calls settles: nothing else reads what it writes
    between its awaits in the properties stated on this machine, and what
    counts are the calls it makes.  The machine of [Segments] below
    suspends it at each of its awaits; every run of this machine is the
    run of that one in which nothing comes between the awaits of a
    creation. *)

Inductive Task :=
| Probing (ps : list bool) (clientInfo : ClientInfo)
| Creating (p : nat)
| Joined (p : nat)
| Closing (reset : bool)
| Resolved (r : Result Session)
| Returned.

Record Machine := {
  factory : Factory;
  promises : list (ClientInfo * option (Result Session));
  tasks : list Task
}.

Inductive Event :=
| Call_createContext (clientInfo : ClientInfo)
| Probe_settled (t : nat) (title : TitleOutcome)
| Creation_settled (p : nat) (ext : Externals)
| Call_close (c : CloseFn)
| Call_resetBrowserInstance
| Close_settled (t : nat)
| Close_event (b : nat)
| Pages_changed (b : nat) (ps : list bool).

Definition boot (config : FullConfig) : Machine :=
  {| factory := new_factory config; promises := []; tasks := [] |}.

(** The task a caller becomes at a suspension of [createContext]. *)
Definition task_of (m : Machine) (clientInfo : ClientInfo) (s : Suspended)
    : Task :=
  match s with
  | ReturnPending q =>
    match promises m !! q with
    | Some (_, Some r) => Resolved r
    | _ => Joined q
    end
  | AwaitProbe ps => Probing ps clientInfo
  | AwaitCreation p => Creating p
  | Return s => Resolved (Ok s)
  end.

Definition promises_of (m : Machine) (clientInfo : ClientInfo) (s : Suspended)
    : list (ClientInfo * option (Result Session)) :=
  match s with
  | AwaitCreation _ => promises m ++ [(clientInfo, None)]
  | _ => promises m
  end.

Definition is_creating (p : nat) (k : Task) : bool :=
  match k with
  | Creating q => bool_decide (p = q)
  | _ => false
  end.

(** A settled creation promise wakes the caller that awaits it at line 191
    and the callers it was returned to at line 175. *)
Definition resume (p : nat) (r : Result Session) (k : Task) : Task :=
  match k with
  | Creating q => if decide (p = q) then Resolved r else k
  | Joined q => if decide (p = q) then Resolved r else k
  | _ => k
  end.

Definition step (pf : Platform) (m : Machine) (e : Event) : Machine :=
  match e with
  | Call_createContext clientInfo =>
    let '(s, f) := createContext_enter (length (promises m)) (factory m) in
    {| factory := f; promises := promises_of m clientInfo s;
       tasks := tasks m ++ [task_of m clientInfo s] |}
  | Probe_settled t title =>
    match tasks m !! t with
    | Some (Probing ps clientInfo) =>
      let '(s, f) :=
        createContext_afterProbe (_isBrowserContextValid ps title)
          (length (promises m)) (factory m) in
      {| factory := f; promises := promises_of m clientInfo s;
         tasks := <[t := task_of m clientInfo s]> (tasks m) |}
    | _ => m
    end
  | Creation_settled p ext =>
    match promises m !! p with
    | Some (clientInfo, None) =>
      let '(r, f) := _doCreateContext pf clientInfo ext (factory m) in
      let f :=
        if existsb (is_creating p) (tasks m) then createContext_finally f
        else f in
      {| factory := f; promises := <[p := (clientInfo, Some r)]> (promises m);
         tasks := resume p r <$> tasks m |}
    | _ => m
    end
  | Call_close SoftClose =>
    {| factory := _softCloseBrowserContext (factory m);
       promises := promises m; tasks := tasks m ++ [Returned] |}
  | Call_close HardClose =>
    match _hardCloseBrowserContext_enter (factory m) with
    | inl f =>
      {| factory := f; promises := promises m;
         tasks := tasks m ++ [Closing false] |}
    | inr f =>
      {| factory := f; promises := promises m;
         tasks := tasks m ++ [Returned] |}
    end
  | Call_resetBrowserInstance =>
    match _hardCloseBrowserContext_enter (factory m) with
    | inl f =>
      {| factory := f; promises := promises m;
         tasks := tasks m ++ [Closing true] |}
    | inr f =>
      {| factory := set_createContextPromise None f; promises := promises m;
         tasks := tasks m ++ [Returned] |}
    end
  | Close_settled t =>
    match tasks m !! t with
    | Some (Closing reset) =>
      let f := _hardCloseBrowserContext_finish (factory m) in
      {| factory := if reset then set_createContextPromise None f else f;
         promises := promises m; tasks := <[t := Returned]> (tasks m) |}
    | _ => m
    end
  | Close_event b =>
    match opened (factory m) !! b with
    | Some _ =>
      {| factory := closeListener (factory m); promises := promises m;
         tasks := tasks m |}
    | None => m
    end
  | Pages_changed b ps =>
    {| factory := set_opened (<[b := ps]> (opened (factory m))) (factory m);
       promises := promises m; tasks := tasks m |}
  end.

Definition run (pf : Platform) (m : Machine) (es : list Event) : Machine :=
  fold_left (step pf) es m.

(** The number of [launchPersistentContext] calls and of
    [_doCreateContext] runs in a log. *)
Definition is_launch (e : Effect) : bool :=
  match e with Launch _ => true | _ => false end.

Definition is_start (e : Effect) : bool :=
  match e with StartCreation => true | _ => false end.

Definition count (p : Effect -> bool) (l : list Effect) : nat :=
  length (filter (fun e => p e = true) l).

(** *** Notions the properties are stated with *)

(** The two tests of the catch clause, lines 229 and 232. *)
Definition missing (message : string) : bool :=
  includes "Executable doesn't exist" message.

Definition locked (message : string) : bool :=
  includes "ProcessSingleton" message || includes "Invalid URL" message.

(** Attempt [i] is reached when the attempts before it were rejected with
    the lock symptom (and not with the missing executable one). *)
Definition contended (ext : Externals) (i : nat) : Prop :=
  forall j, j < i ->
    exists message,
      launchPersistentContext ext j = LaunchFailed message
      /\ missing message = false /\ locked message = true.

(** What reaching attempt [i] has logged: a launch and a wait of
    2000 ms times the attempt number for each attempt before it. *)
Fixpoint backoff (dir : string) (i : nat) : list Effect :=
  match i with
  | O => []
  | S j => (backoff dir j ++ [Launch dir; Wait (2000 * (Z.of_nat j + 1))])%list
  end.

(** The number of times the claim on [d] is released in a log. *)
Definition releases (d : string) (l : list Effect) : nat :=
  length (filter (fun e => e = DeleteDir d) l).

(** P5 as the specification states it, on one run: the first
    [createContext] of a new factory, the close it returned, and a second
    [createContext], whose probe ends as [title] says. *)
Definition first_call pf config clientInfo ext : Machine :=
  run pf (boot config) [Call_createContext clientInfo; Creation_settled 0 ext].

Definition returned_close (m : Machine) (t : nat) : option CloseFn :=
  match tasks m !! t with
  | Some (Resolved (Ok s)) => Some (close s)
  | _ => None
  end.

Definition close_events (c : CloseFn) (b t : nat) : list Event :=
  match c with
  | SoftClose => [Call_close SoftClose]
  | HardClose => [Call_close HardClose; Close_event b; Close_settled t]
  end.

Definition cycle pf config clientInfo ext title ext' : Machine :=
  let m := first_call pf config clientInfo ext in
  match returned_close m 0 with
  | Some c =>
    run pf m
      (close_events c 0 1
       ++ [Call_createContext clientInfo; Probe_settled 2 title;
           Creation_settled 1 ext'])
  | None => m
  end.

Definition reuses_after_close pf config clientInfo ext title ext' : Prop :=
  count is_launch (log (factory (cycle pf config clientInfo ext title ext')))
  = count is_launch (log (factory (first_call pf config clientInfo ext)))
  /\ exists s s',
       tasks (cycle pf config clientInfo ext title ext') !! 0
       = Some (Resolved (Ok s))
       /\ tasks (cycle pf config clientInfo ext title ext') !! 2
          = Some (Resolved (Ok s'))
       /\ browserContext s' = browserContext s.

(** *** Lines 345-352: [getBrowserStatus] *)

Record Status := {
  hasInstance : bool;
  boundDirectory : option string; (* the field [userDataDir] of the object *)
  isValid : option bool
}.

Definition getBrowserStatus (f : Factory) : Status :=
  {| hasInstance :=
       match _browserInstance f with
       | Some _ => true
       | None => false
       end;
     boundDirectory := _userDataDir f;
     isValid :=
       match _browserInstance f with
       | Some b => Some (negb (forallb id (pages b f)))
       | None => None
       end |}.

(** The milliseconds of the waits, and the number of [close()] calls, in
    a log. *)
Fixpoint waited (l : list Effect) : Z :=
  match l with
  | [] => 0
  | Wait ms :: l => ms + waited l
  | _ :: l => waited l
  end.

Definition is_close_call (e : Effect) : bool :=
  match e with CloseCall _ => true | _ => false end.

(** The directory a creation uses: the configured one, or the one
    derived for the root path. *)
Definition directory_of (pf : Platform) (clientInfo : ClientInfo)
    (f : Factory) : string :=
  match userDataDir (browser (config f)) with
  | Some d => d
  | None =>
    path_join pf
      (nullish (PWMCP_PROFILES_DIR_FOR_TEST pf) (registryDirectory pf))
      ("mcp-" ++ browserToken (config f)
       ++ rootPathToken pf (rootPath clientInfo))
  end.

(** The directory the factory is bound to is among the claimed ones. *)
Definition claimed (f : Factory) : Prop :=
  forall d, _userDataDir f = Some d -> d ∈ _userDataDirs f.

(** What a run of [_doCreateContext] with directory [dir] may log after
    its start: the directory is made only when none is configured, and
    every launch is of [dir]. *)
Definition of_creation (configured : option string) (dir : string)
    (e : Effect) : Prop :=
  match e with
  | Mkdir d => d = dir /\ configured = None
  | Launch d => d = dir
  | Wait _ => True
  | _ => False
  end.

End Persistent.

(** ** The persistent strategy, [_doCreateContext] by segments

    The same factory with [_doCreateContext] suspended at each of its
    awaits, so that calls, closes and events can come between them: the
    writes of lines 204-206 are made when [startTraceServer] has settled,
    before the first launch is awaited, and a launch that resolves sets
    the handle on whatever the factory has become in the meantime. *)

Module Segments.
Import Persistent.

(** Where a run of [_doCreateContext] is suspended: on [injectCdpPort]
    (line 199), on the [mkdir] of [_createUserDataDir] (lines 202 and
    334), on [startTraceServer] (line 203), on launch [i] (line 215), on
    the timer after launch [i] (line 235); or it is over. *)
Inductive Phase :=
| AwaitInject
| AwaitMkdir (dir : string)
| AwaitTrace (dir : string)
| AwaitLaunch (dir : string) (i : nat)
| AwaitTimer (dir : string) (i : nat)
| Settled (r : Result Session).

(** Lines 199-202, once [injectCdpPort] has settled: the configured
    directory is taken, or [_createUserDataDir] is called and calls
    [mkdir]. *)
Definition after_inject (pf : Platform) (clientInfo : ClientInfo)
    (port : Result Z) (f : Factory) : Phase * Factory :=
  match injectCdpPort (browser (config f)) port with
  | Err e => (Settled (Err e), f)
  | Ok _ =>
    match userDataDir (browser (config f)) with
    | Some d => (AwaitTrace d, f)
    | None =>
      let dir :=
        nullish (PWMCP_PROFILES_DIR_FOR_TEST pf) (registryDirectory pf) in
      let result :=
        path_join pf dir
          ("mcp-" ++ browserToken (config f)
           ++ rootPathToken pf (rootPath clientInfo)) in
      (AwaitMkdir result, emit (Mkdir result) f)
    end
  end.

(** Lines 335 and 203, once [mkdir] has settled. *)
Definition after_mkdir (dir : string) (made : Result unit) (f : Factory)
    : Phase * Factory :=
  match made with
  | Ok _ => (AwaitTrace dir, f)
  | Err e => (Settled (Err e), f)
  end.

(** Lines 204-215, once [startTraceServer] has settled: the directory is
    bound and claimed, and the first launch is called. *)
Definition after_trace (dir : string) (traces : Result string) (f : Factory)
    : Phase * Factory :=
  match startTraceServer (config f) traces with
  | Err e => (Settled (Err e), f)
  | Ok _ =>
    let f := set_userDataDir (Some dir) f in
    let f := set_userDataDirs ({[dir]} ∪ _userDataDirs f) f in
    (AwaitLaunch dir 0, emit (Launch dir) f)
  end.

(** Lines 215-241, once launch [i] has settled. *)
Definition after_launch (dir : string) (i : nat) (o : LaunchOutcome)
    (f : Factory) : Phase * Factory :=
  match o with
  | Launched ps =>
    let b := length (opened f) in
    let f := set_browserInstance (Some b) (set_opened (opened f ++ [ps]) f) in
    (Settled (Ok {| browserContext := _browserInstance f;
                    close := HardClose |}), f)
  | LaunchFailed message =>
    if includes "Executable doesn't exist" message then
      (Settled (Err NOT_INSTALLED), f)
    else if includes "ProcessSingleton" message
            || includes "Invalid URL" message then
      if (i <? 2)%nat then
        (AwaitTimer dir i, emit (Wait (2000 * (Z.of_nat i + 1))) f)
      else (Settled (Err ALREADY_RUNNING), f)
    else (Settled (Err message), f)
  end.

(** Lines 212-215 and 245, once the timer has fired: [i++], the test of
    the loop, and the next launch. *)
Definition after_timer (dir : string) (i : nat) (f : Factory)
    : Phase * Factory :=
  if (S i <? 3)%nat then (AwaitLaunch dir (S i), emit (Launch dir) f)
  else (Settled (Err EXHAUSTED), f).

(** The await a creation is suspended on settles as [ext] says. *)
Definition advance (pf : Platform) (clientInfo : ClientInfo)
    (ext : Externals) (ph : Phase) (f : Factory) : Phase * Factory :=
  match ph with
  | AwaitInject => after_inject pf clientInfo (findFreePort ext) f
  | AwaitMkdir dir => after_mkdir dir (mkdir ext) f
  | AwaitTrace dir => after_trace dir (traceServer ext) f
  | AwaitLaunch dir i => after_launch dir i (launchPersistentContext ext i) f
  | AwaitTimer dir i => after_timer dir i f
  | Settled r => (Settled r, f)
  end.

(** The segments one after the other, with nothing between them. *)
Fixpoint advance_all (fuel : nat) (pf : Platform) (clientInfo : ClientInfo)
    (ext : Externals) (ph : Phase) (f : Factory) : Phase * Factory :=
  match fuel with
  | O => (ph, f)
  | S fuel =>
    let '(ph, f) := advance pf clientInfo ext ph f in
    advance_all fuel pf clientInfo ext ph f
  end.

(** A promise of [_doCreateContext] is kept with the phase it is in. *)
Record Machine := {
  factory : Factory;
  promises : list (ClientInfo * Phase);
  tasks : list Task
}.

Inductive Event :=
| Call_createContext (clientInfo : ClientInfo)
| Probe_settled (t : nat) (title : TitleOutcome)
| Creation_advanced (p : nat) (ext : Externals)
| Call_close (c : CloseFn)
| Call_resetBrowserInstance
| Close_settled (t : nat)
| Close_event (b : nat)
| Pages_changed (b : nat) (ps : list bool).

Definition boot (config : FullConfig) : Machine :=
  {| factory := new_factory config; promises := []; tasks := [] |}.

Definition task_of (m : Machine) (clientInfo : ClientInfo) (s : Suspended)
    : Task :=
  match s with
  | ReturnPending q =>
    match promises m !! q with
    | Some (_, Settled r) => Resolved r
    | _ => Joined q
    end
  | AwaitProbe ps => Probing ps clientInfo
  | AwaitCreation p => Creating p
  | Return s => Resolved (Ok s)
  end.

(** Line 188 calls [_doCreateContext], which runs up to its first
    await. *)
Definition promises_of (m : Machine) (clientInfo : ClientInfo) (s : Suspended)
    : list (ClientInfo * Phase) :=
  match s with
  | AwaitCreation _ => promises m ++ [(clientInfo, AwaitInject)]
  | _ => promises m
  end.

(** The machine once the creation [p] of [clientInfo] has gone on to
    phase [ph], leaving the factory [f]: a creation that is over wakes its
    callers, and the caller of line 191 runs the [finally]. *)
Definition advanced (m : Machine) (p : nat) (clientInfo : ClientInfo)
    (phf : Phase * Factory) : Machine :=
  let '(ph, f) := phf in
  match ph with
  | Settled r =>
    {| factory :=
         if existsb (is_creating p) (tasks m) then createContext_finally f
         else f;
       promises := <[p := (clientInfo, ph)]> (promises m);
       tasks := resume p r <$> tasks m |}
  | _ =>
    {| factory := f; promises := <[p := (clientInfo, ph)]> (promises m);
       tasks := tasks m |}
  end.

Definition step (pf : Platform) (m : Machine) (e : Event) : Machine :=
  match e with
  | Call_createContext clientInfo =>
    let '(s, f) := createContext_enter (length (promises m)) (factory m) in
    {| factory := f; promises := promises_of m clientInfo s;
       tasks := tasks m ++ [task_of m clientInfo s] |}
  | Probe_settled t title =>
    match tasks m !! t with
    | Some (Probing ps clientInfo) =>
      let '(s, f) :=
        createContext_afterProbe (_isBrowserContextValid ps title)
          (length (promises m)) (factory m) in
      {| factory := f; promises := promises_of m clientInfo s;
         tasks := <[t := task_of m clientInfo s]> (tasks m) |}
    | _ => m
    end
  | Creation_advanced p ext =>
    match promises m !! p with
    | Some (_, Settled _) => m
    | Some (clientInfo, ph) =>
      advanced m p clientInfo (advance pf clientInfo ext ph (factory m))
    | None => m
    end
  | Call_close SoftClose =>
    {| factory := _softCloseBrowserContext (factory m);
       promises := promises m; tasks := tasks m ++ [Returned] |}
  | Call_close HardClose =>
    match _hardCloseBrowserContext_enter (factory m) with
    | inl f =>
      {| factory := f; promises := promises m;
         tasks := tasks m ++ [Closing false] |}
    | inr f =>
      {| factory := f; promises := promises m;
         tasks := tasks m ++ [Returned] |}
    end
  | Call_resetBrowserInstance =>
    match _hardCloseBrowserContext_enter (factory m) with
    | inl f =>
      {| factory := f; promises := promises m;
         tasks := tasks m ++ [Closing true] |}
    | inr f =>
      {| factory := set_createContextPromise None f; promises := promises m;
         tasks := tasks m ++ [Returned] |}
    end
  | Close_settled t =>
    match tasks m !! t with
    | Some (Closing reset) =>
      let f := _hardCloseBrowserContext_finish (factory m) in
      {| factory := if reset then set_createContextPromise None f else f;
         promises := promises m; tasks := <[t := Returned]> (tasks m) |}
    | _ => m
    end
  | Close_event b =>
    match opened (factory m) !! b with
    | Some _ =>
      {| factory := closeListener (factory m); promises := promises m;
         tasks := tasks m |}
    | None => m
    end
  | Pages_changed b ps =>
    {| factory := set_opened (<[b := ps]> (opened (factory m))) (factory m);
       promises := promises m; tasks := tasks m |}
  end.

Definition run (pf : Platform) (m : Machine) (es : list Event) : Machine :=
  fold_left (step pf) es m.

(** *** Notions the properties are stated with *)

(** What the machine of [Persistent] keeps of a promise: whether it has
    settled, and how. *)
Definition settled_of (ph : Phase) : option (Result Session) :=
  match ph with
  | Settled r => Some r
  | _ => None
  end.

Definition forget (m : Machine) : Persistent.Machine :=
  {| Persistent.factory := factory m;
     Persistent.promises := (fun cp => (cp.1, settled_of cp.2)) <$> promises m;
     Persistent.tasks := tasks m |}.

(** A creation is whole when none of its segments has run yet, or all of
    them have. *)
Definition whole (m : Machine) : Prop :=
  Forall (fun cp : ClientInfo * Phase =>
            cp.2 = AwaitInject \/ exists r, cp.2 = Settled r)
         (promises m).

(** An event of the machine of [Persistent] as events of this one: a
    creation that settles is its eight awaits settling in a row (three
    helpers, three launches and the two timers between them; a creation
    that is over earlier ignores the rest). *)
Definition segments_of (e : Persistent.Event) : list Event :=
  match e with
  | Persistent.Call_createContext clientInfo =>
    [Call_createContext clientInfo]
  | Persistent.Probe_settled t title => [Probe_settled t title]
  | Persistent.Creation_settled p ext =>
    replicate 8 (Creation_advanced p ext)
  | Persistent.Call_close c => [Call_close c]
  | Persistent.Call_resetBrowserInstance => [Call_resetBrowserInstance]
  | Persistent.Close_settled t => [Close_settled t]
  | Persistent.Close_event b => [Close_event b]
  | Persistent.Pages_changed b ps => [Pages_changed b ps]
  end.

(** The events the two machines share. *)
Definition shared (e : Event) : option Persistent.Event :=
  match e with
  | Call_createContext clientInfo =>
    Some (Persistent.Call_createContext clientInfo)
  | Probe_settled t title => Some (Persistent.Probe_settled t title)
  | Creation_advanced _ _ => None
  | Call_close c => Some (Persistent.Call_close c)
  | Call_resetBrowserInstance => Some Persistent.Call_resetBrowserInstance
  | Close_settled t => Some (Persistent.Close_settled t)
  | Close_event b => Some (Persistent.Close_event b)
  | Pages_changed b ps => Some (Persistent.Pages_changed b ps)
  end.

End Segments.

(** ** The registry of the isolated, CDP and remote strategies:
       [BaseContextFactory] and its three subclasses *)

Module Base.

Inductive Kind := Isolated | Cdp | Remote.

(** What [createContext] resolves with: the context ([None] for
    [undefined]) and the browser its [close] closure captured. *)
Record Session := {
  browserContext : option nat;
  browser_of : nat
}.

(** Calls on the outside world. *)
Inductive Effect :=
| Obtain
| NewContext (b : nat)
| ContextClose (c : nat)
| BrowserClose (b : nat).

#[export] Instance Effect_eq_dec : EqDecision Effect.
Proof. solve_decision. Defined.

(** The fields of the factory, the browsers obtained so far (each with
    the contexts [contexts()] lists), the next unused context number and
    the log of external calls. *)
Record Factory := {
  kind : Kind;
  config : FullConfig;
  _browserPromise : option nat;
  browsers : list (list nat);
  fresh : nat;
  log : list Effect
}.

Definition new_factory (k : Kind) (config : FullConfig) : Factory :=
  {| kind := k; config := config; _browserPromise := None; browsers := [];
     fresh := 0; log := [] |}.

Definition set_browserPromise (v : option nat) (f : Factory) : Factory :=
  {| kind := kind f; config := config f; _browserPromise := v;
     browsers := browsers f; fresh := fresh f; log := log f |}.

Definition set_browsers (v : list (list nat)) (f : Factory) : Factory :=
  {| kind := kind f; config := config f; _browserPromise := _browserPromise f;
     browsers := v; fresh := fresh f; log := log f |}.

Definition set_fresh (v : nat) (f : Factory) : Factory :=
  {| kind := kind f; config := config f; _browserPromise := _browserPromise f;
     browsers := browsers f; fresh := v; log := log f |}.

Definition emit (e : Effect) (f : Factory) : Factory :=
  {| kind := kind f; config := config f; _browserPromise := _browserPromise f;
     browsers := browsers f; fresh := fresh f; log := log f ++ [e] |}.

(** [browser.contexts()]. *)
Definition contexts (b : nat) (f : Factory) : list nat :=
  default [] (browsers f !! b).

(** *** Lines 105-118, 130-132, 144-150: [_doObtainBrowser] *)

(** How a launch or connect ends: a browser that lists [existing]
    contexts, or a rejection. *)
Inductive OpenOutcome :=
| Opened (existing : nat)
| OpenFailed (message : string).

Record Externals := {
  findFreePort : Result Z;
  traceServer : Result string;
  opening : OpenOutcome
}.

Definition _doObtainBrowser (k : Kind) (config : FullConfig) (ext : Externals)
    : Result nat :=
  match k with
  | Isolated =>
    match injectCdpPort (browser config) (findFreePort ext) with
    | Err e => Err e
    | Ok _ =>
      match startTraceServer config (traceServer ext) with
      | Err e => Err e
      | Ok _ =>
        match opening ext with
        | Opened n => Ok n
        | OpenFailed message =>
          if includes "Executable doesn't exist" message
          then Err NOT_INSTALLED
          else Err message
        end
      end
    end
  | Cdp | Remote =>
    match opening ext with
    | Opened n => Ok n
    | OpenFailed message => Err message
    end
  end.

(** *** Lines 58-71: [_obtainBrowser] *)

(** The promise the caller awaits; [p] numbers a new one. *)
Definition _obtainBrowser (p : nat) (f : Factory) : nat * Factory :=
  match _browserPromise f with
  | Some q => (q, f)
  | None => (p, set_browserPromise (Some p) (emit Obtain f))
  end.

(** The reactions of lines 63-69 to the promise of [_doObtainBrowser]: a
    browser is entered in the world with its listener, a rejection clears
    the field. *)
Definition _obtainBrowser_settled (r : Result nat) (f : Factory) : Factory :=
  match r with
  | Ok n =>
    set_fresh (fresh f + n)
      (set_browsers (browsers f ++ [seq (fresh f) n]) f)
  | Err _ => set_browserPromise None f
  end.

(** Lines 64-66: the listener of the browser's disconnected event. *)
Definition disconnectedListener (f : Factory) : Factory :=
  set_browserPromise None f.

(** *** Lines 120-122, 134-136, 152-154: [_doCreateContext] *)

(** [inl] when the call suspends on [browser.newContext()], [inr] with the
    context it returns at once. *)
Definition _doCreateContext (b : nat) (f : Factory) : Factory + option nat :=
  match kind f with
  | Isolated => inl (emit (NewContext b) f)
  | Cdp =>
    if isolated (browser (config f)) then inl (emit (NewContext b) f)
    else inr (contexts b f !! 0)
  | Remote => inl (emit (NewContext b) f)
  end.

(** [browser.newContext()] resolved: the browser lists one more context. *)
Definition newContext_settled (b : nat) (f : Factory) : nat * Factory :=
  (fresh f,
   set_fresh (S (fresh f))
     (set_browsers (<[b := (contexts b f ++ [fresh f])%list]> (browsers f)) f)).

(** *** Lines 88-97: [_closeBrowserContext] *)

Definition TYPE_ERROR : string :=
  "Cannot read properties of undefined (reading 'close')".

(** Lines 90-92, up to the await of [browserContext.close()]. *)
Definition _closeBrowserContext_enter (s : Session) (f : Factory)
    : Result nat * Factory :=
  let f :=
    if (length (contexts (browser_of s) f) =? 1)%nat
    then set_browserPromise None f else f in
  match browserContext s with
  | Some c => (Ok c, emit (ContextClose c) f)
  | None => (Err TYPE_ERROR, f)
  end.

(** A context that closed leaves [contexts()]. *)
Definition context_closed (c b : nat) (f : Factory) : Factory :=
  set_browsers
    (<[b := filter (fun x => x ≠ c) (contexts b f)]> (browsers f)) f.

(** Lines 93-96, after the await. *)
Definition _closeBrowserContext_resume (s : Session) (f : Factory)
    : bool * Factory :=
  if (length (contexts (browser_of s) f) =? 0)%nat
  then (true, emit (BrowserClose (browser_of s)) f)
  else (false, f).

(** The close function of a session from call to return, alone.  When
    [browserContext.close()] resolves the context has closed; a rejection
    is caught and logged. *)
Definition _closeBrowserContext (closed : bool) (s : Session) (f : Factory)
    : Result unit * Factory :=
  match _closeBrowserContext_enter s f with
  | (Ok c, f) =>
    let f := if closed then context_closed c (browser_of s) f else f in
    (Ok (), snd (_closeBrowserContext_resume s f))
  | (Err e, f) => (Err e, f)
  end.

(** The number of [browser.close()] calls on [b] in a log. *)
Definition closes (b : nat) (l : list Effect) : nat :=
  length (filter (fun e => e = BrowserClose b) l).

Definition obtains (l : list Effect) : nat :=
  length (filter (fun e => e = Obtain) l).

(** *** The registry under concurrent callers *)

Inductive Task :=
| AwaitBrowser (p : nat)
| AwaitNewContext (b : nat)
| AwaitContextClose (s : Session) (c : nat)
| AwaitBrowserClose
| Resolved (r : Result Session)
| Returned (r : Result unit).

(** A promise of [_doObtainBrowser] is pending ([None]) or settled, with
    the number of the browser when fulfilled. *)
Record Machine := {
  factory : Factory;
  promises : list (option (Result nat));
  tasks : list Task
}.

Inductive Event :=
| Call_createContext
| Obtain_settled (p : nat) (ext : Externals)
| NewContext_settled (t : nat) (r : Result unit)
| Call_close (s : Session)
| Context_closed (b c : nat)
| ContextClose_settled (t : nat)
| BrowserClose_settled (t : nat)
| Disconnected (b : nat).

Definition boot (k : Kind) (config : FullConfig) : Machine :=
  {| factory := new_factory k config; promises := []; tasks := [] |}.

(** Lines 80-81 of [createContext], once the browser is known. *)
Definition createContext_resume (r : Result nat) (f : Factory)
    : Task * Factory :=
  match r with
  | Ok b =>
    match _doCreateContext b f with
    | inl f => (AwaitNewContext b, f)
    | inr c => (Resolved (Ok {| browserContext := c; browser_of := b |}), f)
    end
  | Err e => (Resolved (Err e), f)
  end.

(** Wakes, in their order, the callers that await promise [p]. *)
Fixpoint wake (p : nat) (r : Result nat) (ts : list Task) (f : Factory)
    : list Task * Factory :=
  match ts with
  | [] => ([], f)
  | k :: ts =>
    let '(k, f) :=
      match k with
      | AwaitBrowser q =>
        if decide (p = q) then createContext_resume r f else (k, f)
      | _ => (k, f)
      end in
    let '(ts, f) := wake p r ts f in
    (k :: ts, f)
  end.

Definition step (m : Machine) (e : Event) : Machine :=
  match e with
  | Call_createContext =>
    let '(q, f) := _obtainBrowser (length (promises m)) (factory m) in
    match promises m !! q with
    | Some (Some r) =>
      let '(k, f) := createContext_resume r f in
      {| factory := f; promises := promises m; tasks := tasks m ++ [k] |}
    | Some None =>
      {| factory := f; promises := promises m;
         tasks := tasks m ++ [AwaitBrowser q] |}
    | None =>
      {| factory := f; promises := promises m ++ [None];
         tasks := tasks m ++ [AwaitBrowser q] |}
    end
  | Obtain_settled p ext =>
    match promises m !! p with
    | Some None =>
      let f := factory m in
      let r := _doObtainBrowser (kind f) (config f) ext in
      let v :=
        match r with
        | Ok _ => Ok (length (browsers f))
        | Err e => Err e
        end in
      let '(ts, f) := wake p v (tasks m) (_obtainBrowser_settled r f) in
      {| factory := f; promises := <[p := Some v]> (promises m); tasks := ts |}
    | _ => m
    end
  | NewContext_settled t r =>
    match tasks m !! t with
    | Some (AwaitNewContext b) =>
      match r with
      | Ok _ =>
        let '(c, f) := newContext_settled b (factory m) in
        {| factory := f; promises := promises m;
           tasks :=
             <[t := Resolved (Ok {| browserContext := Some c;
                                    browser_of := b |})]> (tasks m) |}
      | Err e =>
        {| factory := factory m; promises := promises m;
           tasks := <[t := Resolved (Err e)]> (tasks m) |}
      end
    | _ => m
    end
  | Call_close s =>
    match _closeBrowserContext_enter s (factory m) with
    | (Ok c, f) =>
      {| factory := f; promises := promises m;
         tasks := tasks m ++ [AwaitContextClose s c] |}
    | (Err e, f) =>
      {| factory := f; promises := promises m;
         tasks := tasks m ++ [Returned (Err e)] |}
    end
  | Context_closed b c =>
    {| factory := context_closed c b (factory m); promises := promises m;
       tasks := tasks m |}
  | ContextClose_settled t =>
    match tasks m !! t with
    | Some (AwaitContextClose s c) =>
      let '(closing, f) := _closeBrowserContext_resume s (factory m) in
      {| factory := f; promises := promises m;
         tasks :=
           <[t := if closing then AwaitBrowserClose else Returned (Ok ())]>
             (tasks m) |}
    | _ => m
    end
  | BrowserClose_settled t =>
    match tasks m !! t with
    | Some AwaitBrowserClose =>
      {| factory := factory m; promises := promises m;
         tasks := <[t := Returned (Ok ())]> (tasks m) |}
    | _ => m
    end
  | Disconnected b =>
    match browsers (factory m) !! b with
    | Some _ =>
      {| factory := disconnectedListener (factory m); promises := promises m;
         tasks := tasks m |}
    | None => m
    end
  end.

Definition run (m : Machine) (es : list Event) : Machine :=
  fold_left step es m.

(** *** Notions the properties are stated with *)


(** C8 as the specification states it, for two calls [t1] and [t2] that
    resolved: each has a browser of its own. *)
Definition separately_launched (m : Machine) (t1 t2 : nat) : Prop :=
  exists s1 s2,
    tasks m !! t1 = Some (Resolved (Ok s1))
    /\ tasks m !! t2 = Some (Resolved (Ok s2))
    /\ browser_of s1 <> browser_of s2.

End Base.

(** ** Sample configurations and outcomes *)

Module Scenario.

Definition persistent_config : FullConfig :=
  {| browser :=
       {| browserName := firefox; isolated := false;
          userDataDir := Some "/profiles/work";
          remoteEndpoint := None; cdpEndpoint := None;
          launchOptions := {| channel := None |} |};
     saveTrace := false |}.

Definition isolated_config : FullConfig :=
  {| browser :=
       {| browserName := firefox; isolated := true; userDataDir := None;
          remoteEndpoint := None; cdpEndpoint := None;
          launchOptions := {| channel := None |} |};
     saveTrace := false |}.

Definition cdp_config : FullConfig :=
  {| browser :=
       {| browserName := chromium; isolated := false; userDataDir := None;
          remoteEndpoint := None;
          cdpEndpoint := Some "http://localhost:9222";
          launchOptions := {| channel := Some "chrome" |} |};
     saveTrace := false |}.

Definition platform : Platform :=
  {| createHash := fun s => s;
     path_join := fun a b => a ++ "/" ++ b;
     registryDirectory := "/cache/ms-playwright";
     PWMCP_PROFILES_DIR_FOR_TEST := None |}.

Definition client : ClientInfo := {| rootPath := Some "/home/me/project" |}.

(** Every launch resolves with a context that has one open page. *)
Definition launches_fine : Persistent.Externals :=
  {| Persistent.findFreePort := Ok 9222%Z;
     Persistent.mkdir := Ok ();
     Persistent.traceServer := Ok "/traces";
     Persistent.launchPersistentContext :=
       fun _ => Persistent.Launched [false] |}.

(** Every launch is rejected because the profile is locked. *)
Definition profile_locked : Persistent.Externals :=
  {| Persistent.findFreePort := Ok 9222%Z;
     Persistent.mkdir := Ok ();
     Persistent.traceServer := Ok "/traces";
     Persistent.launchPersistentContext :=
       fun _ =>
         Persistent.LaunchFailed
           "Failed to create a ProcessSingleton for your profile directory" |}.

(** A launch or connect that resolves with a browser listing [n]
    contexts. *)
Definition opens (n : nat) : Base.Externals :=
  {| Base.findFreePort := Ok 9222%Z;
     Base.traceServer := Ok "/traces";
     Base.opening := Base.Opened n |}.

(** The empty string as directory: Playwright then uses a temporary
    profile. *)
Definition temporary_profile_config : FullConfig :=
  {| browser :=
       {| browserName := firefox; isolated := false;
          userDataDir := Some "";
          remoteEndpoint := None; cdpEndpoint := None;
          launchOptions := {| channel := None |} |};
     saveTrace := false |}.

(** No directory configured, chromium, traces saved. *)
Definition chromium_config : FullConfig :=
  {| browser :=
       {| browserName := chromium; isolated := false; userDataDir := None;
          remoteEndpoint := None; cdpEndpoint := None;
          launchOptions := {| channel := Some "chrome" |} |};
     saveTrace := true |}.

(** The profile is locked for the first two launches and free for the
    third. *)
Definition third_time_lucky : Persistent.Externals :=
  {| Persistent.findFreePort := Ok 9222%Z;
     Persistent.mkdir := Ok ();
     Persistent.traceServer := Ok "/traces";
     Persistent.launchPersistentContext :=
       fun i =>
         if (i <? 2)%nat then
           Persistent.LaunchFailed
             "Failed to create a ProcessSingleton for your profile directory"
         else Persistent.Launched [false] |}.

(** No free port is found. *)
Definition no_port : Persistent.Externals :=
  {| Persistent.findFreePort := Err "listen EADDRINUSE";
     Persistent.mkdir := Ok ();
     Persistent.traceServer := Ok "/traces";
     Persistent.launchPersistentContext :=
       fun _ => Persistent.Launched [false] |}.

(** A connect that is refused. *)
Definition refused : Base.Externals :=
  {| Base.findFreePort := Ok 9222%Z;
     Base.traceServer := Ok "/traces";
     Base.opening := Base.OpenFailed "connect ECONNREFUSED 127.0.0.1:9222" |}.


End Scenario.

(** * Properties *)

(** ** JavaScript helpers *)

Module JSFacts.

Lemma append_nil (b : string) : "" ++ b = b.
Proof. reflexivity. Qed.

Lemma append_cons (c : Ascii.ascii) (a b : string) :
  String c a ++ b = String c (a ++ b).
Proof. reflexivity. Qed.

Lemma prefix_spec (n s : string) :
  String.prefix n s = true <-> exists b, s = n ++ b.
Proof.
  revert s. induction n as [|a n IH]; intros s; simpl.
  - destruct s; split; eauto.
  - destruct s as [|c s]; simpl.
    + split; [discriminate | intros [b Hb]; discriminate].
    + destruct (Ascii.ascii_dec a c) as [->|Hne].
      * rewrite IH. split; intros [b Hb]; exists b;
          rewrite append_cons in *; congruence.
      * split; [discriminate|].
        intros [b Hb]. rewrite append_cons in Hb. congruence.
Qed.

Lemma includes_nil (n : string) : includes n "" = String.prefix n "".
Proof. unfold includes. apply orb_false_r. Qed.

Lemma includes_cons (n : string) (c : Ascii.ascii) (s : string) :
  includes n (String c s) = String.prefix n (String c s) || includes n s.
Proof. reflexivity. Qed.

(** [includes] is substring search. *)
Lemma includes_spec (n s : string) :
  includes n s = true <-> exists a b, s = a ++ n ++ b.
Proof.
  induction s as [|c s IH].
  - rewrite includes_nil, prefix_spec. split.
    + intros [b Hb]. exists "", b. exact Hb.
    + intros [a [b Hb]]. destruct a; [eauto | discriminate].
  - rewrite includes_cons, orb_true_iff, prefix_spec, IH. split.
    + intros [[b Hb] | [a [b Hb]]].
      * exists "", b. exact Hb.
      * exists (String c a), b. rewrite append_cons. congruence.
    + intros [a [b Hb]]. destruct a as [|c' a].
      * left. eauto.
      * right. exists a, b. rewrite append_cons in Hb. congruence.
Qed.

Lemma truthy_Some (s : string) : truthy (Some s) = true <-> s <> "".
Proof.
  simpl. rewrite negb_true_iff. split.
  - intros H ->. discriminate.
  - intros H. apply String.eqb_neq. exact H.
Qed.

End JSFacts.

(** ** The strategy selector *)

Module SelectorFacts.
Import Selector.

Lemma contextFactory_remote (config : FullConfig) :
  truthy (remoteEndpoint (browser config)) = true ->
  contextFactory config = RemoteContextFactory.
Proof. unfold contextFactory. intros ->. reflexivity. Qed.

Lemma contextFactory_cdp (config : FullConfig) :
  truthy (remoteEndpoint (browser config)) = false ->
  truthy (cdpEndpoint (browser config)) = true ->
  contextFactory config = CdpContextFactory.
Proof. unfold contextFactory. intros -> ->. reflexivity. Qed.

Lemma contextFactory_isolated (config : FullConfig) :
  truthy (remoteEndpoint (browser config)) = false ->
  truthy (cdpEndpoint (browser config)) = false ->
  isolated (browser config) = true ->
  contextFactory config = IsolatedContextFactory.
Proof. unfold contextFactory. intros -> -> ->. reflexivity. Qed.

Lemma contextFactory_persistent (config : FullConfig) :
  truthy (remoteEndpoint (browser config)) = false ->
  truthy (cdpEndpoint (browser config)) = false ->
  isolated (browser config) = false ->
  contextFactory config = PersistentContextFactory.
Proof. unfold contextFactory. intros -> -> ->. reflexivity. Qed.

(** C5: for every configuration the selector returns the strategy that the
    first applicable rule of the fixed precedence names: remote endpoint,
    then CDP endpoint, then the isolation flag, and the persistent strategy
    when none applies.  An endpoint is configured when it is a non-empty
    string. *)
Theorem contextFactory_fixed_precedence (config : FullConfig) :
  contextFactory config = first_match precedence config
  /\ contextFactory config =
     match truthy (remoteEndpoint (browser config)),
           truthy (cdpEndpoint (browser config)),
           isolated (browser config) with
     | true, _, _ => RemoteContextFactory
     | false, true, _ => CdpContextFactory
     | false, false, true => IsolatedContextFactory
     | false, false, false => PersistentContextFactory
     end.
Proof.
  unfold contextFactory, precedence, first_match.
  destruct (truthy (remoteEndpoint (browser config)));
    destruct (truthy (cdpEndpoint (browser config)));
    destruct (isolated (browser config)); split; reflexivity.
Qed.

End SelectorFacts.

(** ** The profile directory *)

Module ProfileFacts.
Import Persistent.

Lemma rootPathToken_empty_iff (pf : Platform) (rootPath : option string) :
  rootPathToken pf rootPath = "" <-> truthy rootPath = false.
Proof.
  unfold rootPathToken. destruct (truthy rootPath); split;
    try reflexivity; discriminate.
Qed.

(** C9: the directory is the join of the base directory with
    mcp-<token><suffix>; the token is the channel when there is one and the
    browser name otherwise; the suffix is a dash and the hash of the root
    path when a (non-empty) root path is given and empty otherwise; and the
    path depends on nothing else, so that repeated calls, in whatever state
    of the factory, return the same path. *)
Theorem createUserDataDir_scheme (pf : Platform) (rootPath : option string)
    (ext : Externals) (f : Factory) :
  let base :=
    match PWMCP_PROFILES_DIR_FOR_TEST pf with
    | Some d => d
    | None => registryDirectory pf
    end in
  let token :=
    match channel (launchOptions (browser (config f))) with
    | Some c => c
    | None => browserName_string (browserName (browser (config f)))
    end in
  let suffix :=
    match rootPath with
    | Some r => if String.eqb r "" then "" else "-" ++ createHash pf r
    | None => ""
    end in
  fst (_createUserDataDir pf rootPath ext f) =
    match mkdir ext with
    | Ok _ => Ok (path_join pf base ("mcp-" ++ token ++ suffix))
    | Err e => Err e
    end
  /\ (suffix <> "" <-> truthy rootPath = true)
  /\ forall (ext' : Externals) (f' : Factory),
       config f' = config f -> mkdir ext' = mkdir ext ->
       fst (_createUserDataDir pf rootPath ext'
              (snd (_createUserDataDir pf rootPath ext f')))
       = fst (_createUserDataDir pf rootPath ext f).
Proof.
  cbv zeta. split; [|split].
  - unfold _createUserDataDir, browserToken, rootPathToken, nullish.
    destruct (mkdir ext); simpl; [|reflexivity].
    destruct rootPath as [r|]; simpl; [|reflexivity].
    destruct (String.eqb r ""); reflexivity.
  - destruct rootPath as [r|]; simpl.
    + destruct (String.eqb r ""); simpl; rewrite ?JSFacts.append_cons;
        split; intros H; try reflexivity; try discriminate; contradiction.
    + split; intros H; [contradiction | discriminate].
  - intros ext' f' Hc Hm. unfold _createUserDataDir. rewrite Hm.
    destruct (mkdir ext); simpl; rewrite ?Hc; reflexivity.
Qed.

End ProfileFacts.

(** ** The launch loop of the persistent strategy *)

Module LaunchFacts.
Import Persistent.

Section Loop.
Variables (dir : string) (ext : Externals).

Lemma loop_launched rounds i f ps :
  launchPersistentContext ext i = Launched ps ->
  launch_loop (S rounds) i dir ext f =
    (Ok {| browserContext := Some (length (opened f)); close := HardClose |},
     set_browserInstance (Some (length (opened f)))
       (set_opened (opened f ++ [ps]) (emit (Launch dir) f))).
Proof. intros H. simpl. rewrite H. reflexivity. Qed.

Lemma loop_missing rounds i f message :
  launchPersistentContext ext i = LaunchFailed message ->
  missing message = true ->
  launch_loop (S rounds) i dir ext f =
    (Err NOT_INSTALLED, emit (Launch dir) f).
Proof.
  unfold missing. intros H Hm. unfold launch_loop; fold launch_loop.
  rewrite H, Hm. reflexivity.
Qed.

Lemma loop_retry rounds i f message :
  launchPersistentContext ext i = LaunchFailed message ->
  missing message = false -> locked message = true -> i < 2 ->
  launch_loop (S rounds) i dir ext f =
    launch_loop rounds (S i) dir ext
      (emit (Wait (2000 * (Z.of_nat i + 1))) (emit (Launch dir) f)).
Proof.
  unfold missing, locked. intros H Hm Hl Hi.
  unfold launch_loop; fold launch_loop. rewrite H, Hm, Hl.
  destruct (Nat.ltb_spec i 2); [reflexivity | lia].
Qed.

Lemma loop_give_up rounds i f message :
  launchPersistentContext ext i = LaunchFailed message ->
  missing message = false -> locked message = true -> 2 <= i ->
  launch_loop (S rounds) i dir ext f =
    (Err ALREADY_RUNNING, emit (Launch dir) f).
Proof.
  unfold missing, locked. intros H Hm Hl Hi.
  unfold launch_loop; fold launch_loop. rewrite H, Hm, Hl.
  destruct (Nat.ltb_spec i 2); [lia | reflexivity].
Qed.

Lemma loop_other rounds i f message :
  launchPersistentContext ext i = LaunchFailed message ->
  missing message = false -> locked message = false ->
  launch_loop (S rounds) i dir ext f = (Err message, emit (Launch dir) f).
Proof.
  unfold missing, locked. intros H Hm Hl.
  unfold launch_loop; fold launch_loop. rewrite H, Hm, Hl. reflexivity.
Qed.

(** Reaching attempt [i]: the loop has made [i] launches and [i] waits and
    goes on with [3 - i] rounds. *)
Lemma loop_reaches i f :
  i < 3 -> contended ext i ->
  exists g,
    launch_loop 3 0 dir ext f = launch_loop (3 - i) i dir ext g
    /\ log g = (log f ++ backoff dir i)%list
    /\ opened g = opened f.
Proof.
  induction i as [|i IH]; intros Hi Hc.
  - exists f. simpl. rewrite app_nil_r. auto.
  - destruct IH as (g & Hg & Hlog & Hop); [lia | |].
    { intros j Hj. apply Hc. lia. }
    destruct (Hc i) as (message & Hf & Hm & Hl); [lia|].
    eexists. split; [|split].
    + rewrite Hg. replace (3 - i) with (S (3 - S i)) by lia.
      apply (loop_retry _ _ _ _ Hf Hm Hl). lia.
    + simpl. rewrite Hlog, <- !app_assoc. reflexivity.
    + simpl. exact Hop.
Qed.

(** The loop never makes more than [rounds] launches. *)
Lemma loop_launches_bound rounds i f :
  count is_launch (log (snd (launch_loop rounds i dir ext f)))
  <= count is_launch (log f) + rounds.
Proof.
  revert i f. induction rounds as [|rounds IH]; intros i f.
  - simpl. lia.
  - unfold launch_loop; fold launch_loop.
    assert (Hl : count is_launch (log (emit (Launch dir) f))
                 = S (count is_launch (log f))).
    { unfold count. simpl. rewrite filter_app, length_app. simpl. lia. }
    destruct (launchPersistentContext ext i) as [ps|message].
    + simpl snd. simpl log. simpl in Hl. lia.
    + destruct (includes "Executable doesn't exist" message);
        [simpl snd; lia|].
      destruct (includes "ProcessSingleton" message
                || includes "Invalid URL" message); [|simpl snd; lia].
      destruct (i <? 2)%nat; [|simpl snd; lia].
      etransitivity; [apply IH|].
      assert (count is_launch
                (log (emit (Wait (2000 * (Z.of_nat i + 1)))
                        (emit (Launch dir) f)))
              = S (count is_launch (log f))).
      { unfold count in *. simpl in *.
        rewrite filter_app, length_app. simpl. lia. }
      lia.
Qed.

End Loop.

Lemma loop_log_grows (dir : string) (ext : Externals) rounds i f :
  exists rest,
    log (snd (launch_loop rounds i dir ext f)) = (log f ++ rest)%list.
Proof.
  revert i f. induction rounds as [|rounds IH]; intros i f.
  - exists []. simpl. rewrite app_nil_r. reflexivity.
  - unfold launch_loop; fold launch_loop.
    destruct (launchPersistentContext ext i) as [ps|message].
    + exists [Launch dir]. reflexivity.
    + destruct (includes "Executable doesn't exist" message);
        [exists [Launch dir]; reflexivity|].
      destruct (includes "ProcessSingleton" message
                || includes "Invalid URL" message);
        [|exists [Launch dir]; reflexivity].
      destruct (i <? 2)%nat; [|exists [Launch dir]; reflexivity].
      destruct (IH (S i) (emit (Wait (2000 * (Z.of_nat i + 1)))
                            (emit (Launch dir) f))) as [rest Hr].
      exists ([Launch dir; Wait (2000 * (Z.of_nat i + 1))] ++ rest)%list.
      rewrite Hr. simpl. rewrite <- !app_assoc. reflexivity.
Qed.

Lemma loop_first_launch (dir : string) (ext : Externals) rounds i f :
  exists rest,
    log (snd (launch_loop (S rounds) i dir ext f))
    = (log f ++ Launch dir :: rest)%list.
Proof.
  unfold launch_loop; fold launch_loop.
  destruct (launchPersistentContext ext i) as [ps|message].
  - exists []. reflexivity.
  - destruct (includes "Executable doesn't exist" message);
      [exists []; reflexivity|].
    destruct (includes "ProcessSingleton" message
              || includes "Invalid URL" message);
      [|exists []; reflexivity].
    destruct (i <? 2)%nat; [|exists []; reflexivity].
    destruct (loop_log_grows dir ext rounds (S i)
                (emit (Wait (2000 * (Z.of_nat i + 1)))
                   (emit (Launch dir) f))) as [rest Hr].
    exists (Wait (2000 * (Z.of_nat i + 1)) :: rest). rewrite Hr. simpl.
    rewrite <- !app_assoc. reflexivity.
Qed.

(** C2: the launch loop of [_doCreateContext].
    - It calls [launchPersistentContext] at most 3 times.
    - When attempt number [i + 1] (of the first two) is rejected with the
      lock symptom (ProcessSingleton or Invalid URL in the message), the
      loop waits 2000 ms times [i + 1] and then launches again.
    - When the third attempt is rejected that way, the call rejects with
      the already-running message, after waits of 2000 and 4000 ms.
    - When an attempt is rejected with the missing-executable message, the
      call rejects at once with the not-installed message: no wait and no
      launch follow.
    - When an attempt is rejected with any other message, the call rejects
      with that message, and no wait and no launch follow. *)
Theorem launch_retry_policy (dir : string) (ext : Externals) (f : Factory) :
  let r := launch_loop 3 0 dir ext f in
  count is_launch (log (snd r)) <= count is_launch (log f) + 3
  /\ (forall i message,
        i < 2 -> contended ext i ->
        launchPersistentContext ext i = LaunchFailed message ->
        missing message = false -> locked message = true ->
        exists rest,
          log (snd r) =
            (log f ++ backoff dir i
             ++ [Launch dir; Wait (2000 * Z.of_nat (S i)); Launch dir]
             ++ rest)%list)
  /\ (forall message,
        contended ext 2 ->
        launchPersistentContext ext 2 = LaunchFailed message ->
        missing message = false -> locked message = true ->
        fst r = Err ALREADY_RUNNING
        /\ log (snd r) =
             (log f ++ [Launch dir; Wait 2000; Launch dir; Wait 4000;
                        Launch dir])%list)
  /\ (forall i message,
        i < 3 -> contended ext i ->
        launchPersistentContext ext i = LaunchFailed message ->
        missing message = true ->
        fst r = Err NOT_INSTALLED
        /\ log (snd r) = (log f ++ backoff dir i ++ [Launch dir])%list)
  /\ (forall i message,
        i < 3 -> contended ext i ->
        launchPersistentContext ext i = LaunchFailed message ->
        missing message = false -> locked message = false ->
        fst r = Err message
        /\ log (snd r) = (log f ++ backoff dir i ++ [Launch dir])%list).
Proof.
  cbv zeta. split; [apply loop_launches_bound|].
  split; [|split; [|split]].
  - intros i message Hi Hc Hf Hm Hl.
    destruct (loop_reaches dir ext i f) as (g & Hg & Hlog & _); [lia|done|].
    rewrite Hg. replace (3 - i) with (S (S (1 - i))) by lia.
    rewrite (loop_retry dir ext _ _ _ _ Hf Hm Hl Hi).
    destruct (loop_first_launch dir ext (1 - i) (S i)
                (emit (Wait (2000 * (Z.of_nat i + 1)))
                   (emit (Launch dir) g))) as [rest Hr].
    exists rest. rewrite Hr. simpl. rewrite Hlog, <- !app_assoc. simpl.
    replace (Z.of_nat i + 1)%Z with (Z.pos (Pos.of_succ_nat i)) by lia.
    reflexivity.
  - intros message Hc Hf Hm Hl.
    destruct (loop_reaches dir ext 2 f) as (g & Hg & Hlog & _); [lia|done|].
    rewrite Hg. change (3 - 2) with 1.
    rewrite (loop_give_up dir ext _ _ _ _ Hf Hm Hl); [|lia].
    split; [reflexivity|]. simpl. rewrite Hlog, <- !app_assoc. reflexivity.
  - intros i message Hi Hc Hf Hm.
    destruct (loop_reaches dir ext i f) as (g & Hg & Hlog & _); [lia|done|].
    rewrite Hg. replace (3 - i) with (S (2 - i)) by lia.
    rewrite (loop_missing dir ext _ _ _ _ Hf Hm).
    split; [reflexivity|]. simpl. rewrite Hlog, <- !app_assoc. reflexivity.
  - intros i message Hi Hc Hf Hm Hl.
    destruct (loop_reaches dir ext i f) as (g & Hg & Hlog & _); [lia|done|].
    rewrite Hg. replace (3 - i) with (S (2 - i)) by lia.
    rewrite (loop_other dir ext _ _ _ _ Hf Hm Hl).
    split; [reflexivity|]. simpl. rewrite Hlog, <- !app_assoc. reflexivity.
Qed.

(** Three launches rejected with a ProcessSingleton message end in the
    already-running error after waits of 2000 and 4000 ms. *)
Lemma launch_retry_policy_witness :
  let r :=
    launch_loop 3 0 "/profiles/work" Scenario.profile_locked
      (new_factory Scenario.persistent_config) in
  fst r = Err ALREADY_RUNNING
  /\ log (snd r) =
       [Launch "/profiles/work"; Wait 2000; Launch "/profiles/work";
        Wait 4000; Launch "/profiles/work"].
Proof.
  destruct (launch_retry_policy "/profiles/work" Scenario.profile_locked
              (new_factory Scenario.persistent_config)) as (_ & _ & H & _).
  apply (H "Failed to create a ProcessSingleton for your profile directory").
  - intros j _. eexists. split; [reflexivity|]. split; vm_compute; reflexivity.
  - reflexivity.
  - vm_compute; reflexivity.
  - vm_compute; reflexivity.
Defined.

End LaunchFacts.

(** ** Hard close and the close event *)

Module CloseFacts.
Import Persistent.

Lemma releases_app d l l' :
  releases d (l ++ l') = releases d l + releases d l'.
Proof. unfold releases. rewrite filter_app, length_app. reflexivity. Qed.

Lemma releases_delete d : releases d [DeleteDir d] = 1.
Proof.
  unfold releases. rewrite filter_cons_True by reflexivity. reflexivity.
Qed.

Lemma releases_closeCall d b : releases d [CloseCall b] = 0.
Proof.
  unfold releases. rewrite filter_cons_False by discriminate. reflexivity.
Qed.

Lemma released_gone (d : string) (dirs : gset string) : d ∉ dirs ∖ {[d]}.
Proof.
  intros [_ H]%elem_of_difference. apply H, elem_of_singleton. reflexivity.
Qed.

(** The listener and the tail of the hard close are the same code. *)
Lemma closeListener_finish (f : Factory) :
  closeListener f = _hardCloseBrowserContext_finish f.
Proof. reflexivity. Qed.

(** What lines 309-314 do to a factory with a claimed directory. *)
Lemma finish_claimed (f : Factory) (d : string) :
  _userDataDir f = Some d -> d <> "" ->
  _hardCloseBrowserContext_finish f =
    {| config := config f; _userDataDirs := _userDataDirs f ∖ {[d]};
       _browserInstance := None; _userDataDir := None;
       _createContextPromise := _createContextPromise f;
       opened := opened f; log := log f ++ [DeleteDir d] |}.
Proof.
  intros Hd Hne. apply String.eqb_neq in Hne.
  destruct f; simpl in *; subst.
  unfold _hardCloseBrowserContext_finish. simpl. rewrite Hne. reflexivity.
Qed.

(** With nothing claimed the tail only clears the handle. *)
Lemma finish_unclaimed (f : Factory) :
  _userDataDir f = None ->
  _hardCloseBrowserContext_finish f = set_browserInstance None f.
Proof.
  intros Hd. destruct f; simpl in *; subst. reflexivity.
Qed.

(** A factory without handle and claim is a fixed point of the tail. *)
Lemma finish_idle (f : Factory) :
  _browserInstance f = None -> _userDataDir f = None ->
  _hardCloseBrowserContext_finish f = f.
Proof.
  intros Hb Hd. rewrite finish_unclaimed by done.
  destruct f; simpl in *; subst; reflexivity.
Qed.

Lemma hard_close_idle (o : CloseOutcome) (f : Factory) :
  _browserInstance f = None -> _userDataDir f = None ->
  _hardCloseBrowserContext o f = (Ok (), f).
Proof.
  intros Hb Hd. unfold _hardCloseBrowserContext, _hardCloseBrowserContext_enter.
  rewrite Hb, finish_idle by done. reflexivity.
Qed.

(** One hard close of a factory that holds a handle and a claim. *)
Lemma hard_close_once (o : CloseOutcome) (f : Factory) (b : nat) (d : string) :
  _browserInstance f = Some b -> _userDataDir f = Some d -> d <> "" ->
  let g := snd (_hardCloseBrowserContext o f) in
  fst (_hardCloseBrowserContext o f) = Ok ()
  /\ _browserInstance g = None /\ _userDataDir g = None
  /\ (d ∉ _userDataDirs g)
  /\ releases d (log g) = S (releases d (log f)).
Proof.
  intros Hb Hd Hne. cbv zeta.
  unfold _hardCloseBrowserContext, _hardCloseBrowserContext_enter. rewrite Hb.
  destruct (negb (forallb id (pages b f))).
  - assert (Hfin :
      _hardCloseBrowserContext_finish
        (if emitted o then closeListener (emit (CloseCall b) f)
         else emit (CloseCall b) f)
      = {| config := config f; _userDataDirs := _userDataDirs f ∖ {[d]};
           _browserInstance := None; _userDataDir := None;
           _createContextPromise := _createContextPromise f;
           opened := opened f;
           log := (log f ++ [CloseCall b]) ++ [DeleteDir d] |}).
    { destruct (emitted o).
      - change (closeListener (emit (CloseCall b) f))
          with (_hardCloseBrowserContext_finish (emit (CloseCall b) f)).
        rewrite (finish_claimed (emit (CloseCall b) f) d) by done.
        rewrite finish_idle by reflexivity. reflexivity.
      - rewrite (finish_claimed (emit (CloseCall b) f) d) by done.
        reflexivity. }
    destruct (threw o); cbn [fst snd]; rewrite Hfin;
      cbn [log _browserInstance _userDataDir _userDataDirs];
      (repeat split; [apply released_gone|]);
      rewrite !releases_app, releases_delete, releases_closeCall; lia.
  - rewrite (finish_claimed f d) by done. simpl.
    repeat split; [apply released_gone|].
    rewrite releases_app, releases_delete. lia.
Qed.

(** On a factory that holds a handle and the claim on a profile
    directory with a non-empty path, a hard close returns without error,
    clears the handle and releases the claim once, whether or not the
    awaited close rejects.  A second hard close, or the close event of the
    context, after it changes nothing; and a hard close after the close
    event has fired releases nothing again.  In all three orders the claim
    is released exactly once. *)
Theorem hard_close_idempotent (f : Factory) (b : nat) (d : string)
    (o1 o2 : CloseOutcome) :
  _browserInstance f = Some b -> _userDataDir f = Some d -> d <> "" ->
  let g := snd (_hardCloseBrowserContext o1 f) in
  let l := closeListener f in
  (fst (_hardCloseBrowserContext o1 f) = Ok ()
   /\ _browserInstance g = None /\ _userDataDir g = None
   /\ (d ∉ _userDataDirs g)
   /\ releases d (log g) = S (releases d (log f)))
  /\ _hardCloseBrowserContext o2 g = (Ok (), g)
  /\ closeListener g = g
  /\ (_hardCloseBrowserContext o2 l = (Ok (), l)
      /\ _browserInstance l = None /\ _userDataDir l = None
      /\ (d ∉ _userDataDirs l)
      /\ releases d (log l) = S (releases d (log f))).
Proof.
  intros Hb Hd Hne. cbv zeta.
  pose proof (hard_close_once o1 f b d Hb Hd Hne) as H. cbv zeta in H.
  destruct H as (Hr & Hi & Hu & Hn & Hc).
  split; [tauto|]. split; [apply hard_close_idle; done|].
  split; [apply finish_idle; done|].
  change (closeListener f) with (_hardCloseBrowserContext_finish f).
  rewrite (finish_claimed f d) by done.
  split; [apply hard_close_idle; reflexivity|]. simpl.
  repeat split; [apply released_gone|].
  rewrite releases_app, releases_delete. lia.
Qed.

(** A factory that launched from the sample profile, closed twice. *)
Lemma hard_close_idempotent_witness :
  let f :=
    factory (run Scenario.platform (boot Scenario.persistent_config)
               [Call_createContext Scenario.client;
                Creation_settled 0 Scenario.launches_fine]) in
  let o := {| threw := true; emitted := false |} in
  let g := snd (_hardCloseBrowserContext o f) in
  _hardCloseBrowserContext o g = (Ok (), g)
  /\ releases "/profiles/work" (log g) = 1.
Proof.
  cbv zeta.
  destruct (hard_close_idempotent
              (factory (run Scenario.platform (boot Scenario.persistent_config)
                 [Call_createContext Scenario.client;
                  Creation_settled 0 Scenario.launches_fine]))
              0 "/profiles/work"
              {| threw := true; emitted := false |}
              {| threw := true; emitted := false |})
    as ((_ & _ & _ & _ & Hc) & Hi & _); [reflexivity | reflexivity | done |].
  split; [exact Hi | exact Hc].
Defined.

(** X22: with the empty string as directory (which Playwright takes to
    mean a temporary profile) the guards of lines 276 and 311 are false:
    after a hard close the entry stays in the set and the field keeps its
    value. *)
Lemma hard_close_empty_directory (o : CloseOutcome) (f : Factory) :
  _userDataDir f = Some "" -> "" ∈ _userDataDirs f ->
  let g := snd (_hardCloseBrowserContext o f) in
  _userDataDir g = Some "" /\ "" ∈ _userDataDirs g.
Proof.
  intros Hd Hin. cbv zeta.
  assert (Hfin : forall h, _userDataDir h = Some "" ->
            _hardCloseBrowserContext_finish h = set_browserInstance None h).
  { intros h Hh. destruct h; simpl in *; subst. reflexivity. }
  unfold _hardCloseBrowserContext, _hardCloseBrowserContext_enter.
  destruct (_browserInstance f) as [b|].
  - destruct (negb (forallb id (pages b f))).
    + change closeListener with _hardCloseBrowserContext_finish.
      destruct (emitted o);
        destruct (threw o); simpl fst; simpl snd;
        rewrite !Hfin by (rewrite ?Hfin by done; done); simpl; done.
    + rewrite Hfin by done. simpl. done.
  - rewrite Hfin by done. simpl. done.
Qed.

(** C6 fails for the empty string as directory.  Line 202 takes it as
    the configured directory ([??] only skips [undefined] and [null]) and
    lines 204-206 bind and claim it, but the guards of lines 276 and 311
    test the field for truthiness: on the factory that launched with it,
    two hard closes in a row, and the close event of the context, return
    without error and clear the handle, and the claim is released by none
    of them. *)
Theorem empty_directory_claim_is_never_released :
  let f :=
    factory (run Scenario.platform (boot Scenario.temporary_profile_config)
               [Call_createContext Scenario.client;
                Creation_settled 0 Scenario.launches_fine]) in
  let o := {| threw := false; emitted := true |} in
  let g := snd (_hardCloseBrowserContext o f) in
  let h := snd (_hardCloseBrowserContext o g) in
  (_browserInstance f = Some 0 /\ _userDataDir f = Some ""
   /\ "" ∈ _userDataDirs f)
  /\ (fst (_hardCloseBrowserContext o f) = Ok ()
      /\ _browserInstance g = None /\ _userDataDir g = Some ""
      /\ "" ∈ _userDataDirs g
      /\ releases "" (log g) = 0)
  /\ (fst (_hardCloseBrowserContext o g) = Ok ()
      /\ _browserInstance h = None /\ _userDataDir h = Some ""
      /\ "" ∈ _userDataDirs h
      /\ releases "" (log h) = 0)
  /\ (_userDataDir (closeListener f) = Some ""
      /\ "" ∈ _userDataDirs (closeListener f)
      /\ releases "" (log (closeListener f)) = 0).
Proof.
  cbv zeta.
  repeat split;
    first [ vm_compute; reflexivity
          | apply (bool_decide_unpack _); vm_compute; exact I ].
Qed.

End CloseFacts.

(** ** [createContext] of the persistent strategy *)

Module CreateFacts.
Import Persistent.

Lemma lookup_snoc {A} (l : list A) (x : A) :
  ((l ++ [x])%list) !! length l = Some x.
Proof. apply list_lookup_middle. reflexivity. Qed.

Lemma insert_snoc {A} (l : list A) (x y : A) :
  <[length l := y]> ((l ++ [x])%list) = (l ++ [y])%list.
Proof.
  rewrite insert_app_r_alt by lia. rewrite Nat.sub_diag. reflexivity.
Qed.

Lemma count_app p (l l' : list Effect) :
  count p ((l ++ l')%list) = count p l + count p l'.
Proof. unfold count. rewrite filter_app, length_app. reflexivity. Qed.

(** *** The liveness probe *)

Lemma probe_no_pages (title : TitleOutcome) :
  _isBrowserContextValid [] title = true.
Proof. reflexivity. Qed.

Lemma probe_with_pages (p : bool) (ps : list bool) (title : TitleOutcome) :
  _isBrowserContextValid (p :: ps) title = true
  <-> exists ms, title = TitleFulfilled ms /\ (ms < 1000)%Z.
Proof.
  unfold _isBrowserContextValid, race_title. simpl. split.
  - destruct title as [ms|ms e|]; try discriminate.
    + destruct (Z.ltb_spec ms 1000); [eauto | discriminate].
    + destruct (ms <? 1000)%Z; discriminate.
  - intros (ms & -> & Hms).
    destruct (Z.ltb_spec ms 1000); [reflexivity | lia].
Qed.

(** A call that finds a handle and no pending creation suspends on the
    probe of that handle. *)
Lemma call_probes pf (m : Machine) (clientInfo : ClientInfo) (b : nat) :
  _createContextPromise (factory m) = None ->
  _browserInstance (factory m) = Some b ->
  step pf m (Call_createContext clientInfo) =
    {| factory := factory m; promises := promises m;
       tasks := tasks m ++ [Probing (pages b (factory m)) clientInfo] |}.
Proof.
  intros Hp Hb. unfold step, createContext_enter. rewrite Hp, Hb. reflexivity.
Qed.

(** A call that finds neither starts a creation. *)
Lemma call_creates pf (m : Machine) (clientInfo : ClientInfo) :
  _createContextPromise (factory m) = None ->
  _browserInstance (factory m) = None ->
  step pf m (Call_createContext clientInfo) =
    {| factory :=
         set_createContextPromise (Some (length (promises m)))
           (emit StartCreation (factory m));
       promises := promises m ++ [(clientInfo, None)];
       tasks := tasks m ++ [Creating (length (promises m))] |}.
Proof.
  intros Hp Hb. unfold step, createContext_enter. rewrite Hp, Hb. reflexivity.
Qed.

(** A call that finds a pending creation is given its promise. *)
Lemma call_joins pf (m : Machine) (clientInfo c : ClientInfo) (p : nat) :
  _createContextPromise (factory m) = Some p ->
  promises m !! p = Some (c, None) ->
  step pf m (Call_createContext clientInfo) =
    {| factory := factory m; promises := promises m;
       tasks := tasks m ++ [Joined p] |}.
Proof.
  intros Hp Hl. unfold step, createContext_enter. rewrite Hp.
  unfold task_of, promises_of. rewrite Hl. reflexivity.
Qed.

(** A probe that answers yes resolves the call with the handle and the
    soft close, and touches nothing. *)
Lemma probe_live pf (m : Machine) t ps clientInfo title :
  tasks m !! t = Some (Probing ps clientInfo) ->
  _isBrowserContextValid ps title = true ->
  step pf m (Probe_settled t title) =
    {| factory := factory m; promises := promises m;
       tasks :=
         <[t := Resolved (Ok {| browserContext := _browserInstance (factory m);
                                close := SoftClose |})]> (tasks m) |}.
Proof.
  intros Ht Hv. unfold step. rewrite Ht, Hv. reflexivity.
Qed.

(** A probe that answers no starts a creation. *)
Lemma probe_dead pf (m : Machine) t ps clientInfo title :
  tasks m !! t = Some (Probing ps clientInfo) ->
  _isBrowserContextValid ps title = false ->
  step pf m (Probe_settled t title) =
    {| factory :=
         set_createContextPromise (Some (length (promises m)))
           (emit StartCreation (factory m));
       promises := promises m ++ [(clientInfo, None)];
       tasks := <[t := Creating (length (promises m))]> (tasks m) |}.
Proof.
  intros Ht Hv. unfold step. rewrite Ht, Hv. reflexivity.
Qed.

(** The caller that awaits a creation resolves with what
    [_doCreateContext] resolves with. *)
Lemma creation_resolves pf (m : Machine) t p clientInfo ext :
  tasks m !! t = Some (Creating p) ->
  promises m !! p = Some (clientInfo, None) ->
  tasks (step pf m (Creation_settled p ext)) !! t =
    Some (Resolved (fst (_doCreateContext pf clientInfo ext (factory m)))).
Proof.
  intros Ht Hp. unfold step. rewrite Hp.
  destruct (_doCreateContext pf clientInfo ext (factory m)) as [r f].
  simpl. rewrite list_lookup_fmap, Ht. simpl.
  destruct (decide (p = p)); [reflexivity | congruence].
Qed.

(** C7: the probe judges a context without pages live; with pages it is
    live exactly when the title of the first page is fulfilled before the
    timer of 1000 ms, so a rejected title, a late one and one that never
    comes all give false.  A call that finds a handle probes it, and when
    the probe says no the call starts a creation and resolves with
    whatever [_doCreateContext] resolves with: the error of the probe
    reaches no caller. *)
Theorem probe_failure_falls_back :
  (forall title, _isBrowserContextValid [] title = true)
  /\ (forall p ps title,
        _isBrowserContextValid (p :: ps) title = true
        <-> exists ms, title = TitleFulfilled ms /\ (ms < 1000)%Z)
  /\ (forall pf m clientInfo b,
        _createContextPromise (factory m) = None ->
        _browserInstance (factory m) = Some b ->
        tasks (step pf m (Call_createContext clientInfo)) =
          (tasks m ++ [Probing (pages b (factory m)) clientInfo])%list)
  /\ (forall pf m t ps clientInfo title ext,
        tasks m !! t = Some (Probing ps clientInfo) ->
        _isBrowserContextValid ps title = false ->
        let p := length (promises m) in
        let m1 := step pf m (Probe_settled t title) in
        let m2 := step pf m1 (Creation_settled p ext) in
        log (factory m1) = (log (factory m) ++ [StartCreation])%list
        /\ tasks m1 !! t = Some (Creating p)
        /\ tasks m2 !! t =
             Some (Resolved
                     (fst (_doCreateContext pf clientInfo ext (factory m1))))).
Proof.
  split; [exact probe_no_pages|]. split; [exact probe_with_pages|].
  split.
  - intros pf m clientInfo b Hp Hb. rewrite (call_probes pf m _ b) by done.
    reflexivity.
  - intros pf m t ps clientInfo title ext Ht Hv. cbv zeta.
    rewrite (probe_dead pf m t ps clientInfo title) by done.
    assert (Hlt : t < length (tasks m)) by (eapply lookup_lt_Some; eauto).
    split; [reflexivity|]. split.
    + simpl. apply list_lookup_insert_eq. exact Hlt.
    + apply creation_resolves.
      * simpl. apply list_lookup_insert_eq. exact Hlt.
      * simpl. apply lookup_snoc.
Qed.

(** The stale handle of the sample: a context was launched, and its page
    does not answer. *)
Lemma probe_failure_falls_back_witness :
  let stale :=
    run Scenario.platform (boot Scenario.persistent_config)
      [Call_createContext Scenario.client;
       Creation_settled 0 Scenario.launches_fine;
       Call_createContext Scenario.client] in
  let m2 :=
    run Scenario.platform stale
      [Probe_settled 1 TitleNever;
       Creation_settled 1 Scenario.profile_locked] in
  tasks m2 !! 1 = Some (Resolved (Err ALREADY_RUNNING)).
Proof.
  cbv zeta.
  destruct probe_failure_falls_back as (_ & _ & _ & H).
  destruct (H Scenario.platform
              (run Scenario.platform (boot Scenario.persistent_config)
                 [Call_createContext Scenario.client;
                  Creation_settled 0 Scenario.launches_fine;
                  Call_createContext Scenario.client])
              1 [false] Scenario.client TitleNever Scenario.profile_locked)
    as (_ & _ & H2); [reflexivity | reflexivity |].
  exact H2.
Defined.


(** *** Soft close, hard close and reset *)

Lemma finish_instance (f : Factory) :
  _browserInstance (_hardCloseBrowserContext_finish f) = None.
Proof.
  unfold _hardCloseBrowserContext_finish.
  destruct (truthy (_userDataDir (set_browserInstance None f))); reflexivity.
Qed.

Lemma finish_promise (f : Factory) :
  _createContextPromise (_hardCloseBrowserContext_finish f)
  = _createContextPromise f.
Proof.
  unfold _hardCloseBrowserContext_finish.
  destruct (truthy (_userDataDir (set_browserInstance None f))); reflexivity.
Qed.

Lemma finish_launches (f : Factory) :
  count is_launch (log (_hardCloseBrowserContext_finish f))
  = count is_launch (log f).
Proof.
  unfold _hardCloseBrowserContext_finish.
  destruct (truthy (_userDataDir (set_browserInstance None f)));
    [|reflexivity].
  cbn [log set_userDataDir set_userDataDirs emit set_browserInstance].
  rewrite count_app. unfold count at 2. rewrite filter_cons_False by done.
  simpl. lia.
Qed.

(** The close event leaves tasks and promises alone, and runs the listener
    when the context exists. *)
Lemma close_event_step pf (m : Machine) (b : nat) :
  promises (step pf m (Close_event b)) = promises m
  /\ tasks (step pf m (Close_event b)) = tasks m
  /\ (factory (step pf m (Close_event b)) = factory m
      \/ factory (step pf m (Close_event b))
         = _hardCloseBrowserContext_finish (factory m)).
Proof.
  unfold step. destruct (opened (factory m) !! b); simpl; auto.
Qed.

Lemma close_settled_step pf (m : Machine) (ts : list Task) (reset : bool) :
  tasks m = (ts ++ [Closing reset])%list ->
  step pf m (Close_settled (length ts)) =
    {| factory :=
         if reset
         then set_createContextPromise None
                (_hardCloseBrowserContext_finish (factory m))
         else _hardCloseBrowserContext_finish (factory m);
       promises := promises m; tasks := ts ++ [Returned] |}.
Proof.
  intros Ht. unfold step. rewrite Ht, lookup_snoc, insert_snoc. reflexivity.
Qed.

Lemma close_settled_skip pf (m : Machine) (ts : list Task) :
  tasks m = (ts ++ [Returned])%list ->
  step pf m (Close_settled (length ts)) = m.
Proof. intros Ht. unfold step. rewrite Ht, lookup_snoc. reflexivity. Qed.

(** A hard close or a reset, its close event and the end of the awaited
    close: the handle is cleared, nothing is launched, and a reset also
    clears the pending creation. *)
Lemma hard_close_events pf (m : Machine) (b : nat) (reset : bool) :
  _browserInstance (factory m) = Some b ->
  let m1 :=
    run pf m
      [if reset then Call_resetBrowserInstance else Call_close HardClose;
       Close_event b; Close_settled (length (tasks m))] in
  _browserInstance (factory m1) = None
  /\ promises m1 = promises m
  /\ tasks m1 = (tasks m ++ [Returned])%list
  /\ _createContextPromise (factory m1) =
       (if reset then None else _createContextPromise (factory m))
  /\ count is_launch (log (factory m1)) = count is_launch (log (factory m)).
Proof.
  intros Hb. cbv zeta. unfold run. cbn [fold_left].
  set (m0 := step pf m
               (if reset then Call_resetBrowserInstance
                else Call_close HardClose)).
  assert (H0 :
    promises m0 = promises m
    /\ count is_launch (log (factory m0)) = count is_launch (log (factory m))
    /\ ((tasks m0 = (tasks m ++ [Closing reset])%list
         /\ _createContextPromise (factory m0)
            = _createContextPromise (factory m))
        \/ (tasks m0 = (tasks m ++ [Returned])%list
            /\ _browserInstance (factory m0) = None
            /\ _createContextPromise (factory m0)
               = (if reset then None
                  else _createContextPromise (factory m))))).
  { subst m0. unfold step, _hardCloseBrowserContext_enter. rewrite Hb.
    destruct reset; destruct (negb (forallb id (pages b (factory m))));
      cbn [factory promises tasks]; (split; [reflexivity|]).
    - split; [|left; split; reflexivity].
      cbn [log emit]. rewrite count_app. unfold count at 2.
      rewrite filter_cons_False by done. simpl. lia.
    - split; [apply finish_launches|]. right.
      split; [reflexivity|]. split; [apply finish_instance|reflexivity].
    - split; [|left; split; reflexivity].
      cbn [log emit]. rewrite count_app. unfold count at 2.
      rewrite filter_cons_False by done. simpl. lia.
    - split; [apply finish_launches|]. right.
      split; [reflexivity|]. split; [apply finish_instance|].
      apply finish_promise. }
  destruct H0 as (Hp0 & Hl0 & Hcase).
  destruct (close_event_step pf m0 b) as (Hp1 & Ht1 & Hf1).
  set (m1 := step pf m0 (Close_event b)) in *.
  assert (Hl1 : count is_launch (log (factory m1))
                = count is_launch (log (factory m))).
  { destruct Hf1 as [-> | ->]; rewrite ?finish_launches; exact Hl0. }
  assert (Hc1 : _createContextPromise (factory m1)
                = _createContextPromise (factory m0)).
  { destruct Hf1 as [-> | ->]; rewrite ?finish_promise; reflexivity. }
  destruct Hcase as [(Ht0 & Hc0) | (Ht0 & Hi0 & Hc0)].
  - rewrite (close_settled_step pf m1 (tasks m) reset) by congruence.
    cbn [factory promises tasks].
    split; [destruct reset; apply finish_instance|].
    split; [congruence|]. split; [reflexivity|].
    split.
    + destruct reset; [reflexivity|].
      rewrite finish_promise. congruence.
    + destruct reset; cbn [log set_createContextPromise];
        rewrite finish_launches; exact Hl1.
  - rewrite (close_settled_skip pf m1 (tasks m)) by congruence.
    split.
    { destruct Hf1 as [-> | ->]; [exact Hi0 | apply finish_instance]. }
    split; [congruence|]. split; [congruence|].
    split; [congruence | exact Hl1].
Qed.

(** *** What a creation logs and returns *)

Lemma loop_returns_hard (dir : string) (ext : Externals) rounds i f s :
  fst (launch_loop rounds i dir ext f) = Ok s ->
  close s = HardClose
  /\ browserContext s
     = _browserInstance (snd (launch_loop rounds i dir ext f))
  /\ is_Some (browserContext s).
Proof.
  revert i f. induction rounds as [|rounds IH]; intros i f; [discriminate|].
  unfold launch_loop; fold launch_loop.
  destruct (launchPersistentContext ext i) as [ps|message].
  - intros [= <-]. simpl. eauto.
  - destruct (includes "Executable doesn't exist" message); [discriminate|].
    destruct (includes "ProcessSingleton" message
              || includes "Invalid URL" message); [|discriminate].
    destruct (i <? 2)%nat; [apply IH | discriminate].
Qed.

Lemma doCreateContext_returns_hard pf clientInfo ext f s :
  fst (_doCreateContext pf clientInfo ext f) = Ok s ->
  close s = HardClose
  /\ browserContext s
     = _browserInstance (snd (_doCreateContext pf clientInfo ext f))
  /\ is_Some (browserContext s).
Proof.
  unfold _doCreateContext.
  destruct (injectCdpPort _ _); [|discriminate].
  destruct (match userDataDir (browser (config f)) with
            | Some d => (Ok d, f)
            | None => _createUserDataDir pf (rootPath clientInfo) ext f
            end) as [[dir|e] g]; [|discriminate].
  destruct (startTraceServer _ _); [|discriminate].
  apply loop_returns_hard.
Qed.

(** When the helpers before the launch succeed, a creation calls
    [launchPersistentContext]. *)
Lemma doCreateContext_launches pf clientInfo ext f port traces :
  findFreePort ext = Ok port -> mkdir ext = Ok () ->
  traceServer ext = Ok traces ->
  count is_launch (log f)
  < count is_launch (log (snd (_doCreateContext pf clientInfo ext f))).
Proof.
  intros Hport Hmk Htr. unfold _doCreateContext, injectCdpPort.
  rewrite Hport.
  assert (Hdir : exists dir g,
    match userDataDir (browser (config f)) with
    | Some d => (Ok d, f)
    | None => _createUserDataDir pf (rootPath clientInfo) ext f
    end = (Ok dir, g)
    /\ config g = config f
    /\ count is_launch (log g) = count is_launch (log f)).
  { destruct (userDataDir (browser (config f))) as [d|]; [eauto|].
    unfold _createUserDataDir. rewrite Hmk. eexists _, _.
    split; [reflexivity|]. split; [reflexivity|].
    cbn [log emit]. rewrite count_app. unfold count at 2.
    rewrite filter_cons_False by done. simpl. lia. }
  destruct Hdir as (dir & g & -> & Hcfg & Hcount).
  assert (Hts : exists v, startTraceServer (config g) (traceServer ext) = Ok v).
  { unfold startTraceServer. rewrite Htr.
    destruct (negb (saveTrace (config g))); eauto. }
  destruct Hts as [v Hv].
  destruct (decide (browserName (browser (config f)) = chromium));
    rewrite Hv;
    match goal with
    | |- context [launch_loop 3 0 dir ext ?h] =>
      destruct (LaunchFacts.loop_first_launch dir ext 2 0 h) as [rest Hr];
      rewrite Hr
    end;
    cbn [log set_userDataDir set_userDataDirs];
    rewrite count_app; unfold count at 3;
    rewrite filter_cons_True by reflexivity; simpl; lia.
Qed.

(** *** Soft close against hard close *)

Lemma soft_close_step pf (m : Machine) :
  step pf m (Call_close SoftClose) =
    {| factory := factory m; promises := promises m;
       tasks := tasks m ++ [Returned] |}.
Proof. reflexivity. Qed.

(** C4, amended.  (1) When a call finds a live handle it resolves with
    that handle and the soft close; the soft close does nothing, and a
    second call whose probe succeeds resolves with the same handle: the
    factory is as it was, nothing was launched or closed.  (2) A creation
    that resolves hands out the hard close.  (3) After the hard close
    (no creation pending) or after [resetBrowserInstance], the handle is
    gone, and the next call starts a creation, which calls
    [launchPersistentContext] when the helpers before the launch
    succeed. *)
Theorem soft_close_reuses_hard_close_relaunches :
  (forall pf m b clientInfo title1 title2,
     _createContextPromise (factory m) = None ->
     _browserInstance (factory m) = Some b ->
     _isBrowserContextValid (pages b (factory m)) title1 = true ->
     _isBrowserContextValid (pages b (factory m)) title2 = true ->
     let t := length (tasks m) in
     let live :=
       Resolved (Ok {| browserContext := Some b; close := SoftClose |}) in
     run pf m
       [Call_createContext clientInfo; Probe_settled t title1;
        Call_close SoftClose;
        Call_createContext clientInfo; Probe_settled (t + 2) title2]
     = {| factory := factory m; promises := promises m;
          tasks := tasks m ++ [live; Returned; live] |})
  /\ (forall pf clientInfo ext f s,
        fst (_doCreateContext pf clientInfo ext f) = Ok s ->
        close s = HardClose)
  /\ (forall pf m b clientInfo (reset : bool) ext port traces,
        _browserInstance (factory m) = Some b ->
        (reset = false -> _createContextPromise (factory m) = None) ->
        findFreePort ext = Ok port -> mkdir ext = Ok () ->
        traceServer ext = Ok traces ->
        let t := length (tasks m) in
        let p := length (promises m) in
        let m1 :=
          run pf m
            [if reset then Call_resetBrowserInstance
             else Call_close HardClose;
             Close_event b; Close_settled t] in
        let m2 := step pf m1 (Call_createContext clientInfo) in
        let m3 := step pf m2 (Creation_settled p ext) in
        _browserInstance (factory m1) = None
        /\ count is_launch (log (factory m1))
           = count is_launch (log (factory m))
        /\ log (factory m2) = (log (factory m1) ++ [StartCreation])%list
        /\ tasks m2 !! S t = Some (Creating p)
        /\ count is_launch (log (factory m2))
           < count is_launch (log (factory m3))).
Proof.
  split; [|split].
  - intros pf m b clientInfo title1 title2 Hp Hb Hv1 Hv2. cbv zeta.
    unfold run. cbn [fold_left].
    rewrite (call_probes pf m clientInfo b) by done.
    rewrite (probe_live pf _ (length (tasks m)) (pages b (factory m))
               clientInfo title1)
      by (try apply lookup_snoc; done).
    cbn [factory promises tasks]. rewrite insert_snoc, Hb.
    rewrite soft_close_step. cbn [factory promises tasks].
    rewrite (call_probes pf _ clientInfo b) by done.
    cbn [factory promises tasks]. rewrite <- !app_assoc.
    cbn [app].
    set (live := Resolved (Ok {| browserContext := Some b;
                                 close := SoftClose |})).
    replace (length (tasks m) + 2)
      with (length (tasks m ++ [live; Returned])%list)
      by (rewrite length_app; simpl; lia).
    change (tasks m ++ [live; Returned; Probing (pages b (factory m)) clientInfo])%list
      with (tasks m ++ ([live; Returned]
                        ++ [Probing (pages b (factory m)) clientInfo]))%list.
    rewrite (app_assoc (tasks m)).
    rewrite (probe_live pf _ _ (pages b (factory m)) clientInfo title2)
      by (try apply lookup_snoc; done).
    cbn [factory promises tasks]. rewrite insert_snoc, Hb, <- app_assoc.
    reflexivity.
  - intros pf clientInfo ext f s Hs.
    apply (doCreateContext_returns_hard pf clientInfo ext f s Hs).
  - intros pf m b clientInfo reset ext port traces Hb Hslot Hport Hmk Htr.
    cbv zeta.
    destruct (hard_close_events pf m b reset Hb)
      as (Hi & Hp & Ht & Hc & Hl).
    set (m1 := run pf m _) in *.
    assert (Hnone : _createContextPromise (factory m1) = None).
    { rewrite Hc. destruct reset; [reflexivity | auto]. }
    rewrite (call_creates pf m1 clientInfo) by done.
    cbn [factory promises tasks].
    split; [exact Hi|]. split; [exact Hl|]. split; [reflexivity|].
    split.
    { rewrite Ht, Hp.
      replace (S (length (tasks m)))
        with (length (tasks m ++ [Returned])%list)
        by (rewrite length_app; simpl; lia).
      apply lookup_snoc. }
    unfold step. cbn [factory promises tasks]. rewrite Hp, lookup_snoc.
    destruct (_doCreateContext pf clientInfo ext
                (set_createContextPromise (Some (length (promises m)))
                   (emit StartCreation (factory m1)))) as [r g] eqn:Hrun.
    pose proof (doCreateContext_launches pf clientInfo ext
                  (set_createContextPromise (Some (length (promises m)))
                     (emit StartCreation (factory m1)))
                  port traces Hport Hmk Htr) as Hlt.
    rewrite Hrun in Hlt. cbn [snd] in Hlt.
    cbn [factory log set_createContextPromise] in *.
    destruct (existsb _ _); cbn [log createContext_finally
                                 set_createContextPromise]; exact Hlt.
Qed.

(** The hard close of the sample after its first launch, then a call. *)
Lemma soft_close_reuses_hard_close_relaunches_witness :
  let m :=
    run Scenario.platform (boot Scenario.persistent_config)
      [Call_createContext Scenario.client;
       Creation_settled 0 Scenario.launches_fine] in
  let m1 :=
    run Scenario.platform m
      [Call_close HardClose; Close_event 0; Close_settled 1] in
  let m2 := step Scenario.platform m1 (Call_createContext Scenario.client) in
  let m3 :=
    step Scenario.platform m2 (Creation_settled 1 Scenario.launches_fine) in
  _browserInstance (factory m1) = None
  /\ count is_launch (log (factory m2)) < count is_launch (log (factory m3)).
Proof.
  cbv zeta.
  destruct soft_close_reuses_hard_close_relaunches as (_ & _ & H).
  destruct (H Scenario.platform
              (run Scenario.platform (boot Scenario.persistent_config)
                 [Call_createContext Scenario.client;
                  Creation_settled 0 Scenario.launches_fine])
              0 Scenario.client false Scenario.launches_fine 9222%Z "/traces")
    as (Hi & _ & _ & _ & Hl);
    [reflexivity | intros _; reflexivity | reflexivity | reflexivity
    | reflexivity |].
  split; [exact Hi | exact Hl].
Defined.

(** C4 as stated fails: the first [createContext] launches and hands out
    the hard close; after that close the second [createContext] launches
    again and resolves with another context. *)
Lemma close_after_launch_relaunches :
  ~ reuses_after_close Scenario.platform Scenario.persistent_config
      Scenario.client Scenario.launches_fine (TitleFulfilled 10)
      Scenario.launches_fine.
Proof. intros [H _]. vm_compute in H. discriminate. Qed.

Example close_after_launch_log :
  log (factory (cycle Scenario.platform Scenario.persistent_config
                  Scenario.client Scenario.launches_fine (TitleFulfilled 10)
                  Scenario.launches_fine))
  = [StartCreation; Launch "/profiles/work"; CloseCall 0;
     DeleteDir "/profiles/work"; StartCreation; Launch "/profiles/work"].
Proof. vm_compute. reflexivity. Qed.

(** *** Concurrent calls *)

Lemma run_cons pf (m : Machine) (e : Event) (es : list Event) :
  run pf m (e :: es) = run pf (step pf m e) es.
Proof. reflexivity. Qed.

(** Calls that find a pending creation are all given its promise. *)
Lemma calls_join pf (cs : list ClientInfo) (m : Machine) (c : ClientInfo)
    (p : nat) :
  _createContextPromise (factory m) = Some p ->
  promises m !! p = Some (c, None) ->
  run pf m (Call_createContext <$> cs) =
    {| factory := factory m; promises := promises m;
       tasks := tasks m ++ replicate (length cs) (Joined p) |}.
Proof.
  revert m. induction cs as [|c' cs IH]; intros m Hslot Hp.
  - simpl. rewrite app_nil_r. destruct m; reflexivity.
  - rewrite fmap_cons, run_cons, (call_joins pf m c' c p) by done.
    rewrite IH by done.
    cbn [factory promises tasks length replicate].
    rewrite <- app_assoc. reflexivity.
Qed.

(** With no handle and no pending creation, any number of calls issued
    before the creation settles start one creation, and all of them wait
    for its promise. *)
Lemma absent_calls_coalesce pf (m : Machine) (c : ClientInfo)
    (cs : list ClientInfo) :
  _createContextPromise (factory m) = None ->
  _browserInstance (factory m) = None ->
  let p := length (promises m) in
  let m' := run pf m (Call_createContext <$> (c :: cs)) in
  log (factory m') = (log (factory m) ++ [StartCreation])%list
  /\ promises m' = (promises m ++ [(c, None)])%list
  /\ tasks m' = (tasks m ++ Creating p :: replicate (length cs) (Joined p))%list.
Proof.
  intros Hslot Hb. cbv zeta.
  rewrite fmap_cons, run_cons, (call_creates pf m c) by done.
  rewrite (calls_join pf cs _ c (length (promises m)));
    [| reflexivity | apply lookup_snoc].
  cbn [factory promises tasks log set_createContextPromise emit].
  rewrite <- app_assoc. auto.
Qed.

(** With a handle whose probe fails, two calls issued before either probe
    has answered start a creation each: the test of line 173 came before
    the await of line 179, and line 188 does not repeat it. *)
Lemma stale_calls_do_not_coalesce pf (m : Machine) (b : nat)
    (c1 c2 : ClientInfo) (title1 title2 : TitleOutcome) :
  _createContextPromise (factory m) = None ->
  _browserInstance (factory m) = Some b ->
  _isBrowserContextValid (pages b (factory m)) title1 = false ->
  _isBrowserContextValid (pages b (factory m)) title2 = false ->
  let t := length (tasks m) in
  let p := length (promises m) in
  let m' :=
    run pf m
      [Call_createContext c1; Call_createContext c2;
       Probe_settled t title1; Probe_settled (S t) title2] in
  log (factory m') = (log (factory m) ++ [StartCreation; StartCreation])%list
  /\ promises m' = (promises m ++ [(c1, None); (c2, None)])%list
  /\ tasks m' = (tasks m ++ [Creating p; Creating (S p)])%list
  /\ _createContextPromise (factory m') = Some (S p).
Proof.
  intros Hslot Hb Hv1 Hv2. cbv zeta.
  rewrite run_cons, (call_probes pf m c1 b) by done.
  rewrite run_cons, (call_probes pf _ c2 b) by done.
  cbn [factory promises tasks].
  set (ps := pages b (factory m)) in *.
  rewrite run_cons.
  rewrite (probe_dead pf _ (length (tasks m)) ps c1 title1);
    [| cbn [tasks]; rewrite lookup_app_l
         by (rewrite length_app; simpl; lia); apply lookup_snoc
     | exact Hv1].
  cbn [factory promises tasks].
  rewrite insert_app_l by (rewrite length_app; simpl; lia).
  rewrite insert_snoc, run_cons.
  rewrite (probe_dead pf _ (S (length (tasks m))) ps c2 title2);
    [| cbn [tasks];
       replace (S (length (tasks m)))
         with (length (tasks m ++ [Creating (length (promises m))])%list)
         by (rewrite length_app; simpl; lia);
       apply lookup_snoc
     | exact Hv2].
  cbn [run fold_left factory promises tasks log set_createContextPromise emit
       _createContextPromise].
  replace (S (length (tasks m)))
    with (length (tasks m ++ [Creating (length (promises m))])%list)
    by (rewrite length_app; simpl; lia).
  rewrite insert_snoc, <- !app_assoc, length_app. cbn [length app].
  replace (length (promises m) + 1) with (S (length (promises m))) by lia.
  auto.
Qed.

(** C1 on the persistent strategy, with a handle whose probe fails: the
    sample has launched a context whose page no longer answers.  Two calls
    are issued before either resolves; both suspend on the probe, and when
    the probes have timed out each of them has started a creation: two
    promises are pending, the field holds the second, and both creations
    go on to call [launchPersistentContext]. *)
Theorem stale_handle_two_creations :
  let stale :=
    run Scenario.platform (boot Scenario.persistent_config)
      [Call_createContext Scenario.client;
       Creation_settled 0 Scenario.launches_fine] in
  let m :=
    run Scenario.platform stale
      [Call_createContext Scenario.client;
       Call_createContext Scenario.client;
       Probe_settled 1 TitleNever; Probe_settled 2 TitleNever] in
  let m' :=
    run Scenario.platform m
      [Creation_settled 1 Scenario.launches_fine;
       Creation_settled 2 Scenario.launches_fine] in
  (_createContextPromise (factory stale) = None
   /\ _browserInstance (factory stale) = Some 0)
  /\ tasks m !! 1 = Some (Creating 1) /\ tasks m !! 2 = Some (Creating 2)
  /\ promises m !! 1 = Some (Scenario.client, None)
  /\ promises m !! 2 = Some (Scenario.client, None)
  /\ _createContextPromise (factory m) = Some 2
  /\ count is_start (log (factory m))
     = count is_start (log (factory stale)) + 2
  /\ count is_launch (log (factory m'))
     = count is_launch (log (factory stale)) + 2
  /\ tasks m' !! 1
     = Some (Resolved (Ok {| browserContext := Some 1; close := HardClose |}))
  /\ tasks m' !! 2
     = Some (Resolved (Ok {| browserContext := Some 2; close := HardClose |})).
Proof. vm_compute. repeat split; reflexivity. Qed.

End CreateFacts.

(** ** The registry of the isolated, CDP and remote strategies *)

Module BaseFacts.
Import Base.

Lemma closes_app b (l l' : list Effect) :
  closes b (l ++ l') = closes b l + closes b l'.
Proof. unfold closes. rewrite filter_app, length_app. reflexivity. Qed.




Lemma contexts_lookup (f : Factory) (b : nat) (cs : list nat) :
  browsers f !! b = Some cs -> contexts b f = cs.
Proof. unfold contexts. intros ->. reflexivity. Qed.

Lemma enter_open (f : Factory) (b c : nat) (cs : list nat) :
  browsers f !! b = Some cs ->
  _closeBrowserContext_enter {| browserContext := Some c; browser_of := b |} f
  = (Ok c,
     emit (ContextClose c)
       (if (length cs =? 1)%nat then set_browserPromise None f else f)).
Proof.
  intros Hb. unfold _closeBrowserContext_enter. cbn [browserContext browser_of].
  rewrite (contexts_lookup f b cs Hb). reflexivity.
Qed.

Lemma resume_open (f : Factory) (s : Session) (cs : list nat) :
  browsers f !! browser_of s = Some cs ->
  _closeBrowserContext_resume s f
  = if (length cs =? 0)%nat then (true, emit (BrowserClose (browser_of s)) f)
    else (false, f).
Proof.
  intros Hb. unfold _closeBrowserContext_resume.
  rewrite (contexts_lookup f _ cs Hb). reflexivity.
Qed.

Lemma context_closed_lookup (f : Factory) (b c : nat) (cs : list nat) :
  browsers f !! b = Some cs ->
  browsers (context_closed c b f) !! b = Some (filter (fun x => x ≠ c) cs).
Proof.
  intros Hb. unfold context_closed. cbn [browsers set_browsers].
  rewrite (contexts_lookup f b cs Hb).
  apply list_lookup_insert_eq. eapply lookup_lt_Some; eauto.
Qed.

(** One close, run to its end, of an open session. *)
Lemma close_one (f : Factory) (b c : nat) (cs : list nat) (closed : bool) :
  browsers f !! b = Some cs ->
  let r :=
    _closeBrowserContext closed
      {| browserContext := Some c; browser_of := b |} f in
  let rest := if closed then filter (fun x => x ≠ c) cs else cs in
  fst r = Ok ()
  /\ browsers (snd r) !! b = Some rest
  /\ log (snd r) =
       (log f ++ ContextClose c
        :: (if (length rest =? 0)%nat then [BrowserClose b] else []))%list
  /\ _browserPromise (snd r) =
       (if (length cs =? 1)%nat then None else _browserPromise f).
Proof.
  intros Hb. cbv zeta. unfold _closeBrowserContext.
  rewrite (enter_open f b c cs Hb). cbv beta iota zeta.
  cbn [browser_of fst snd].
  set (f1 := if (length cs =? 1)%nat then set_browserPromise None f else f).
  assert (H1 : browsers f1 = browsers f /\ log f1 = log f
                /\ _browserPromise f1
                   = if (length cs =? 1)%nat then None else _browserPromise f).
  { subst f1. destruct (length cs =? 1)%nat; auto. }
  destruct H1 as (Hb1 & Hl1 & Hp1).
  set (f2 := emit (ContextClose c) f1).
  set (rest := if closed then filter (fun x => x ≠ c) cs else cs).
  set (f3 := if closed then context_closed c b f2 else f2).
  assert (H3 : browsers f3 !! b = Some rest
                /\ log f3 = (log f ++ [ContextClose c])%list
                /\ _browserPromise f3 = _browserPromise f1).
  { subst f3 rest f2. destruct closed.
    - split; [apply context_closed_lookup; cbn [browsers emit]; congruence|].
      cbn [log _browserPromise context_closed set_browsers emit].
      rewrite Hl1. auto.
    - cbn [browsers log _browserPromise emit]. rewrite Hb1, Hl1. auto. }
  destruct H3 as (Hb3 & Hl3 & Hp3).
  rewrite (resume_open f3 {| browserContext := Some c; browser_of := b |}
             rest Hb3).
  cbn [browser_of].
  destruct (length rest =? 0)%nat;
    cbn [fst snd browsers log _browserPromise emit];
    rewrite ?Hl3, <- ?app_assoc; (split; [reflexivity|]);
    (split; [exact Hb3|]); (split; [reflexivity|]); congruence.
Qed.






(** *** The CDP strategy without isolation *)

(** C10: in CDP mode without isolation the call returns the first entry
    of [contexts()] as it is, whatever the list holds, and creates no
    context: with [c] first in the list the caller is given [c], and with
    an empty list it is given an undefined context, without error.  So a
    caller that was waiting for a browser that turns out to list [n]
    contexts resolves with the first of them when [n] is positive and
    with undefined when [n] is zero. *)
Theorem cdp_returns_first_context_unchecked (f : Factory) (b : nat)
    (config : FullConfig) (ext : Externals) (n : nat) :
  kind f = Cdp -> isolated (browser (Base.config f)) = false ->
  isolated (browser config) = false -> opening ext = Opened n ->
  createContext_resume (Ok b) f
  = (Resolved (Ok {| browserContext := contexts b f !! 0; browser_of := b |}),
     f)
  /\ (forall c cs, contexts b f = c :: cs ->
        createContext_resume (Ok b) f
        = (Resolved (Ok {| browserContext := Some c; browser_of := b |}), f))
  /\ (contexts b f = [] ->
        createContext_resume (Ok b) f
        = (Resolved (Ok {| browserContext := None; browser_of := b |}), f))
  /\ (let m :=
        run (boot Cdp config) [Call_createContext; Obtain_settled 0 ext] in
      tasks m
      = [Resolved (Ok {| browserContext :=
                           match n with
                           | O => None
                           | S _ => Some 0
                           end;
                         browser_of := 0 |})]
      /\ log (factory m) = [Obtain]
      /\ browsers (factory m) = [seq 0 n]).
Proof.
  intros Hk Hi Hi' Ho.
  assert (H : createContext_resume (Ok b) f
              = (Resolved (Ok {| browserContext := contexts b f !! 0;
                                 browser_of := b |}), f)).
  { unfold createContext_resume, _doCreateContext. rewrite Hk, Hi.
    reflexivity. }
  split; [exact H|]. split; [|split].
  - intros c cs Hc. rewrite H, Hc. reflexivity.
  - intros Hc. rewrite H, Hc. reflexivity.
  - cbv zeta. unfold run, boot, new_factory. cbn [fold_left].
    unfold step at 2. cbn [factory promises tasks _obtainBrowser
                           _browserPromise length].
    cbn. unfold _doObtainBrowser. rewrite Ho. cbn.
    unfold _doCreateContext. cbn. rewrite Hi'. cbn.
    destruct n; cbn; auto.
Qed.

(** The sample CDP factory attached to a browser without contexts, and to
    one that lists two. *)
Lemma cdp_returns_first_context_unchecked_witness :
  tasks (run (boot Cdp Scenario.cdp_config)
           [Call_createContext; Obtain_settled 0 (Scenario.opens 0)])
  = [Resolved (Ok {| browserContext := None; browser_of := 0 |})]
  /\ tasks (run (boot Cdp Scenario.cdp_config)
              [Call_createContext; Obtain_settled 0 (Scenario.opens 2)])
     = [Resolved (Ok {| browserContext := Some 0; browser_of := 0 |})].
Proof.
  split.
  - destruct (cdp_returns_first_context_unchecked
                (new_factory Cdp Scenario.cdp_config)
                0 Scenario.cdp_config (Scenario.opens 0) 0)
      as (_ & _ & _ & H & _);
      [reflexivity | reflexivity | reflexivity | reflexivity |].
    exact H.
  - destruct (cdp_returns_first_context_unchecked
                (new_factory Cdp Scenario.cdp_config)
                0 Scenario.cdp_config (Scenario.opens 2) 2)
      as (_ & _ & _ & H & _);
      [reflexivity | reflexivity | reflexivity | reflexivity |].
    exact H.
Defined.

(** *** Sharing of the browser *)

Lemma obtains_app (l l' : list Effect) :
  obtains (l ++ l') = obtains l + obtains l'.
Proof. unfold obtains. rewrite filter_app, length_app. reflexivity. Qed.

Lemma obtains_emit (e : Effect) (f : Factory) :
  obtains (log (emit e f))
  = obtains (log f) + (if decide (e = Obtain) then 1 else 0).
Proof.
  cbn [log emit]. rewrite obtains_app. f_equal. unfold obtains.
  case_decide as He.
  - rewrite filter_cons_True by exact He. reflexivity.
  - rewrite filter_cons_False by exact He. reflexivity.
Qed.

Lemma resume_obtains (r : Result nat) (f : Factory) :
  obtains (log (snd (createContext_resume r f))) = obtains (log f).
Proof.
  unfold createContext_resume, _doCreateContext.
  destruct r as [b|e]; [|reflexivity].
  destruct (kind f); try destruct (isolated (browser (config f)));
    cbn [snd]; rewrite ?obtains_emit; try case_decide; try discriminate;
    try lia; reflexivity.
Qed.

(** A call starts a launch or connect exactly when the field holds no
    promise. *)
Lemma call_obtains (m : Machine) :
  obtains (log (factory (step m Call_createContext)))
  = obtains (log (factory m))
    + (match _browserPromise (factory m) with Some _ => 0 | None => 1 end).
Proof.
  unfold step, _obtainBrowser.
  destruct (_browserPromise (factory m)) as [q|].
  - destruct (promises m !! q) as [[r|]|]; cbn [factory]; try lia.
    pose proof (resume_obtains r (factory m)) as H.
    destruct (createContext_resume r (factory m)) as [k g].
    cbn [factory snd] in *. lia.
  - rewrite lookup_ge_None_2 by lia. cbn [factory].
    cbn [log set_browserPromise]. rewrite obtains_emit.
    case_decide; [reflexivity | congruence].
Qed.

(** Calls that find a pending promise all await it. *)
Lemma calls_await (n : nat) (m : Machine) (p : nat) :
  _browserPromise (factory m) = Some p -> promises m !! p = Some None ->
  run m (replicate n Call_createContext) =
    {| factory := factory m; promises := promises m;
       tasks := tasks m ++ replicate n (AwaitBrowser p) |}.
Proof.
  revert m. induction n as [|n IH]; intros m Hslot Hp.
  - simpl. rewrite app_nil_r. destruct m; reflexivity.
  - cbn [replicate]. unfold run. cbn [fold_left]. fold (run (step m Call_createContext)).
    assert (Hstep : step m Call_createContext =
              {| factory := factory m; promises := promises m;
                 tasks := tasks m ++ [AwaitBrowser p] |}).
    { unfold step, _obtainBrowser. rewrite Hslot, Hp. reflexivity. }
    rewrite Hstep.
    change (fold_left step (replicate n Call_createContext) ?x)
      with (run x (replicate n Call_createContext)).
    rewrite IH by done. cbn [factory promises tasks].
    rewrite <- app_assoc. reflexivity.
Qed.

(** With no promise held, any number of calls issued before the browser
    is there start one launch or connect, and all of them await the same
    promise. *)
Lemma registry_calls_coalesce (n : nat) (m : Machine) :
  _browserPromise (factory m) = None ->
  let p := length (promises m) in
  let m' := run m (replicate (S n) Call_createContext) in
  log (factory m') = (log (factory m) ++ [Obtain])%list
  /\ promises m' = (promises m ++ [None])%list
  /\ tasks m' = (tasks m ++ replicate (S n) (AwaitBrowser p))%list.
Proof.
  intros Hslot. cbv zeta. cbn [replicate]. unfold run. cbn [fold_left].
  assert (Hstep : step m Call_createContext =
            {| factory :=
                 set_browserPromise (Some (length (promises m)))
                   (emit Obtain (factory m));
               promises := promises m ++ [None];
               tasks := tasks m ++ [AwaitBrowser (length (promises m))] |}).
  { unfold step, _obtainBrowser. rewrite Hslot.
    rewrite lookup_ge_None_2 by lia. reflexivity. }
  rewrite Hstep.
  change (fold_left step (replicate n Call_createContext) ?x)
    with (run x (replicate n Call_createContext)).
  rewrite (calls_await n _ (length (promises m)));
    [| reflexivity | apply CreateFacts.lookup_snoc].
  cbn [factory promises tasks log set_browserPromise emit].
  rewrite <- app_assoc. auto.
Qed.

(** C8 as stated fails: the second call of the sample isolated factory,
    made after the first has resolved, gets a context of the browser the
    first call launched; there was one launch. *)
Lemma second_call_shares_browser :
  let m :=
    run (boot Isolated Scenario.isolated_config)
      [Call_createContext; Obtain_settled 0 (Scenario.opens 0);
       NewContext_settled 0 (Ok ());
       Call_createContext; NewContext_settled 1 (Ok ())] in
  ~ separately_launched m 0 1 /\ obtains (log (factory m)) = 1.
Proof.
  cbv zeta. split; [|reflexivity].
  intros (s1 & s2 & H1 & H2 & Hne). vm_compute in H1, H2.
  injection H1 as <-. injection H2 as <-. apply Hne. reflexivity.
Qed.

(** C8, amended: a call of the isolated strategy launches a browser only
    when the field holds no promise.  A call that finds the promise of an
    open browser asks that browser for a new context and resolves with
    it: a context no earlier call has, in the shared browser.  A call that
    finds a pending promise awaits it. *)
Theorem isolated_shares_browser (m : Machine) :
  kind (factory m) = Isolated ->
  obtains (log (factory (step m Call_createContext)))
  = obtains (log (factory m))
    + (match _browserPromise (factory m) with Some _ => 0 | None => 1 end)
  /\ (forall q b,
        _browserPromise (factory m) = Some q ->
        promises m !! q = Some (Some (Ok b)) ->
        let t := length (tasks m) in
        let m1 := step m Call_createContext in
        let m2 := step m1 (NewContext_settled t (Ok ())) in
        tasks m1 !! t = Some (AwaitNewContext b)
        /\ tasks m2 !! t
           = Some (Resolved (Ok {| browserContext := Some (fresh (factory m));
                                   browser_of := b |}))
        /\ fresh (factory m2) = S (fresh (factory m)))
  /\ (forall q,
        _browserPromise (factory m) = Some q ->
        promises m !! q = Some None ->
        tasks (step m Call_createContext)
        = (tasks m ++ [AwaitBrowser q])%list).
Proof.
  intros Hk. split; [apply call_obtains|]. split.
  - intros q b Hslot Hq. cbv zeta.
    assert (Hstep : step m Call_createContext =
              {| factory := emit (NewContext b) (factory m);
                 promises := promises m;
                 tasks := tasks m ++ [AwaitNewContext b] |}).
    { unfold step, _obtainBrowser. rewrite Hslot, Hq.
      unfold createContext_resume, _doCreateContext. rewrite Hk.
      reflexivity. }
    rewrite Hstep. split; [apply CreateFacts.lookup_snoc|].
    unfold step. cbn [factory promises tasks].
    rewrite CreateFacts.lookup_snoc. cbn [newContext_settled].
    cbn [factory promises tasks fresh emit set_fresh set_browsers].
    split; [apply list_lookup_insert_eq|reflexivity].
    rewrite length_app. simpl. lia.
  - intros q Hslot Hq. unfold step, _obtainBrowser. rewrite Hslot, Hq.
    reflexivity.
Qed.

Lemma isolated_shares_browser_witness :
  let m :=
    run (boot Isolated Scenario.isolated_config)
      [Call_createContext; Obtain_settled 0 (Scenario.opens 0);
       NewContext_settled 0 (Ok ())] in
  obtains (log (factory (step m Call_createContext))) = 1.
Proof.
  cbv zeta.
  destruct (isolated_shares_browser
              (run (boot Isolated Scenario.isolated_config)
                 [Call_createContext; Obtain_settled 0 (Scenario.opens 0);
                  NewContext_settled 0 (Ok ())]))
    as (H & _); [reflexivity|].
  exact H.
Defined.

(** *** Closes that overlap *)

Lemma closes_emit (b : nat) (e : Effect) (f : Factory) :
  closes b (log (emit e f))
  = closes b (log f) + (if decide (e = BrowserClose b) then 1 else 0).
Proof.
  cbn [log emit]. rewrite closes_app. f_equal. unfold closes.
  case_decide as He.
  - rewrite filter_cons_True by exact He. reflexivity.
  - rewrite filter_cons_False by exact He. reflexivity.
Qed.

Lemma resume_closes (b : nat) (r : Result nat) (f : Factory) :
  closes b (log (snd (createContext_resume r f))) = closes b (log f).
Proof.
  unfold createContext_resume, _doCreateContext.
  destruct r as [b'|e]; [|reflexivity].
  destruct (kind f); try destruct (isolated (browser (config f)));
    cbn [snd]; rewrite ?closes_emit; try case_decide; try discriminate;
    try lia; reflexivity.
Qed.

Lemma wake_closes (b p : nat) (r : Result nat) (ts : list Task) (f : Factory) :
  closes b (log (snd (wake p r ts f))) = closes b (log f).
Proof.
  revert f. induction ts as [|k ts IH]; intros f; [reflexivity|].
  cbn [wake].
  assert (H : forall kf : Task * Factory,
            closes b (log (snd kf)) = closes b (log f) ->
            closes b (log (snd (let '(k, f) := kf in
                                let '(ts, f) := wake p r ts f in
                                (k :: ts, f)))) = closes b (log f)).
  { intros [k' f'] Hk. cbn [snd] in Hk. specialize (IH f').
    destruct (wake p r ts f') as [ts' f'']. cbn [snd] in *. congruence. }
  apply H. destruct k; try reflexivity.
  case_decide; [apply resume_closes | reflexivity].
Qed.

(** X21: whatever the callers and the browser do, and in whatever order,
    a step calls [browser.close()] on [b] only when [b] lists no
    context. *)
Lemma browser_close_needs_empty (m : Machine) (e : Event) (b : nat) :
  closes b (log (factory (step m e))) <> closes b (log (factory m)) ->
  contexts b (factory m) = [].
Proof.
  intros Hne. destruct e as [|p ext|t r|s|b' c|t|t|b']; cbn [step] in Hne.
  - exfalso. apply Hne. unfold _obtainBrowser.
    destruct (_browserPromise (factory m)) as [q|].
    + destruct (promises m !! q) as [[r|]|]; try reflexivity.
      pose proof (resume_closes b r (factory m)) as H.
      destruct (createContext_resume r (factory m)). exact H.
    + assert (H : closes b (log (set_browserPromise (Some (length (promises m)))
                                   (emit Obtain (factory m))))
                  = closes b (log (factory m))).
      { cbn [log set_browserPromise]. rewrite closes_emit.
        case_decide; [discriminate | lia]. }
      destruct (promises m !! length (promises m)) as [[r|]|]; try exact H.
      pose proof (resume_closes b r
                    (set_browserPromise (Some (length (promises m)))
                       (emit Obtain (factory m)))) as H'.
      destruct (createContext_resume r _). cbn [factory snd] in *. congruence.
  - exfalso. apply Hne.
    destruct (promises m !! p) as [[r|]|]; try reflexivity.
    set (r := _doObtainBrowser _ _ ext).
    set (v := match r with Ok _ => Ok (length (browsers (factory m)))
                         | Err e => Err e end).
    pose proof (wake_closes b p v (tasks m)
                  (_obtainBrowser_settled r (factory m))) as H.
    destruct (wake p v (tasks m) (_obtainBrowser_settled r (factory m))).
    cbn [factory snd] in *. rewrite H.
    unfold _obtainBrowser_settled. destruct r; reflexivity.
  - exfalso. apply Hne.
    destruct (tasks m !! t) as [[]|]; try reflexivity.
    destruct r; reflexivity.
  - exfalso. apply Hne. unfold _closeBrowserContext_enter.
    destruct (browserContext s);
      destruct (length (contexts (browser_of s) (factory m)) =? 1)%nat;
      cbn [factory]; rewrite ?closes_emit; try case_decide;
      try discriminate; cbn [log set_browserPromise]; lia.
  - exfalso. apply Hne. reflexivity.
  - destruct (tasks m !! t) as [[| |s c| | |]|]; try (exfalso; apply Hne; reflexivity).
    unfold _closeBrowserContext_resume in Hne.
    destruct (Nat.eqb_spec (length (contexts (browser_of s) (factory m))) 0)
      as [Hz|Hnz]; cbn [factory] in Hne.
    + rewrite closes_emit in Hne. case_decide as Hb; [|lia].
      injection Hb as <-.
      destruct (contexts (browser_of s) (factory m));
        [reflexivity | discriminate].
    + exfalso. apply Hne. reflexivity.
  - exfalso. apply Hne.
    destruct (tasks m !! t) as [[]|]; reflexivity.
  - exfalso. apply Hne.
    destruct (browsers (factory m) !! b'); reflexivity.
Qed.

(** Two closes that overlap: when both contexts have closed before either
    close function resumes, each of them reads an empty list and calls
    [browser.close()]. *)
Example overlapping_closes_both_close :
  let m :=
    run (boot Isolated Scenario.isolated_config)
      [Call_createContext; Call_createContext;
       Obtain_settled 0 (Scenario.opens 0);
       NewContext_settled 0 (Ok ()); NewContext_settled 1 (Ok ());
       Call_close {| browserContext := Some 0; browser_of := 0 |};
       Call_close {| browserContext := Some 1; browser_of := 0 |};
       Context_closed 0 0; Context_closed 0 1;
       ContextClose_settled 2; ContextClose_settled 3] in
  closes 0 (log (factory m)) = 2.
Proof. reflexivity. Qed.

End BaseFacts.

(** ** More on the registry: settling, failing, disconnecting *)

Module RegistryFacts.
Import Base.

Lemma run_app (m : Machine) (es es' : list Event) :
  run m (es ++ es') = run (run m es) es'.
Proof. unfold run. apply fold_left_app. Qed.

Lemma run_one (m : Machine) (e : Event) : run m [e] = step m e.
Proof. reflexivity. Qed.

(** The calls of a new factory, before the browser is there. *)
Lemma boot_calls (k : Kind) (cfg : FullConfig) (n : nat) :
  run (boot k cfg) (replicate (S n) Call_createContext) =
    {| factory :=
         set_browserPromise (Some 0) (emit Obtain (new_factory k cfg));
       promises := [None];
       tasks := replicate (S n) (AwaitBrowser 0) |}.
Proof.
  cbn [replicate]. unfold run. cbn [fold_left].
  change (fold_left step (replicate n Call_createContext) ?x)
    with (run x (replicate n Call_createContext)).
  change (step (boot k cfg) Call_createContext)
    with {| factory :=
              set_browserPromise (Some 0) (emit Obtain (new_factory k cfg));
            promises := [None]; tasks := [AwaitBrowser 0] |}.
  rewrite (BaseFacts.calls_await n _ 0) by reflexivity. reflexivity.
Qed.

(** Whether [_doCreateContext] asks the browser for a new context. *)
Lemma doCreateContext_cases (b : nat) (f : Factory) :
  _doCreateContext b f =
    if match kind f with
       | Cdp => negb (isolated (browser (config f)))
       | _ => false
       end
    then inr (contexts b f !! 0)
    else inl (emit (NewContext b) f).
Proof.
  unfold _doCreateContext.
  destruct (kind f); try reflexivity.
  destruct (isolated (browser (config f))); reflexivity.
Qed.

Lemma wake_failed (p : nat) (e : string) (n : nat) (f : Factory) :
  wake p (Err e) (replicate n (AwaitBrowser p)) f
  = (replicate n (Resolved (Err e)), f).
Proof.
  induction n as [|n IH]; [reflexivity|].
  cbn [replicate wake]. rewrite decide_True by reflexivity.
  cbn [createContext_resume]. rewrite IH. reflexivity.
Qed.

Lemma wake_first_context (p b : nat) (n : nat) (f : Factory) :
  kind f = Cdp -> isolated (browser (config f)) = false ->
  wake p (Ok b) (replicate n (AwaitBrowser p)) f
  = (replicate n
       (Resolved (Ok {| browserContext := contexts b f !! 0;
                        browser_of := b |})), f).
Proof.
  intros Hk Hi. induction n as [|n IH]; [reflexivity|].
  cbn [replicate wake]. rewrite decide_True by reflexivity.
  cbn [createContext_resume]. rewrite doCreateContext_cases, Hk, Hi.
  cbn [negb]. rewrite IH. reflexivity.
Qed.

Lemma wake_new_context (p b : nat) (n : nat) (f : Factory) :
  match kind f with
  | Cdp => negb (isolated (browser (config f)))
  | _ => false
  end = false ->
  wake p (Ok b) (replicate n (AwaitBrowser p)) f
  = (replicate n (AwaitNewContext b),
     {| kind := kind f; config := config f;
        _browserPromise := _browserPromise f; browsers := browsers f;
        fresh := fresh f;
        log := log f ++ replicate n (NewContext b) |}).
Proof.
  revert f. induction n as [|n IH]; intros f Hs.
  - cbn [replicate wake]. rewrite app_nil_r. destruct f; reflexivity.
  - cbn [replicate wake]. rewrite decide_True by reflexivity.
    cbn [createContext_resume]. rewrite doCreateContext_cases, Hs.
    rewrite IH by exact Hs.
    cbn [kind config _browserPromise browsers fresh log emit].
    rewrite <- app_assoc. reflexivity.
Qed.

(** X1: on a new factory of any of the three strategies, any number of
    calls made before the browser is there are served by the one launch or
    connect when it resolves: there is one [Obtain] and one browser, the
    field keeps its promise, and every caller goes on with that browser,
    asking it for a context of its own or, in CDP mode without isolation,
    taking the first context it lists. *)
Theorem registry_serves_all_callers (k : Kind) (cfg : FullConfig)
    (ext : Externals) (n existing : nat) :
  _doObtainBrowser k cfg ext = Ok existing ->
  let m :=
    run (boot k cfg)
      (replicate (S n) Call_createContext ++ [Obtain_settled 0 ext]) in
  let first :=
    match k with
    | Cdp => negb (isolated (browser cfg))
    | _ => false
    end in
  browsers (factory m) = [seq 0 existing]
  /\ _browserPromise (factory m) = Some 0
  /\ promises m = [Some (Ok 0)]
  /\ tasks m =
       replicate (S n)
         (if first
          then Resolved (Ok {| browserContext := seq 0 existing !! 0;
                               browser_of := 0 |})
          else AwaitNewContext 0)
  /\ log (factory m) =
       Obtain :: (if first then [] else replicate (S n) (NewContext 0)).
Proof.
  intros Hr. cbv zeta. rewrite run_app, boot_calls, run_one.
  unfold step. cbn [promises lookup list_lookup factory tasks].
  cbn [kind config set_browserPromise emit new_factory]. rewrite Hr.
  cbn [_obtainBrowser_settled browsers length app fresh set_browsers
       set_fresh set_browserPromise emit new_factory Nat.add].
  destruct (match k with
            | Cdp => negb (isolated (browser cfg))
            | _ => false
            end) eqn:Hfirst.
  - assert (k = Cdp /\ isolated (browser cfg) = false) as [-> Hi].
    { destruct k; try discriminate. split; [reflexivity|].
      destruct (isolated (browser cfg)); [discriminate | reflexivity]. }
    rewrite wake_first_context by (cbn; done).
    cbn. auto.
  - rewrite wake_new_context by (cbn [kind config]; exact Hfirst).
    cbn. auto.
Qed.

Lemma registry_serves_all_callers_witness :
  tasks (run (boot Isolated Scenario.isolated_config)
           (replicate 3 Call_createContext
            ++ [Obtain_settled 0 (Scenario.opens 0)]))
  = replicate 3 (AwaitNewContext 0).
Proof.
  destruct (registry_serves_all_callers Isolated Scenario.isolated_config
              (Scenario.opens 0) 2 0) as (_ & _ & _ & H & _);
    [reflexivity|].
  exact H.
Defined.

(** The calls of a new factory when the launch or connect is rejected. *)
Lemma boot_failure (k : Kind) (cfg : FullConfig) (ext : Externals)
    (n : nat) (e : string) :
  _doObtainBrowser k cfg ext = Err e ->
  run (boot k cfg)
    (replicate (S n) Call_createContext ++ [Obtain_settled 0 ext])
  = {| factory := emit Obtain (new_factory k cfg);
       promises := [Some (Err e)];
       tasks := replicate (S n) (Resolved (Err e)) |}.
Proof.
  intros Hr. rewrite run_app, boot_calls, run_one.
  unfold step. cbn [promises lookup list_lookup factory tasks].
  cbn [kind config set_browserPromise emit new_factory]. rewrite Hr.
  cbn [_obtainBrowser_settled]. rewrite wake_failed. reflexivity.
Qed.

(** X2: when the launch or connect of a new factory is rejected, every
    caller that was waiting resolves with that one error, the field is
    cleared and no browser is recorded; the next call starts a launch or
    connect of its own. *)
Theorem registry_failure_reaches_all_callers (k : Kind) (cfg : FullConfig)
    (ext : Externals) (n : nat) (e : string) :
  _doObtainBrowser k cfg ext = Err e ->
  let m :=
    run (boot k cfg)
      (replicate (S n) Call_createContext ++ [Obtain_settled 0 ext]) in
  let m' := step m Call_createContext in
  tasks m = replicate (S n) (Resolved (Err e))
  /\ _browserPromise (factory m) = None
  /\ browsers (factory m) = []
  /\ obtains (log (factory m)) = 1
  /\ obtains (log (factory m')) = 2
  /\ _browserPromise (factory m') = Some 1
  /\ tasks m' = (tasks m ++ [AwaitBrowser 1])%list.
Proof.
  intros Hr. cbv zeta. rewrite (boot_failure k cfg ext n e Hr).
  repeat split; reflexivity.
Qed.

Lemma registry_failure_reaches_all_callers_witness :
  tasks (run (boot Cdp Scenario.cdp_config)
           (replicate 2 Call_createContext
            ++ [Obtain_settled 0 Scenario.refused]))
  = replicate 2 (Resolved (Err "connect ECONNREFUSED 127.0.0.1:9222")).
Proof.
  destruct (registry_failure_reaches_all_callers Cdp Scenario.cdp_config
              Scenario.refused 1 "connect ECONNREFUSED 127.0.0.1:9222")
    as (H & _); [reflexivity|].
  exact H.
Defined.



(** *** Closing *)

Lemma close_settled_empty (m : Machine) (t : nat) (s : Session) (c : nat) :
  tasks m !! t = Some (AwaitContextClose s c) ->
  contexts (browser_of s) (factory m) = [] ->
  step m (ContextClose_settled t) =
    {| factory := emit (BrowserClose (browser_of s)) (factory m);
       promises := promises m;
       tasks := <[t := AwaitBrowserClose]> (tasks m) |}.
Proof.
  intros Ht Hc. unfold step, _closeBrowserContext_resume. rewrite Ht, Hc.
  reflexivity.
Qed.

(** X4: two close functions that have both closed their context before
    either resumes each read an empty list at line 93, and each calls
    [browser.close()]: the browser is asked to close twice. *)
Theorem overlapping_closes_close_twice (m : Machine) (t1 t2 b c1 c2 : nat)
    (s1 s2 : Session) :
  t1 <> t2 ->
  tasks m !! t1 = Some (AwaitContextClose s1 c1) ->
  tasks m !! t2 = Some (AwaitContextClose s2 c2) ->
  browser_of s1 = b -> browser_of s2 = b ->
  contexts b (factory m) = [] ->
  closes b
    (log (factory (run m [ContextClose_settled t1; ContextClose_settled t2])))
  = closes b (log (factory m)) + 2.
Proof.
  intros Hne H1 H2 Hb1 Hb2 Hc. unfold run. cbn [fold_left].
  rewrite (close_settled_empty m t1 s1 c1) by (rewrite ?Hb1; done).
  rewrite (close_settled_empty _ t2 s2 c2).
  - cbn [factory]. rewrite !BaseFacts.closes_emit, Hb1, Hb2.
    rewrite !decide_True by reflexivity. lia.
  - cbn [tasks]. rewrite list_lookup_insert_ne by exact Hne. exact H2.
  - cbn [factory]. rewrite Hb2. exact Hc.
Qed.

Lemma overlapping_closes_close_twice_witness :
  let m :=
    run (boot Isolated Scenario.isolated_config)
      [Call_createContext; Call_createContext;
       Obtain_settled 0 (Scenario.opens 0);
       NewContext_settled 0 (Ok ()); NewContext_settled 1 (Ok ());
       Call_close {| browserContext := Some 0; browser_of := 0 |};
       Call_close {| browserContext := Some 1; browser_of := 0 |};
       Context_closed 0 0; Context_closed 0 1] in
  closes 0
    (log (factory (run m [ContextClose_settled 2; ContextClose_settled 3])))
  = 2.
Proof.
  cbv zeta.
  rewrite (overlapping_closes_close_twice _ 2 3 0 0 1
             {| browserContext := Some 0; browser_of := 0 |}
             {| browserContext := Some 1; browser_of := 0 |});
    [reflexivity | discriminate | reflexivity | reflexivity | reflexivity
    | reflexivity | reflexivity].
Defined.

(** X5: the close function of a session whose context is undefined
    rejects with the TypeError of line 92 before any external call: it
    calls neither [close()] of a context nor [browser.close()].  Line 91
    has run before: the only change is that the field is cleared when the
    browser lists exactly one context, and otherwise the factory is as it
    was.  So the session that CDP mode hands out for a browser without
    contexts leaves the browser connected, and the field as it is, for
    good. *)
Theorem close_of_undefined_context_rejects (cfg : FullConfig)
    (ext : Externals) (closed : bool) (b : nat) (f : Factory) :
  isolated (browser cfg) = false -> opening ext = Opened 0 ->
  (let r :=
     _closeBrowserContext closed
       {| browserContext := None; browser_of := b |} f in
   fst r = Err TYPE_ERROR
   /\ snd r = (if (length (contexts b f) =? 1)%nat
               then set_browserPromise None f else f)
   /\ log (snd r) = log f
   /\ browsers (snd r) = browsers f
   /\ _browserPromise (snd r)
      = (if (length (contexts b f) =? 1)%nat then None
         else _browserPromise f))
  /\ (let m :=
        run (boot Cdp cfg)
          [Call_createContext; Obtain_settled 0 ext;
           Call_close {| browserContext := None; browser_of := 0 |}] in
      tasks m
      = [Resolved (Ok {| browserContext := None; browser_of := 0 |});
         Returned (Err TYPE_ERROR)]
      /\ log (factory m) = [Obtain]
      /\ _browserPromise (factory m) = Some 0).
Proof.
  intros Hi Ho. split.
  - cbv zeta. unfold _closeBrowserContext, _closeBrowserContext_enter.
    cbn [browserContext browser_of].
    destruct (length (contexts b f) =? 1)%nat; cbn; auto.
  - cbv zeta. unfold run, boot, new_factory. cbn [fold_left].
    unfold step at 3. cbn [factory promises tasks _obtainBrowser
                           _browserPromise length].
    cbn. unfold _doObtainBrowser. rewrite Ho. cbn.
    unfold _doCreateContext. cbn. rewrite Hi. cbn. auto.
Qed.

(** A session with an undefined context on a browser that lists one
    context: the close rejects and the field is cleared all the same. *)
Lemma close_of_undefined_context_rejects_witness :
  let f :=
    factory (run (boot Cdp Scenario.cdp_config)
               [Call_createContext; Obtain_settled 0 (Scenario.opens 1)]) in
  let r :=
    _closeBrowserContext true {| browserContext := None; browser_of := 0 |}
      f in
  fst r = Err TYPE_ERROR
  /\ _browserPromise f = Some 0 /\ _browserPromise (snd r) = None.
Proof.
  cbv zeta.
  destruct (close_of_undefined_context_rejects Scenario.cdp_config
              (Scenario.opens 0) true 0
              (factory (run (boot Cdp Scenario.cdp_config)
                          [Call_createContext;
                           Obtain_settled 0 (Scenario.opens 1)])))
    as ((H & _ & _ & _ & Hp) & _); [reflexivity | reflexivity |].
  split; [exact H|]. split; [reflexivity | exact Hp].
Defined.

(** X6: in CDP mode without isolation a call that finds the browser open
    resolves at once with the first context the browser lists and touches
    nothing: no context is created, so all callers share that one
    context. *)
Theorem cdp_calls_share_first_context (m : Machine) (q b : nat) :
  kind (factory m) = Cdp ->
  isolated (browser (config (factory m))) = false ->
  _browserPromise (factory m) = Some q ->
  promises m !! q = Some (Some (Ok b)) ->
  let shared :=
    Resolved (Ok {| browserContext := contexts b (factory m) !! 0;
                    browser_of := b |}) in
  run m [Call_createContext; Call_createContext]
  = {| factory := factory m; promises := promises m;
       tasks := tasks m ++ [shared; shared] |}.
Proof.
  intros Hk Hi Hslot Hq. cbv zeta.
  assert (Hstep : forall m', factory m' = factory m ->
            promises m' = promises m ->
            step m' Call_createContext =
              {| factory := factory m; promises := promises m;
                 tasks := tasks m' ++
                   [Resolved (Ok {| browserContext :=
                                      contexts b (factory m) !! 0;
                                    browser_of := b |})] |}).
  { intros m' Hf Hp. unfold step, _obtainBrowser. rewrite Hf, Hp, Hslot, Hq.
    unfold createContext_resume. rewrite doCreateContext_cases, Hk, Hi.
    reflexivity. }
  unfold run. cbn [fold_left]. rewrite (Hstep m) by reflexivity.
  rewrite Hstep by reflexivity. cbn [tasks]. rewrite <- app_assoc.
  reflexivity.
Qed.

Lemma cdp_calls_share_first_context_witness :
  let m :=
    run (boot Cdp Scenario.cdp_config)
      [Call_createContext; Obtain_settled 0 (Scenario.opens 1)] in
  tasks (run m [Call_createContext; Call_createContext])
  = replicate 3 (Resolved (Ok {| browserContext := Some 0; browser_of := 0 |})).
Proof.
  cbv zeta.
  rewrite (cdp_calls_share_first_context _ 0 0);
    [reflexivity | reflexivity | reflexivity | reflexivity | reflexivity].
Defined.

(** X7: the disconnected event of any browser the factory obtained clears
    the field, whichever promise it holds, and the next call starts a
    launch or connect of its own. *)
Theorem disconnect_forces_new_browser (m : Machine) (b : nat) (cs : list nat) :
  browsers (factory m) !! b = Some cs ->
  let m1 := step m (Disconnected b) in
  let m2 := step m1 Call_createContext in
  _browserPromise (factory m1) = None
  /\ obtains (log (factory m2)) = S (obtains (log (factory m)))
  /\ _browserPromise (factory m2) = Some (length (promises m))
  /\ tasks m2 = (tasks m ++ [AwaitBrowser (length (promises m))])%list.
Proof.
  intros Hb. cbv zeta.
  assert (H1 : step m (Disconnected b) =
                 {| factory := set_browserPromise None (factory m);
                    promises := promises m; tasks := tasks m |}).
  { unfold step. rewrite Hb. reflexivity. }
  rewrite H1. split; [reflexivity|]. split.
  - rewrite BaseFacts.call_obtains.
    cbn [factory log set_browserPromise _browserPromise]. lia.
  - unfold step, _obtainBrowser.
    cbn [factory promises tasks _browserPromise set_browserPromise].
    rewrite lookup_ge_None_2 by lia. cbn. auto.
Qed.

Lemma disconnect_forces_new_browser_witness :
  let m :=
    run (boot Isolated Scenario.isolated_config)
      [Call_createContext; Obtain_settled 0 (Scenario.opens 0)] in
  obtains (log (factory (step (step m (Disconnected 0)) Call_createContext)))
  = 2.
Proof.
  cbv zeta.
  destruct (disconnect_forces_new_browser
              (run (boot Isolated Scenario.isolated_config)
                 [Call_createContext; Obtain_settled 0 (Scenario.opens 0)])
              0 []) as (_ & H & _); [reflexivity|].
  exact H.
Defined.

(** X8: a close function that finds exactly one context listed clears the
    field at line 91, before it awaits anything: a call made while that
    close is still running already starts a new launch or connect.  With
    another number of contexts the field is kept and the call uses the
    browser it holds.  The field is cleared even if the close of the
    context then fails, in which case the browser is not closed. *)
Theorem last_close_releases_registry (m : Machine) (s : Session) (c : nat)
    (cs : list nat) :
  browsers (factory m) !! browser_of s = Some cs ->
  browserContext s = Some c ->
  let m1 := step m (Call_close s) in
  let m2 := step m1 Call_createContext in
  tasks m1 = (tasks m ++ [AwaitContextClose s c])%list
  /\ _browserPromise (factory m1)
     = (if (length cs =? 1)%nat then None else _browserPromise (factory m))
  /\ (length cs = 1 ->
      obtains (log (factory m2)) = S (obtains (log (factory m))))
  /\ (length cs <> 1 -> is_Some (_browserPromise (factory m)) ->
      obtains (log (factory m2)) = obtains (log (factory m)))
  /\ (length cs = 1 ->
      let g := snd (_closeBrowserContext false s (factory m)) in
      _browserPromise g = None
      /\ closes (browser_of s) (log g) = closes (browser_of s) (log (factory m))
      /\ browsers g !! browser_of s = Some cs).
Proof.
  intros Hb Hc. cbv zeta. destruct s as [oc b]. cbn in Hb, Hc. subst oc.
  assert (H1 : step m (Call_close {| browserContext := Some c;
                                     browser_of := b |}) =
                 {| factory :=
                      emit (ContextClose c)
                        (if (length cs =? 1)%nat
                         then set_browserPromise None (factory m)
                         else factory m);
                    promises := promises m;
                    tasks := tasks m ++
                      [AwaitContextClose {| browserContext := Some c;
                                            browser_of := b |} c] |}).
  { unfold step. rewrite (BaseFacts.enter_open _ b c cs Hb). reflexivity. }
  rewrite H1. cbn [factory tasks browser_of].
  split; [reflexivity|]. split.
  { destruct (length cs =? 1)%nat; reflexivity. }
  assert (Hlog : obtains (log (emit (ContextClose c)
                     (if (length cs =? 1)%nat
                      then set_browserPromise None (factory m)
                      else factory m)))
                 = obtains (log (factory m))).
  { rewrite BaseFacts.obtains_emit. rewrite decide_False by discriminate.
    destruct (length cs =? 1)%nat; cbn [log set_browserPromise]; lia. }
  split; [|split].
  - intros Hlen. rewrite BaseFacts.call_obtains. cbn [factory]. rewrite Hlog.
    apply Nat.eqb_eq in Hlen. rewrite Hlen. cbn. lia.
  - intros Hlen [p Hp]. rewrite BaseFacts.call_obtains. cbn [factory].
    rewrite Hlog. apply Nat.eqb_neq in Hlen. rewrite Hlen.
    cbn [_browserPromise emit]. rewrite Hp. lia.
  - intros Hlen.
    destruct (BaseFacts.close_one (factory m) b c cs false Hb)
      as (_ & Hb' & Hlog' & Hp').
    cbv zeta in Hb', Hlog', Hp'. rewrite Hp', Hlog'.
    apply Nat.eqb_eq in Hlen as Hlen'. rewrite Hlen'.
    split; [reflexivity|]. split; [|exact Hb'].
    rewrite BaseFacts.closes_app. unfold closes at 2.
    assert (Hz : (length cs =? 0)%nat = false)
      by (apply Nat.eqb_neq; lia).
    rewrite Hz, filter_cons_False by discriminate. cbn. lia.
Qed.

Lemma last_close_releases_registry_witness :
  let m :=
    run (boot Isolated Scenario.isolated_config)
      [Call_createContext; Obtain_settled 0 (Scenario.opens 0);
       NewContext_settled 0 (Ok ())] in
  let s := {| browserContext := Some 0; browser_of := 0 |} in
  obtains (log (factory (step (step m (Call_close s)) Call_createContext)))
  = 2.
Proof.
  cbv zeta.
  destruct (last_close_releases_registry
              (run (boot Isolated Scenario.isolated_config)
                 [Call_createContext; Obtain_settled 0 (Scenario.opens 0);
                  NewContext_settled 0 (Ok ())])
              {| browserContext := Some 0; browser_of := 0 |} 0 [0])
    as (_ & _ & H & _); [reflexivity | reflexivity |].
  apply H. reflexivity.
Defined.

Lemma browser_close_needs_empty_witness :
  let m :=
    run (boot Isolated Scenario.isolated_config)
      [Call_createContext; Obtain_settled 0 (Scenario.opens 0);
       NewContext_settled 0 (Ok ());
       Call_close {| browserContext := Some 0; browser_of := 0 |};
       Context_closed 0 0] in
  contexts 0 (factory m) = [].
Proof.
  cbv zeta.
  apply (BaseFacts.browser_close_needs_empty _ (ContextClose_settled 1) 0).
  vm_compute. lia.
Defined.

End RegistryFacts.

(** ** More on the persistent strategy *)

Module PersistentFacts.
Import Persistent.

Lemma waited_app (l l' : list Effect) :
  waited (l ++ l') = (waited l + waited l')%Z.
Proof.
  induction l as [|e l IH]; [reflexivity|].
  destruct e; cbn [app waited]; rewrite IH; lia.
Qed.

(** *** The launch loop *)

(** X9: a launch that resolves after the attempts before it were rejected
    with the lock symptom makes the creation resolve, with no error, with
    the new context and the hard close; the waits of 2000 ms times the
    attempt number lie between the launches, and the new context is the
    handle of the factory. *)
Theorem launch_succeeds_after_contention (dir : string) (ext : Externals)
    (f : Factory) (i : nat) (ps : list bool) :
  i < 3 -> contended ext i ->
  launchPersistentContext ext i = Launched ps ->
  let r := launch_loop 3 0 dir ext f in
  fst r = Ok {| browserContext := Some (length (opened f));
                close := HardClose |}
  /\ log (snd r) = (log f ++ backoff dir i ++ [Launch dir])%list
  /\ _browserInstance (snd r) = Some (length (opened f))
  /\ pages (length (opened f)) (snd r) = ps.
Proof.
  intros Hi Hc Hl. cbv zeta.
  destruct (LaunchFacts.loop_reaches dir ext i f Hi Hc) as (g & Hg & Hlog & Hop).
  rewrite Hg. replace (3 - i) with (S (2 - i)) by lia.
  rewrite (LaunchFacts.loop_launched dir ext _ _ _ _ Hl).
  cbn [fst snd log _browserInstance set_browserInstance set_opened emit
       pages opened].
  rewrite Hop, Hlog, <- app_assoc.
  repeat split. unfold pages.
  cbn [opened set_browserInstance set_opened].
  rewrite CreateFacts.lookup_snoc. reflexivity.
Qed.

Lemma launch_succeeds_after_contention_witness :
  let r :=
    launch_loop 3 0 "/profiles/work" Scenario.third_time_lucky
      (new_factory Scenario.persistent_config) in
  log (snd r)
  = [Launch "/profiles/work"; Wait 2000; Launch "/profiles/work";
     Wait 4000; Launch "/profiles/work"].
Proof.
  cbv zeta.
  destruct (launch_succeeds_after_contention "/profiles/work"
              Scenario.third_time_lucky
              (new_factory Scenario.persistent_config) 2 [false])
    as (_ & H & _).
  - lia.
  - intros j Hj. destruct j as [|[|j]]; [| |lia];
      (eexists; split; [reflexivity | split; vm_compute; reflexivity]).
  - reflexivity.
  - exact H.
Defined.

Ltac loop_cases ext :=
  repeat match goal with
         | |- context [launchPersistentContext ext ?i] =>
           destruct (launchPersistentContext ext i) eqn:?
         | |- context [includes ?n ?s] => destruct (includes n s) eqn:?
         end.

(** X10: whatever the launches do, one creation waits 0, 2000 or 6000 ms
    in all between its launches, never longer. *)
Theorem backoff_is_bounded (dir : string) (ext : Externals) (f : Factory) :
  let w :=
    (waited (log (snd (launch_loop 3 0 dir ext f))) - waited (log f))%Z in
  w = 0%Z \/ w = 2000%Z \/ w = 6000%Z.
Proof.
  cbv zeta. unfold launch_loop. cbn [Nat.ltb Nat.leb].
  loop_cases ext;
    cbn [orb snd log emit set_browserInstance set_opened Z.of_nat];
    rewrite ?waited_app; cbn [waited]; lia.
Qed.

(** X11: a creation that is rejected by its launch loop is rejected with
    the not-installed message, the already-running message, or the very
    message of one of its three launches; the error of line 245 is never
    produced by the loop itself. *)
Theorem launch_errors_are_classified (dir : string) (ext : Externals)
    (f : Factory) (e : string) :
  fst (launch_loop 3 0 dir ext f) = Err e ->
  (e = NOT_INSTALLED \/ e = ALREADY_RUNNING
   \/ exists i, i < 3 /\ launchPersistentContext ext i = LaunchFailed e)
  /\ ((forall i, launchPersistentContext ext i <> LaunchFailed EXHAUSTED) ->
      e <> EXHAUSTED).
Proof.
  intros He.
  assert (H : e = NOT_INSTALLED \/ e = ALREADY_RUNNING
              \/ exists i, i < 3 /\ launchPersistentContext ext i = LaunchFailed e).
  { revert He. unfold launch_loop. cbn [Nat.ltb Nat.leb].
    loop_cases ext; cbn [orb fst]; intros He;
      (first [discriminate He | injection He as <-]);
      first [ left; reflexivity
            | right; left; reflexivity
            | right; right; exists 0; split; [lia | assumption]
            | right; right; exists 1; split; [lia | assumption]
            | right; right; exists 2; split; [lia | assumption] ]. }
  split; [exact H|]. intros Hno.
  destruct H as [-> | [-> | (i & _ & Hi)]]; try discriminate.
  intros ->. exact (Hno i Hi).
Qed.

Lemma launch_errors_are_classified_witness :
  ALREADY_RUNNING <> EXHAUSTED.
Proof.
  apply (launch_errors_are_classified "/profiles/work" Scenario.profile_locked
           (new_factory Scenario.persistent_config) ALREADY_RUNNING).
  - reflexivity.
  - intros i. discriminate.
Defined.

(** *** What a creation touches *)

Lemma loop_frame (dir : string) (ext : Externals) rounds i f :
  let g := snd (launch_loop rounds i dir ext f) in
  _userDataDir g = _userDataDir f
  /\ _userDataDirs g = _userDataDirs f
  /\ _createContextPromise g = _createContextPromise f
  /\ config g = config f
  /\ exists rest,
       log g = (log f ++ rest)%list
       /\ Forall (fun e => e = Launch dir \/ exists ms, e = Wait ms) rest.
Proof.
  cbv zeta. revert i f. induction rounds as [|rounds IH]; intros i f.
  - cbn. repeat split. exists []. rewrite app_nil_r. auto.
  - unfold launch_loop; fold launch_loop.
    assert (Hone : exists rest,
               (log f ++ [Launch dir])%list = (log f ++ rest)%list
               /\ Forall (fun e => e = Launch dir \/ exists ms, e = Wait ms)
                         rest).
    { exists [Launch dir]. split; [reflexivity|].
      constructor; [left; reflexivity | constructor]. }
    destruct (launchPersistentContext ext i) as [ps|message];
      [cbn; auto 6|].
    destruct (includes "Executable doesn't exist" message); [cbn; auto 6|].
    destruct (includes "ProcessSingleton" message
              || includes "Invalid URL" message); [|cbn; auto 6].
    destruct (i <? 2)%nat; [|cbn; auto 6].
    destruct (IH (S i) (emit (Wait (2000 * (Z.of_nat i + 1)))
                          (emit (Launch dir) f)))
      as (H1 & H2 & H3 & H4 & rest & Hlog & Hall).
    rewrite H1, H2, H3, H4, Hlog. repeat split.
    exists ([Launch dir; Wait (2000 * (Z.of_nat i + 1))] ++ rest)%list.
    split; [cbn; rewrite <- !app_assoc; reflexivity|].
    apply Forall_app. split; [|exact Hall].
    constructor; [left; reflexivity|].
    constructor; [right; eauto | constructor].
Qed.

Lemma loop_failure_keeps_handle (dir : string) (ext : Externals) rounds i f e :
  fst (launch_loop rounds i dir ext f) = Err e ->
  _browserInstance (snd (launch_loop rounds i dir ext f)) = _browserInstance f
  /\ opened (snd (launch_loop rounds i dir ext f)) = opened f.
Proof.
  revert i f. induction rounds as [|rounds IH]; intros i f; [cbn; auto|].
  unfold launch_loop; fold launch_loop.
  destruct (launchPersistentContext ext i) as [ps|message]; [discriminate|].
  destruct (includes "Executable doesn't exist" message); [cbn; auto|].
  destruct (includes "ProcessSingleton" message
            || includes "Invalid URL" message); [|cbn; auto].
  destruct (i <? 2)%nat; [|cbn; auto].
  intros He. apply IH in He as [H1 H2]. rewrite H1, H2. auto.
Qed.

(** The shape of every run of [_doCreateContext]. *)
Lemma doCreateContext_shape pf clientInfo ext f :
  let dir := directory_of pf clientInfo f in
  let made :=
    match userDataDir (browser (config f)) with
    | Some _ => []
    | None => [Mkdir dir]
    end in
  let r := _doCreateContext pf clientInfo ext f in
  (exists e, r = (Err e, f))
  \/ (exists e g, r = (Err e, g)
      /\ g = {| config := config f; _userDataDirs := _userDataDirs f;
                _browserInstance := _browserInstance f;
                _userDataDir := _userDataDir f;
                _createContextPromise := _createContextPromise f;
                opened := opened f; log := log f ++ made |})
  \/ (exists h,
        h = {| config := config f;
               _userDataDirs := {[dir]} ∪ _userDataDirs f;
               _browserInstance := _browserInstance f;
               _userDataDir := Some dir;
               _createContextPromise := _createContextPromise f;
               opened := opened f; log := log f ++ made |}
        /\ r = launch_loop 3 0 dir ext h).
Proof.
  cbv zeta. unfold _doCreateContext, directory_of.
  destruct (injectCdpPort _ _); [|left; eauto].
  destruct (userDataDir (browser (config f))) as [d|] eqn:Hd.
  - destruct (startTraceServer (config f) (traceServer ext)) eqn:Ht.
    + right. right. eexists. split; [reflexivity|].
      rewrite app_nil_r. destruct f; reflexivity.
    + left. eauto.
  - unfold _createUserDataDir. destruct (mkdir ext).
    + cbn [config emit].
      destruct (startTraceServer (config f) (traceServer ext)) eqn:Ht.
      * right. right. eexists. split; reflexivity.
      * right. left. eexists _, _. split; reflexivity.
    + right. left. eexists _, _. split; reflexivity.
Qed.

(** When the helpers before the launch succeed, the directory is claimed
    and the loop is entered. *)
Lemma doCreateContext_launching pf clientInfo ext f port traces :
  findFreePort ext = Ok port -> mkdir ext = Ok () ->
  traceServer ext = Ok traces ->
  let dir := directory_of pf clientInfo f in
  exists h,
    _doCreateContext pf clientInfo ext f = launch_loop 3 0 dir ext h
    /\ _userDataDir h = Some dir
    /\ _userDataDirs h = {[dir]} ∪ _userDataDirs f
    /\ _browserInstance h = _browserInstance f
    /\ opened h = opened f.
Proof.
  intros Hp Hm Ht. cbv zeta.
  unfold _doCreateContext, directory_of, injectCdpPort, startTraceServer,
    _createUserDataDir.
  rewrite Hp, Hm, Ht.
  destruct (decide _); destruct (userDataDir (browser (config f)));
    cbn [config emit]; destruct (negb (saveTrace (config f)));
    (eexists; split; [reflexivity | cbn; auto]).
Qed.

(** X12: every run of [_doCreateContext] uses one directory: the
    configured one when there is one, whatever the caller's root path, and
    otherwise the one derived for the root path.  The directory is made
    (mkdir) only when none is configured, every launch is of that
    directory, and nothing else is called but the waits. *)
Theorem creation_uses_one_directory pf (clientInfo : ClientInfo)
    (ext : Externals) (f : Factory) :
  exists rest,
    log (snd (_doCreateContext pf clientInfo ext f)) = (log f ++ rest)%list
    /\ Forall (of_creation (userDataDir (browser (config f)))
                 (directory_of pf clientInfo f)) rest.
Proof.
  set (dir := directory_of pf clientInfo f).
  assert (Hmade : Forall (of_creation (userDataDir (browser (config f))) dir)
                    match userDataDir (browser (config f)) with
                    | Some _ => []
                    | None => [Mkdir dir]
                    end).
  { destruct (userDataDir (browser (config f))); constructor; cbn; auto. }
  destruct (doCreateContext_shape pf clientInfo ext f)
    as [[e ->] | [(e & g & -> & ->) | (h & -> & ->)]].
  - exists []. rewrite app_nil_r. split; [reflexivity | constructor].
  - eexists. split; [reflexivity | exact Hmade].
  - match goal with
    | |- context [launch_loop 3 0 _ ext ?h] =>
      destruct (loop_frame (directory_of pf clientInfo f) ext 3 0 h)
        as (_ & _ & _ & _ & rest & Hlog & Hall)
    end.
    fold dir in Hlog |- *. rewrite Hlog. cbn [log].
    eexists. split; [rewrite <- app_assoc; reflexivity|].
    apply Forall_app. split; [exact Hmade|].
    eapply Forall_impl; [exact Hall|].
    intros x [-> | [ms ->]]; cbn; auto.
Qed.

(** X13: a creation whose launches are all rejected leaves the directory
    claimed: the field and the set still name it, although no handle was
    set, and the status reports it. *)
Theorem failed_launch_keeps_claim pf (clientInfo : ClientInfo)
    (ext : Externals) (f : Factory) (e : string) (port : Z) (traces : string) :
  findFreePort ext = Ok port -> mkdir ext = Ok () ->
  traceServer ext = Ok traces ->
  fst (_doCreateContext pf clientInfo ext f) = Err e ->
  let g := snd (_doCreateContext pf clientInfo ext f) in
  let dir := directory_of pf clientInfo f in
  _userDataDir g = Some dir
  /\ dir ∈ _userDataDirs g
  /\ _browserInstance g = _browserInstance f
  /\ boundDirectory (getBrowserStatus g) = Some dir.
Proof.
  intros Hp Hm Ht He. cbv zeta.
  destruct (doCreateContext_launching pf clientInfo ext f port traces Hp Hm Ht)
    as (h & Hrun & Hd & Hds & Hb & _).
  cbv zeta in Hrun. rewrite Hrun in He |- *.
  destruct (loop_frame (directory_of pf clientInfo f) ext 3 0 h)
    as (H1 & H2 & _).
  destruct (loop_failure_keeps_handle _ _ _ _ _ _ He) as [H3 _].
  unfold getBrowserStatus. cbn [boundDirectory].
  rewrite H1, H2, H3, Hd, Hds, Hb. repeat split.
  apply elem_of_union_l, elem_of_singleton. reflexivity.
Qed.

Lemma failed_launch_keeps_claim_witness :
  "/profiles/work"
  ∈ _userDataDirs
      (snd (_doCreateContext Scenario.platform Scenario.client
              Scenario.profile_locked
              (new_factory Scenario.persistent_config))).
Proof.
  destruct (failed_launch_keeps_claim Scenario.platform Scenario.client
              Scenario.profile_locked
              (new_factory Scenario.persistent_config)
              ALREADY_RUNNING 9222 "/traces")
    as (_ & H & _); [reflexivity | reflexivity | reflexivity | reflexivity |].
  exact H.
Defined.

(** X14: a helper that fails before the launch makes the creation reject
    with that error without a launch and without a claim: a port that
    cannot be found (asked for chromium only) stops the creation before
    anything; a directory that cannot be made, or a trace server that
    cannot be started (asked for only when traces are saved), stops it
    after the mkdir call, with the fields of the factory as they were. *)
Theorem failure_before_launch_claims_nothing pf (clientInfo : ClientInfo)
    (ext : Externals) (f : Factory) (e : string) :
  let r := _doCreateContext pf clientInfo ext f in
  let untouched :=
    fst r = Err e
    /\ _userDataDir (snd r) = _userDataDir f
    /\ _userDataDirs (snd r) = _userDataDirs f
    /\ _browserInstance (snd r) = _browserInstance f
    /\ count is_launch (log (snd r)) = count is_launch (log f) in
  (browserName (browser (config f)) = chromium ->
   findFreePort ext = Err e -> r = (Err e, f))
  /\ (injectCdpPort (browser (config f)) (findFreePort ext) = Ok () ->
      userDataDir (browser (config f)) = None ->
      mkdir ext = Err e -> untouched)
  /\ (injectCdpPort (browser (config f)) (findFreePort ext) = Ok () ->
      (userDataDir (browser (config f)) = None -> mkdir ext = Ok ()) ->
      saveTrace (config f) = true -> traceServer ext = Err e -> untouched).
Proof.
  cbv zeta. split; [|split].
  - intros Hc Hp. unfold _doCreateContext, injectCdpPort.
    rewrite decide_True by exact Hc. rewrite Hp. reflexivity.
  - intros Hi Hd Hm. unfold _doCreateContext, _createUserDataDir.
    rewrite Hi, Hd, Hm. cbn [fst snd _userDataDir _userDataDirs
                              _browserInstance log emit].
    repeat split. rewrite CreateFacts.count_app. unfold count at 2.
    rewrite filter_cons_False by done. cbn. lia.
  - intros Hi Hm Hs Ht. unfold _doCreateContext, _createUserDataDir,
      startTraceServer. rewrite Hi.
    destruct (userDataDir (browser (config f))) as [d|].
    + rewrite Hs, Ht. cbn. auto.
    + rewrite (Hm eq_refl). cbn [config emit]. rewrite Hs, Ht.
      cbn [negb fst snd _userDataDir _userDataDirs _browserInstance log emit].
      repeat split. rewrite CreateFacts.count_app. unfold count at 2.
      rewrite filter_cons_False by done. cbn. lia.
Qed.

Lemma failure_before_launch_claims_nothing_witness :
  _doCreateContext Scenario.platform Scenario.client Scenario.no_port
    (new_factory Scenario.chromium_config)
  = (Err "listen EADDRINUSE", new_factory Scenario.chromium_config).
Proof.
  destruct (failure_before_launch_claims_nothing Scenario.platform
              Scenario.client Scenario.no_port
              (new_factory Scenario.chromium_config) "listen EADDRINUSE")
    as (H & _).
  apply H; reflexivity.
Defined.

(** *** The directory that is bound is claimed *)

Lemma claimed_frame (f g : Factory) :
  _userDataDir g = _userDataDir f -> _userDataDirs g = _userDataDirs f ->
  claimed f -> claimed g.
Proof. unfold claimed. intros -> ->. auto. Qed.

Lemma claimed_finish (f : Factory) :
  claimed f -> claimed (_hardCloseBrowserContext_finish f).
Proof.
  intros Hf. unfold _hardCloseBrowserContext_finish.
  destruct (truthy (_userDataDir (set_browserInstance None f))).
  - intros d Hd. discriminate.
  - exact Hf.
Qed.

Lemma claimed_doCreateContext pf clientInfo ext (f : Factory) :
  claimed f -> claimed (snd (_doCreateContext pf clientInfo ext f)).
Proof.
  intros Hf.
  destruct (doCreateContext_shape pf clientInfo ext f)
    as [[e ->] | [(e & g & -> & ->) | (h & -> & ->)]].
  - exact Hf.
  - exact Hf.
  - match goal with
    | |- context [launch_loop 3 0 _ ext ?h] =>
      destruct (loop_frame (directory_of pf clientInfo f) ext 3 0 h)
        as (H1 & H2 & _)
    end.
    intros d Hd. rewrite H1 in Hd. rewrite H2. cbn in Hd |- *.
    injection Hd as <-. apply elem_of_union_l, elem_of_singleton.
    reflexivity.
Qed.

Lemma claimed_step pf (m : Machine) (e : Event) :
  claimed (factory m) -> claimed (factory (step pf m e)).
Proof.
  intros Hf. destruct e as [c|t title|p ext|[|]| |t|b|b ps]; cbn [step].
  - unfold createContext_enter, createContext_start.
    destruct (_createContextPromise (factory m)); [exact Hf|].
    destruct (_browserInstance (factory m)); exact Hf.
  - destruct (tasks m !! t) as [[ps c| | | | |]|]; try exact Hf.
    unfold createContext_afterProbe, createContext_start.
    destruct (_isBrowserContextValid ps title); exact Hf.
  - destruct (promises m !! p) as [[c [r|]]|]; try exact Hf.
    pose proof (claimed_doCreateContext pf c ext (factory m) Hf) as H.
    destruct (_doCreateContext pf c ext (factory m)) as [r g].
    cbn [factory snd] in *. destruct (existsb _ _); exact H.
  - exact Hf.
  - unfold _hardCloseBrowserContext_enter.
    destruct (_browserInstance (factory m)) as [b|];
      [destruct (negb (forallb id (pages b (factory m))))|];
      cbn [factory]; try exact Hf; apply claimed_finish, Hf.
  - unfold _hardCloseBrowserContext_enter.
    destruct (_browserInstance (factory m)) as [b|];
      [destruct (negb (forallb id (pages b (factory m))))|];
      cbn [factory]; try exact Hf;
      apply (claimed_frame (_hardCloseBrowserContext_finish (factory m)));
      try reflexivity; apply claimed_finish, Hf.
  - destruct (tasks m !! t) as [[| | |reset| |]|]; try exact Hf.
    cbn [factory]. destruct reset; [|apply claimed_finish, Hf].
    apply (claimed_frame (_hardCloseBrowserContext_finish (factory m)));
      try reflexivity; apply claimed_finish, Hf.
  - destruct (opened (factory m) !! b); [|exact Hf].
    apply (claimed_finish _ Hf).
  - exact Hf.
Qed.

Lemma claimed_run pf (es : list Event) (m : Machine) :
  claimed (factory m) -> claimed (factory (run pf m es)).
Proof.
  revert m. induction es as [|e es IH]; intros m Hm; [exact Hm|].
  rewrite CreateFacts.run_cons. apply IH, claimed_step, Hm.
Qed.

Lemma claimed_boot (cfg : FullConfig) : claimed (factory (boot cfg)).
Proof. intros d Hd. discriminate. Qed.


(** *** Hard close and the status *)

Lemma finish_counts (p : Effect -> bool) (f : Factory) :
  (forall d, p (DeleteDir d) = false) ->
  count p (log (_hardCloseBrowserContext_finish f)) = count p (log f).
Proof.
  intros Hp. unfold _hardCloseBrowserContext_finish.
  destruct (truthy (_userDataDir (set_browserInstance None f)));
    [|reflexivity].
  cbn [log set_userDataDir set_userDataDirs emit set_browserInstance].
  rewrite CreateFacts.count_app. unfold count at 2.
  rewrite filter_cons_False by (rewrite Hp; discriminate).
  cbn. lia.
Qed.

Lemma hard_close_clears_handle (o : CloseOutcome) (f : Factory) :
  _browserInstance (snd (_hardCloseBrowserContext o f)) = None.
Proof.
  unfold _hardCloseBrowserContext, _hardCloseBrowserContext_enter.
  destruct (_browserInstance f) as [b|];
    [destruct (negb (forallb id (pages b f)))|];
    try (destruct (threw o)); cbn [fst snd];
    apply CreateFacts.finish_instance.
Qed.

(** X16: a hard close drops the handle whatever happens, but calls
    [close()] on the context only when one of its pages is still open: a
    context whose pages are all closed, or that has no page, is forgotten
    without being closed.  A close that rejects changes none of this. *)
Theorem hard_close_skips_closed_pages (o : CloseOutcome) (f : Factory)
    (b : nat) :
  _browserInstance f = Some b ->
  let g := snd (_hardCloseBrowserContext o f) in
  _browserInstance g = None
  /\ count is_close_call (log g)
     = count is_close_call (log f)
       + (if forallb id (pages b f) then 0 else 1).
Proof.
  intros Hb. cbv zeta. split; [apply hard_close_clears_handle|].
  unfold _hardCloseBrowserContext, _hardCloseBrowserContext_enter.
  rewrite Hb. change closeListener with _hardCloseBrowserContext_finish.
  destruct (forallb id (pages b f)); cbn [negb].
  - cbn [snd]. rewrite finish_counts by reflexivity. lia.
  - destruct (emitted o); destruct (threw o); cbn [snd];
      rewrite !finish_counts by reflexivity;
      cbn [log emit]; rewrite CreateFacts.count_app; reflexivity.
Qed.

Lemma hard_close_skips_closed_pages_witness :
  let f :=
    factory (run Scenario.platform (boot Scenario.persistent_config)
               [Call_createContext Scenario.client;
                Creation_settled 0 Scenario.launches_fine;
                Pages_changed 0 []]) in
  _browserInstance (snd (_hardCloseBrowserContext
                           {| threw := false; emitted := true |} f)) = None
  /\ count is_close_call
       (log (snd (_hardCloseBrowserContext
                    {| threw := false; emitted := true |} f))) = 0.
Proof.
  cbv zeta.
  destruct (hard_close_skips_closed_pages
              {| threw := false; emitted := true |}
              (factory (run Scenario.platform
                          (boot Scenario.persistent_config)
                          [Call_createContext Scenario.client;
                           Creation_settled 0 Scenario.launches_fine;
                           Pages_changed 0 []]))
              0) as [H1 H2]; [reflexivity|].
  split; [exact H1 | exact H2].
Defined.

(** X17: what the status calls valid is the guard of the hard close, not
    the verdict of the probe: with a handle, [isValid] is true exactly
    when a hard close would call [close()]; a context without pages is
    reported not valid although the probe of [createContext] judges it
    live and reuses it; and after a hard close there is no instance and no
    validity to report. *)
Theorem status_validity_is_the_close_guard (f : Factory) (b : nat) :
  _browserInstance f = Some b ->
  hasInstance (getBrowserStatus f) = true
  /\ (isValid (getBrowserStatus f) = Some true
      <-> exists g, _hardCloseBrowserContext_enter f = inl g)
  /\ (pages b f = [] ->
      isValid (getBrowserStatus f) = Some false
      /\ forall title, _isBrowserContextValid (pages b f) title = true)
  /\ (forall o,
        let g := snd (_hardCloseBrowserContext o f) in
        hasInstance (getBrowserStatus g) = false
        /\ isValid (getBrowserStatus g) = None).
Proof.
  intros Hb. unfold getBrowserStatus at 1 2 3.
  cbn [hasInstance isValid]. rewrite Hb.
  split; [reflexivity|]. split; [|split].
  - unfold _hardCloseBrowserContext_enter. rewrite Hb.
    destruct (negb (forallb id (pages b f))); split.
    + eauto.
    + reflexivity.
    + discriminate.
    + intros [g Hg]. discriminate.
  - intros ->. split; [reflexivity|]. intros title. reflexivity.
  - intros o. cbv zeta. unfold getBrowserStatus. cbn [hasInstance isValid].
    rewrite hard_close_clears_handle. auto.
Qed.

Lemma status_validity_is_the_close_guard_witness :
  let f :=
    factory (run Scenario.platform (boot Scenario.persistent_config)
               [Call_createContext Scenario.client;
                Creation_settled 0 Scenario.launches_fine;
                Pages_changed 0 []]) in
  isValid (getBrowserStatus f) = Some false
  /\ forall title, _isBrowserContextValid (pages 0 f) title = true.
Proof.
  cbv zeta.
  destruct (status_validity_is_the_close_guard
              (factory (run Scenario.platform
                          (boot Scenario.persistent_config)
                          [Call_createContext Scenario.client;
                           Creation_settled 0 Scenario.launches_fine;
                           Pages_changed 0 []]))
              0) as (_ & _ & H & _); [reflexivity|].
  apply H. reflexivity.
Defined.

Lemma hard_close_empty_directory_witness :
  let f :=
    factory (run Scenario.platform (boot Scenario.temporary_profile_config)
               [Call_createContext Scenario.client;
                Creation_settled 0 Scenario.launches_fine]) in
  let g := snd (_hardCloseBrowserContext
                  {| threw := false; emitted := true |} f) in
  _userDataDir g = Some "" /\ "" ∈ _userDataDirs g.
Proof.
  cbv zeta.
  apply (CloseFacts.hard_close_empty_directory
           {| threw := false; emitted := true |}
           (factory (run Scenario.platform
                       (boot Scenario.temporary_profile_config)
                       [Call_createContext Scenario.client;
                        Creation_settled 0 Scenario.launches_fine]))).
  - reflexivity.
  - apply claimed_run; [apply claimed_boot | reflexivity].
Defined.

(** *** Callers of one creation *)

Lemma run_events_app pf (m : Machine) (es es' : list Event) :
  run pf m (es ++ es')%list = run pf (run pf m es) es'.
Proof. unfold run. apply fold_left_app. Qed.

Lemma count_none (p : Effect -> bool) (l : list Effect) :
  Forall (fun e => p e = false) l -> count p l = 0.
Proof.
  induction 1 as [|e l He _ IH]; [reflexivity|].
  unfold count in *. rewrite filter_cons_False by (rewrite He; discriminate).
  exact IH.
Qed.

Lemma count_start_snoc (l : list Effect) :
  count is_start (l ++ [StartCreation])%list = S (count is_start l).
Proof.
  rewrite CreateFacts.count_app.
  change (count is_start [StartCreation]) with 1. lia.
Qed.

(** A run of [_doCreateContext] starts no creation. *)
Lemma doCreateContext_starts pf clientInfo ext (f : Factory) :
  count is_start (log (snd (_doCreateContext pf clientInfo ext f)))
  = count is_start (log f).
Proof.
  assert (Hmade : count is_start
                    match userDataDir (browser (config f)) with
                    | Some _ => []
                    | None => [Mkdir (directory_of pf clientInfo f)]
                    end = 0).
  { destruct (userDataDir (browser (config f))); reflexivity. }
  destruct (doCreateContext_shape pf clientInfo ext f)
    as [[e ->] | [(e & g & -> & ->) | (h & -> & ->)]].
  - reflexivity.
  - cbn [snd log]. rewrite CreateFacts.count_app, Hmade. lia.
  - match goal with
    | |- context [launch_loop 3 0 _ ext ?h] =>
      destruct (loop_frame (directory_of pf clientInfo f) ext 3 0 h)
        as (_ & _ & _ & _ & rest & Hlog & Hall)
    end.
    rewrite Hlog. cbn [log]. rewrite !CreateFacts.count_app, Hmade.
    rewrite (count_none is_start rest); [lia|].
    eapply Forall_impl; [exact Hall|].
    intros x [-> | [ms ->]]; reflexivity.
Qed.

(** A run of [_doCreateContext] that rejects sets no handle. *)
Lemma failed_creation_keeps_handle pf clientInfo ext (f : Factory) e :
  fst (_doCreateContext pf clientInfo ext f) = Err e ->
  _browserInstance (snd (_doCreateContext pf clientInfo ext f))
  = _browserInstance f.
Proof.
  destruct (doCreateContext_shape pf clientInfo ext f)
    as [[e' ->] | [(e' & g & -> & ->) | (h & -> & ->)]].
  - reflexivity.
  - reflexivity.
  - intros He. apply loop_failure_keeps_handle in He as [-> _]. reflexivity.
Qed.

(** The machine after the calls that find neither handle nor pending
    creation, and after the creation they share has settled. *)
Lemma coalesced_creation_settles pf (m : Machine) (c : ClientInfo)
    (cs : list ClientInfo) (ext : Externals) :
  _createContextPromise (factory m) = None ->
  _browserInstance (factory m) = None ->
  let p := length (promises m) in
  let r := _doCreateContext pf c ext
             (snd (createContext_start p (factory m))) in
  run pf m ((Call_createContext <$> (c :: cs)) ++ [Creation_settled p ext])
  = {| factory := createContext_finally (snd r);
       promises := (promises m ++ [(c, Some (fst r))])%list;
       tasks :=
         ((resume p (fst r) <$> tasks m)
          ++ replicate (S (length cs)) (Resolved (fst r)))%list |}.
Proof.
  intros Hslot Hb. cbv zeta.
  rewrite run_events_app, fmap_cons, (CreateFacts.run_cons pf m),
    (CreateFacts.call_creates pf m c) by done.
  rewrite (CreateFacts.calls_join pf cs _ c (length (promises m)));
    [| reflexivity | apply CreateFacts.lookup_snoc].
  cbn [factory promises tasks].
  unfold run, fold_left, step. cbn [promises factory tasks].
  rewrite CreateFacts.lookup_snoc.
  unfold createContext_start. cbn [snd].
  destruct (_doCreateContext pf c ext _) as [r g]. cbn [fst snd].
  rewrite CreateFacts.insert_snoc.
  rewrite <- app_assoc, existsb_app. cbn [existsb is_creating app].
  rewrite bool_decide_eq_true_2 by reflexivity.
  rewrite orb_true_r. f_equal.
  rewrite fmap_app, fmap_cons, fmap_replicate. cbn [resume].
  rewrite !decide_True by reflexivity. reflexivity.
Qed.

(** X18: calls that find neither a handle nor a pending creation, however
    many are issued before the creation settles, are all answered by the
    one run of [_doCreateContext] started for the first of them: its
    session or its error reaches every caller, with the root path of the
    first caller deciding the directory, and the slot is free again. *)
Theorem creation_reaches_all_callers pf (m : Machine) (c : ClientInfo)
    (cs : list ClientInfo) (ext : Externals) :
  _createContextPromise (factory m) = None ->
  _browserInstance (factory m) = None ->
  let p := length (promises m) in
  let r := _doCreateContext pf c ext
             (snd (createContext_start p (factory m))) in
  let m' :=
    run pf m
      ((Call_createContext <$> (c :: cs)) ++ [Creation_settled p ext]) in
  (forall j, j <= length cs ->
     tasks m' !! (length (tasks m) + j) = Some (Resolved (fst r)))
  /\ _createContextPromise (factory m') = None
  /\ count is_start (log (factory m'))
     = S (count is_start (log (factory m))).
Proof.
  intros Hslot Hb. cbv zeta.
  rewrite coalesced_creation_settles by done.
  cbn [factory tasks]. split; [|split].
  - intros j Hj. rewrite lookup_app_r by (rewrite length_fmap; lia).
    rewrite length_fmap. apply lookup_replicate_2. lia.
  - reflexivity.
  - unfold createContext_finally. cbn [log set_createContextPromise].
    rewrite doCreateContext_starts. unfold createContext_start.
    cbn [snd log set_createContextPromise emit].
    apply count_start_snoc.
Qed.

Lemma creation_reaches_all_callers_witness :
  let m' :=
    run Scenario.platform (boot Scenario.persistent_config)
      [Call_createContext Scenario.client;
       Call_createContext {| rootPath := None |};
       Call_createContext {| rootPath := Some "/srv" |};
       Creation_settled 0 Scenario.profile_locked] in
  let e :=
    "Browser is already running with the same profile."
    ++ " Please close the existing browser instance or"
    ++ " wait for it to fully shut down." in
  tasks m' !! 0 = Some (Resolved (Err e))
  /\ tasks m' !! 1 = Some (Resolved (Err e))
  /\ tasks m' !! 2 = Some (Resolved (Err e)).
Proof.
  cbv zeta.
  destruct (creation_reaches_all_callers Scenario.platform
              (boot Scenario.persistent_config) Scenario.client
              [{| rootPath := None |}; {| rootPath := Some "/srv" |}]
              Scenario.profile_locked) as (H & _);
    [reflexivity | reflexivity |].
  split; [exact (H 0 ltac:(cbn; lia))|].
  split; [exact (H 1 ltac:(cbn; lia)) | exact (H 2 ltac:(cbn; lia))].
Defined.

(** X19: a creation that rejects blocks nothing: every caller that was
    waiting for it gets the error, no handle is set and the slot is
    cleared, so the next call starts a creation of its own instead of
    being answered with the old error. *)
Theorem failed_creation_can_be_retried pf (m : Machine) (c c' : ClientInfo)
    (cs : list ClientInfo) (ext : Externals) (e : string) :
  _createContextPromise (factory m) = None ->
  _browserInstance (factory m) = None ->
  let p := length (promises m) in
  fst (_doCreateContext pf c ext (snd (createContext_start p (factory m))))
  = Err e ->
  let m' :=
    run pf m
      ((Call_createContext <$> (c :: cs))
       ++ [Creation_settled p ext; Call_createContext c']) in
  (forall j, j <= length cs ->
     tasks m' !! (length (tasks m) + j) = Some (Resolved (Err e)))
  /\ tasks m' !! (length (tasks m) + S (length cs)) = Some (Creating (S p))
  /\ promises m' !! S p = Some (c', None)
  /\ count is_start (log (factory m'))
     = count is_start (log (factory m)) + 2.
Proof.
  intros Hslot Hb. cbv zeta. intros He.
  change [Creation_settled (length (promises m)) ext; Call_createContext c']
    with ([Creation_settled (length (promises m)) ext]
          ++ [Call_createContext c'])%list.
  rewrite app_assoc, run_events_app, coalesced_creation_settles by done.
  rewrite He.
  unfold run, fold_left. rewrite CreateFacts.call_creates.
  - cbn [factory tasks promises]. rewrite length_app. cbn [length].
    replace (length (promises m) + 1) with (S (length (promises m))) by lia.
    split; [|split; [|split]].
    + intros j Hj. rewrite <- app_assoc.
      rewrite lookup_app_r by (rewrite length_fmap; lia).
      rewrite length_fmap. rewrite lookup_app_l
        by (rewrite length_replicate; lia).
      apply lookup_replicate_2. lia.
    + rewrite <- app_assoc.
      rewrite lookup_app_r by (rewrite length_fmap; lia).
      rewrite length_fmap.
      replace (length (tasks m) + S (length cs) - length (tasks m))
        with (length (replicate (S (length cs)) (Resolved (Err e))))
        by (rewrite length_replicate; lia).
      apply CreateFacts.lookup_snoc.
    + replace (S (length (promises m)))
        with (length (promises m ++ [(c, Some (Err e))])%list)
        by (rewrite length_app; cbn; lia).
      apply CreateFacts.lookup_snoc.
    + unfold createContext_finally.
      cbn [log set_createContextPromise emit].
      rewrite count_start_snoc, doCreateContext_starts.
      unfold createContext_start. cbn [snd log set_createContextPromise emit].
      rewrite count_start_snoc. lia.
  - reflexivity.
  - cbn [factory]. unfold createContext_finally.
    cbn [_browserInstance set_createContextPromise].
    rewrite (failed_creation_keeps_handle _ _ _ _ e He).
    unfold createContext_start. cbn. exact Hb.
Qed.

Lemma failed_creation_can_be_retried_witness :
  let m' :=
    run Scenario.platform (boot Scenario.persistent_config)
      [Call_createContext Scenario.client;
       Call_createContext {| rootPath := None |};
       Creation_settled 0 Scenario.profile_locked;
       Call_createContext {| rootPath := None |}] in
  tasks m' !! 2 = Some (Creating 1)
  /\ count is_start (log (factory m')) = 2.
Proof.
  cbv zeta.
  destruct (failed_creation_can_be_retried Scenario.platform
              (boot Scenario.persistent_config) Scenario.client
              {| rootPath := None |} [{| rootPath := None |}]
              Scenario.profile_locked
              ("Browser is already running with the same profile."
               ++ " Please close the existing browser instance or"
               ++ " wait for it to fully shut down."))
    as (_ & H1 & _ & H2); [reflexivity | reflexivity | reflexivity |].
  split; [exact H1 | exact H2].
Defined.


End PersistentFacts.

(** ** The persistent strategy by segments *)

Module SegmentFacts.
Import Persistent.

(** *** The segments and the whole *)

Lemma advance_all_settled n pf c ext r f :
  Segments.advance_all n pf c ext (Segments.Settled r) f
  = (Segments.Settled r, f).
Proof. induction n as [|n IH]; [reflexivity | exact IH]. Qed.

(** The rounds of the loop from launch [i] on, by segments, are
    [launch_loop]. *)
Lemma launch_segments (dir : string) pf c ext (rounds i : nat) (f : Factory) :
  0 < rounds -> rounds + i = 3 ->
  Segments.advance_all (2 * rounds - 1) pf c ext (Segments.AwaitLaunch dir i)
    (emit (Launch dir) f)
  = (Segments.Settled (fst (launch_loop rounds i dir ext f)),
     snd (launch_loop rounds i dir ext f)).
Proof.
  revert i f. induction rounds as [|rounds IH]; intros i f Hr Hi; [lia|].
  replace (2 * S rounds - 1) with (S (2 * rounds)) by lia.
  unfold launch_loop; fold launch_loop.
  cbn [Segments.advance_all Segments.advance]. unfold Segments.after_launch.
  destruct (launchPersistentContext ext i) as [ps|message].
  - apply advance_all_settled.
  - destruct (includes "Executable doesn't exist" message);
      [apply advance_all_settled|].
    destruct (includes "ProcessSingleton" message
              || includes "Invalid URL" message);
      [|apply advance_all_settled].
    destruct (i <? 2)%nat eqn:Hlt; [|apply advance_all_settled].
    apply Nat.ltb_lt in Hlt.
    destruct rounds as [|rounds']; [lia|].
    replace (2 * S rounds') with (S (2 * S rounds' - 1)) by lia.
    cbn [Segments.advance_all Segments.advance]. unfold Segments.after_timer.
    replace (S i <? 3)%nat with true by (symmetry; apply Nat.ltb_lt; lia).
    apply IH; lia.
Qed.

Lemma advance_all_add n k pf c ext ph (f : Factory) :
  Segments.advance_all (n + k) pf c ext ph f
  = Segments.advance_all k pf c ext
      (fst (Segments.advance_all n pf c ext ph f))
      (snd (Segments.advance_all n pf c ext ph f)).
Proof.
  revert ph f. induction n as [|n IH]; intros ph f; [reflexivity|].
  cbn [Nat.add Segments.advance_all].
  destruct (Segments.advance pf c ext ph f) as [ph' f']. apply IH.
Qed.

Lemma advance_all_S n pf c ext ph (f : Factory) :
  Segments.advance_all (S n) pf c ext ph f
  = Segments.advance_all n pf c ext
      (fst (Segments.advance pf c ext ph f))
      (snd (Segments.advance pf c ext ph f)).
Proof.
  cbn [Segments.advance_all].
  destruct (Segments.advance pf c ext ph f). reflexivity.
Qed.

(** The segments of a creation, one after the other with nothing between
    them, do what [_doCreateContext] does. *)
Lemma segments_compose pf c ext (f : Factory) :
  Segments.advance_all 8 pf c ext Segments.AwaitInject f
  = (Segments.Settled (fst (_doCreateContext pf c ext f)),
     snd (_doCreateContext pf c ext f)).
Proof.
  assert (Hloop : forall n d g,
            Segments.advance_all (5 + n) pf c ext (Segments.AwaitLaunch d 0)
              (emit (Launch d) g)
            = (Segments.Settled (fst (launch_loop 3 0 d ext g)),
               snd (launch_loop 3 0 d ext g))).
  { intros n d g. pose proof (launch_segments d pf c ext 3 0 g) as H.
    change (2 * 3 - 1) with 5 in H.
    rewrite advance_all_add, H by lia. apply advance_all_settled. }
  unfold _doCreateContext.
  rewrite (advance_all_S 7). cbn [Segments.advance].
  unfold Segments.after_inject.
  destruct (injectCdpPort (browser (config f)) (findFreePort ext));
    [|apply advance_all_settled].
  destruct (userDataDir (browser (config f))) as [d|]; cbn [fst snd].
  - rewrite (advance_all_S 6). cbn [Segments.advance].
    unfold Segments.after_trace.
    destruct (startTraceServer (config f) (traceServer ext));
      [|apply advance_all_settled].
    cbn [fst snd]. apply (Hloop 1).
  - unfold _createUserDataDir.
    rewrite (advance_all_S 6). cbn [Segments.advance].
    unfold Segments.after_mkdir.
    destruct (mkdir ext); [|apply advance_all_settled].
    cbn [fst snd]. rewrite (advance_all_S 5). cbn [Segments.advance].
    unfold Segments.after_trace. cbn [config emit].
    destruct (startTraceServer (config f) (traceServer ext));
      [|apply advance_all_settled].
    cbn [fst snd]. apply (Hloop 0).
Qed.

(** *** The machine by segments and the machine of whole creations *)

Lemma segments_run_cons pf (m : Segments.Machine) e es :
  Segments.run pf m (e :: es) = Segments.run pf (Segments.step pf m e) es.
Proof. reflexivity. Qed.

Lemma advanced_pending (m : Segments.Machine) p c ph (f : Factory) :
  Segments.settled_of ph = None ->
  Segments.advanced m p c (ph, f)
  = {| Segments.factory := f;
       Segments.promises := <[p := (c, ph)]> (Segments.promises m);
       Segments.tasks := Segments.tasks m |}.
Proof. destruct ph; try reflexivity; discriminate. Qed.

Lemma step_pending pf (m : Segments.Machine) p c ph ext :
  Segments.promises m !! p = Some (c, ph) ->
  Segments.settled_of ph = None ->
  Segments.step pf m (Segments.Creation_advanced p ext)
  = Segments.advanced m p c
      (Segments.advance pf c ext ph (Segments.factory m)).
Proof.
  intros Hp Hs. unfold Segments.step. rewrite Hp.
  destruct ph; try reflexivity; discriminate.
Qed.

Lemma step_settled pf (m : Segments.Machine) p c r ext :
  Segments.promises m !! p = Some (c, Segments.Settled r) ->
  Segments.step pf m (Segments.Creation_advanced p ext) = m.
Proof. intros Hp. unfold Segments.step. rewrite Hp. reflexivity. Qed.

Lemma settled_stays pf (m : Segments.Machine) p c r ext n :
  Segments.promises m !! p = Some (c, Segments.Settled r) ->
  Segments.run pf m (replicate n (Segments.Creation_advanced p ext)) = m.
Proof.
  intros Hp. induction n as [|n IH]; [reflexivity|].
  cbn [replicate]. rewrite segments_run_cons, (step_settled pf m p c r) by done.
  exact IH.
Qed.

(** A creation advanced [n] times in a row, with nothing between. *)
Lemma advanced_run pf p c ext n :
  forall (m : Segments.Machine) ph,
  Segments.promises m !! p = Some (c, ph) ->
  Segments.settled_of ph = None ->
  Segments.run pf m (replicate n (Segments.Creation_advanced p ext))
  = Segments.advanced m p c
      (Segments.advance_all n pf c ext ph (Segments.factory m)).
Proof.
  induction n as [|n IH]; intros m ph Hp Hs.
  - cbn [replicate Segments.advance_all]. rewrite advanced_pending by done.
    rewrite list_insert_id by done. destruct m; reflexivity.
  - cbn [replicate]. rewrite segments_run_cons, (step_pending pf m p c ph) by done.
    rewrite advance_all_S.
    pose proof (lookup_lt_Some _ _ _ Hp) as Hlt.
    destruct (Segments.advance pf c ext ph (Segments.factory m))
      as [ph1 f1]. cbn [fst snd].
    destruct (Segments.settled_of ph1) as [r|] eqn:Hs1.
    + destruct ph1; try discriminate. injection Hs1 as ->.
      rewrite advance_all_settled.
      apply (settled_stays pf _ p c r).
      cbn [Segments.advanced Segments.promises].
      apply list_lookup_insert_eq. exact Hlt.
    + rewrite (IH _ ph1);
        [| rewrite advanced_pending by done; cbn [Segments.promises];
           apply list_lookup_insert_eq; exact Hlt
         | exact Hs1].
      rewrite (advanced_pending m) by done. cbn [Segments.factory].
      destruct (Segments.advance_all n pf c ext ph1 f1) as [ph2 f2].
      unfold Segments.advanced. cbn [Segments.promises Segments.tasks].
      rewrite list_insert_insert_eq. reflexivity.
Qed.

(** The step of [Persistent] that settles a creation is the creation run
    through its segments with nothing between them. *)
Lemma uninterrupted_creation pf (m : Segments.Machine) p c ext :
  Segments.promises m !! p = Some (c, Segments.AwaitInject) ->
  Segments.forget
    (Segments.run pf m (replicate 8 (Segments.Creation_advanced p ext)))
  = step pf (Segments.forget m) (Creation_settled p ext).
Proof.
  intros Hp.
  rewrite (advanced_run pf p c ext 8 m Segments.AwaitInject) by done.
  rewrite segments_compose.
  assert (Hq : promises (Segments.forget m) !! p = Some (c, None)).
  { unfold Segments.forget. cbn [promises].
    rewrite list_lookup_fmap, Hp. reflexivity. }
  unfold step. rewrite Hq.
  change (factory (Segments.forget m)) with (Segments.factory m).
  change (tasks (Segments.forget m)) with (Segments.tasks m).
  change (promises (Segments.forget m))
    with ((fun cp : ClientInfo * Segments.Phase =>
             (cp.1, Segments.settled_of cp.2)) <$> Segments.promises m).
  destruct (_doCreateContext pf c ext (Segments.factory m)) as [r g].
  cbn [fst snd Segments.advanced]. unfold Segments.forget.
  cbn [Segments.factory Segments.promises Segments.tasks].
  rewrite list_fmap_insert. reflexivity.
Qed.

(** On every other event the two machines take the same step. *)
Lemma shared_step pf (m : Segments.Machine) e e' :
  Segments.shared e = Some e' ->
  Segments.forget (Segments.step pf m e) = step pf (Segments.forget m) e'.
Proof.
  destruct e as [c|t title|p ext|[|]| |t|b|b ps]; intros [= <-];
    unfold Segments.step, step, Segments.forget;
    cbn [factory promises tasks Segments.factory Segments.promises
         Segments.tasks].
  - rewrite length_fmap.
    destruct (createContext_enter (length (Segments.promises m))
                (Segments.factory m)) as [s f].
    cbn [Segments.factory Segments.promises Segments.tasks].
    f_equal.
    + destruct s; try reflexivity. cbn. rewrite fmap_app. reflexivity.
    + f_equal. f_equal. destruct s; try reflexivity. cbn.
      rewrite list_lookup_fmap.
      destruct (Segments.promises m !! p) as [[c' []]|]; reflexivity.
  - destruct (Segments.tasks m !! t) as [[ps c| | | | |]|]; try reflexivity.
    rewrite length_fmap.
    destruct (createContext_afterProbe _ _ _) as [s f].
    cbn [Segments.factory Segments.promises Segments.tasks].
    f_equal.
    + destruct s; try reflexivity. cbn. rewrite fmap_app. reflexivity.
    + f_equal. destruct s; try reflexivity. cbn.
      rewrite list_lookup_fmap.
      destruct (Segments.promises m !! p) as [[c' []]|]; reflexivity.
  - reflexivity.
  - destruct (_hardCloseBrowserContext_enter (Segments.factory m));
      reflexivity.
  - destruct (_hardCloseBrowserContext_enter (Segments.factory m));
      reflexivity.
  - destruct (Segments.tasks m !! t) as [[| | |reset| |]|]; reflexivity.
  - destruct (opened (Segments.factory m) !! b); reflexivity.
  - reflexivity.
Qed.

Lemma absent_stays pf (m : Segments.Machine) p ext n :
  Segments.promises m !! p = None ->
  Segments.run pf m (replicate n (Segments.Creation_advanced p ext)) = m.
Proof.
  intros Hp. induction n as [|n IH]; [reflexivity|].
  cbn [replicate]. rewrite segments_run_cons.
  unfold Segments.step. rewrite Hp. exact IH.
Qed.

Lemma segments_run_app pf (m : Segments.Machine) es es' :
  Segments.run pf m (es ++ es')%list
  = Segments.run pf (Segments.run pf m es) es'.
Proof. unfold Segments.run. apply fold_left_app. Qed.

Lemma whole_enter (m : Segments.Machine) c s :
  Segments.whole m ->
  Forall (fun cp : ClientInfo * Segments.Phase =>
            cp.2 = Segments.AwaitInject
            \/ exists r, cp.2 = Segments.Settled r)
         (Segments.promises_of m c s).
Proof.
  intros Hw. destruct s; try exact Hw.
  apply Forall_app. split; [exact Hw|].
  constructor; [left; reflexivity | constructor].
Qed.

(** One event of the machine of [Persistent], on whole creations, is the
    run of its segments. *)
Lemma whole_step pf (m : Segments.Machine) (e : Event) :
  Segments.whole m ->
  Segments.forget (Segments.run pf m (Segments.segments_of e))
  = step pf (Segments.forget m) e
  /\ Segments.whole (Segments.run pf m (Segments.segments_of e)).
Proof.
  intros Hw.
  assert (Hshared : forall e',
            Segments.shared e' = Some e ->
            Segments.forget (Segments.run pf m [e'])
            = step pf (Segments.forget m) e).
  { intros e' He. apply (shared_step pf m e' e He). }
  destruct e as [c|t title|p ext|cl| |t|b|b ps];
    cbn [Segments.segments_of].
  - split; [apply Hshared; reflexivity|].
    unfold Segments.run, fold_left, Segments.step.
    destruct (createContext_enter _ _) as [s f].
    apply whole_enter, Hw.
  - split; [apply Hshared; reflexivity|].
    unfold Segments.run, fold_left, Segments.step.
    destruct (Segments.tasks m !! t) as [[ps c| | | | |]|]; try exact Hw.
    destruct (createContext_afterProbe _ _ _) as [s f].
    apply whole_enter, Hw.
  - destruct (Segments.promises m !! p) as [[c ph]|] eqn:Hp.
    + pose proof Hw as Hph. unfold Segments.whole in Hph.
      rewrite Forall_lookup in Hph. specialize (Hph p _ Hp).
      cbn [snd] in Hph. destruct Hph as [-> | [r ->]].
      * split; [apply (uninterrupted_creation pf m p c ext Hp)|].
        rewrite (advanced_run pf p c ext 8 m Segments.AwaitInject) by done.
        rewrite segments_compose. unfold Segments.whole.
        cbn [Segments.advanced Segments.promises].
        apply Forall_insert; [exact Hw|]. right. eauto.
      * rewrite (settled_stays pf m p c r) by done. split; [|exact Hw].
        unfold step, Segments.forget. cbn [promises].
        rewrite list_lookup_fmap, Hp. reflexivity.
    + rewrite absent_stays by done. split; [|exact Hw].
      unfold step, Segments.forget. cbn [promises].
      rewrite list_lookup_fmap, Hp. reflexivity.
  - split; [apply Hshared; reflexivity|].
    unfold Segments.run, fold_left, Segments.step.
    destruct cl; [exact Hw|].
    destruct (_hardCloseBrowserContext_enter _); exact Hw.
  - split; [apply Hshared; reflexivity|].
    unfold Segments.run, fold_left, Segments.step.
    destruct (_hardCloseBrowserContext_enter _); exact Hw.
  - split; [apply Hshared; reflexivity|].
    unfold Segments.run, fold_left, Segments.step.
    destruct (Segments.tasks m !! t) as [[| | |reset| |]|]; exact Hw.
  - split; [apply Hshared; reflexivity|].
    unfold Segments.run, fold_left, Segments.step.
    destruct (opened (Segments.factory m) !! b); exact Hw.
  - split; [apply Hshared; reflexivity|]. exact Hw.
Qed.

(** Every run of the machine of [Persistent] is a run of the machine by
    segments: the one in which no call, close or event comes between the
    awaits of a creation. *)
Lemma whole_creations_are_runs pf (es : list Event) :
  forall m : Segments.Machine,
  Segments.whole m ->
  Segments.forget (Segments.run pf m (es ≫= Segments.segments_of))
  = run pf (Segments.forget m) es.
Proof.
  induction es as [|e es IH]; intros m Hw; [reflexivity|].
  rewrite bind_cons, segments_run_app, CreateFacts.run_cons.
  destruct (whole_step pf m e Hw) as [Hstep Hw'].
  rewrite IH by exact Hw'. rewrite Hstep. reflexivity.
Qed.

(** *** The bound directory, with creations in progress *)

Lemma claimed_advance pf c ext ph (f : Factory) :
  claimed f -> claimed (snd (Segments.advance pf c ext ph f)).
Proof.
  intros Hf.
  destruct ph as [|dir|dir|dir i|dir i|r]; cbn [Segments.advance].
  - unfold Segments.after_inject.
    destruct (injectCdpPort _ _); [|exact Hf].
    destruct (userDataDir (browser (config f))); exact Hf.
  - unfold Segments.after_mkdir. destruct (mkdir ext); exact Hf.
  - unfold Segments.after_trace.
    destruct (startTraceServer _ _); [|exact Hf].
    intros d Hd. cbn in Hd |- *. injection Hd as <-.
    apply elem_of_union_l, elem_of_singleton. reflexivity.
  - unfold Segments.after_launch.
    destruct (launchPersistentContext ext i) as [ps|message]; [exact Hf|].
    destruct (includes "Executable doesn't exist" message); [exact Hf|].
    destruct (includes "ProcessSingleton" message
              || includes "Invalid URL" message); [|exact Hf].
    destruct (i <? 2)%nat; exact Hf.
  - unfold Segments.after_timer. destruct (S i <? 3)%nat; exact Hf.
  - exact Hf.
Qed.

Lemma claimed_segments_step pf (m : Segments.Machine) (e : Segments.Event) :
  claimed (Segments.factory m) ->
  claimed (Segments.factory (Segments.step pf m e)).
Proof.
  intros Hf. destruct e as [c|t title|p ext|[|]| |t|b|b ps];
    cbn [Segments.step].
  - unfold createContext_enter, createContext_start.
    destruct (_createContextPromise (Segments.factory m)); [exact Hf|].
    destruct (_browserInstance (Segments.factory m)); exact Hf.
  - destruct (Segments.tasks m !! t) as [[ps c| | | | |]|]; try exact Hf.
    unfold createContext_afterProbe, createContext_start.
    destruct (_isBrowserContextValid ps title); exact Hf.
  - destruct (Segments.promises m !! p) as [[c ph]|]; [|exact Hf].
    pose proof (claimed_advance pf c ext ph (Segments.factory m) Hf) as H.
    destruct ph; try exact Hf;
      match goal with
      | |- context [Segments.advance pf c ext ?ph (Segments.factory m)] =>
        destruct (Segments.advance pf c ext ph (Segments.factory m))
          as [ph' g]
      end;
      cbn [snd] in H; unfold Segments.advanced;
      destruct ph'; try exact H;
      cbn [Segments.factory]; destruct (existsb _ _); exact H.
  - exact Hf.
  - unfold _hardCloseBrowserContext_enter.
    destruct (_browserInstance (Segments.factory m)) as [b|];
      [destruct (negb (forallb id (pages b (Segments.factory m))))|];
      cbn [Segments.factory]; try exact Hf;
      apply PersistentFacts.claimed_finish, Hf.
  - unfold _hardCloseBrowserContext_enter.
    destruct (_browserInstance (Segments.factory m)) as [b|];
      [destruct (negb (forallb id (pages b (Segments.factory m))))|];
      cbn [Segments.factory]; try exact Hf;
      apply (PersistentFacts.claimed_frame
               (_hardCloseBrowserContext_finish (Segments.factory m)));
      try reflexivity; apply PersistentFacts.claimed_finish, Hf.
  - destruct (Segments.tasks m !! t) as [[| | |reset| |]|]; try exact Hf.
    cbn [Segments.factory].
    destruct reset; [|apply PersistentFacts.claimed_finish, Hf].
    apply (PersistentFacts.claimed_frame
             (_hardCloseBrowserContext_finish (Segments.factory m)));
      try reflexivity; apply PersistentFacts.claimed_finish, Hf.
  - destruct (opened (Segments.factory m) !! b); [|exact Hf].
    apply (PersistentFacts.claimed_finish _ Hf).
  - exact Hf.
Qed.

Lemma claimed_segments_run pf (es : list Segments.Event)
    (m : Segments.Machine) :
  claimed (Segments.factory m) ->
  claimed (Segments.factory (Segments.run pf m es)).
Proof.
  revert m. induction es as [|e es IH]; intros m Hm; [exact Hm|].
  rewrite segments_run_cons. apply IH, claimed_segments_step, Hm.
Qed.

(** X15: in every state a new factory can reach, by whatever calls,
    closes, resets and outside events in whatever order, also between the
    awaits of a creation that is in progress, the directory the factory is
    bound to (and the status reports) is one of the claimed
    directories. *)
Theorem bound_directory_is_claimed pf (cfg : FullConfig)
    (es : list Segments.Event) (d : string) :
  let f := Segments.factory (Segments.run pf (Segments.boot cfg) es) in
  boundDirectory (getBrowserStatus f) = Some d -> d ∈ _userDataDirs f.
Proof.
  cbv zeta. unfold getBrowserStatus. cbn [boundDirectory].
  apply claimed_segments_run. intros d' Hd'. discriminate.
Qed.

(** A creation suspended on its first launch, joined by a second call. *)
Lemma bound_directory_is_claimed_witness :
  "/profiles/work"
  ∈ _userDataDirs
      (Segments.factory
         (Segments.run Scenario.platform
            (Segments.boot Scenario.persistent_config)
            [Segments.Call_createContext Scenario.client;
             Segments.Creation_advanced 0 Scenario.launches_fine;
             Segments.Creation_advanced 0 Scenario.launches_fine;
             Segments.Call_createContext Scenario.client])).
Proof.
  apply (bound_directory_is_claimed Scenario.platform
           Scenario.persistent_config
           [Segments.Call_createContext Scenario.client;
            Segments.Creation_advanced 0 Scenario.launches_fine;
            Segments.Creation_advanced 0 Scenario.launches_fine;
            Segments.Call_createContext Scenario.client]).
  reflexivity.
Defined.

(** *** A reset while a creation is in progress *)



End SegmentFacts.
